(** * GOES channel processing and RGB compositing

    A shallow embedding of [color_plus.py]: path selection, radiometric
    calibration, resampling, the per-channel workers and their aggregation
    into the channel store, the solar-geometry fallbacks and the RGB
    product loop.

    Conventions.
    - A Python dictionary that is only read by key is a [gmap string _];
      a dictionary whose iteration order the code relies on
      ([raw_data_store], the catalog, the lookup tables written as
      literals) is an association list.
    - Floating-point values are modelled by real numbers ([R]); a pixel is
      an [option R], where [None] stands for NaN.  Zoom factors, which
      only feed the integer shape computation, are exact rationals ([Q]).
    - A Python call that may raise returns an [outcome]; [try/except] is a
      [match] on it.
    - A numpy array is a [shape] together with a buffer.  The buffers and
      the compiled kernels that fill them live in another notebook cell;
      they are the operations of the [Backend] class. *)

From Stdlib Require Import Reals QArith Qround Lra Lia ZArith String List Permutation.
From stdpp Require Import gmap strings list fin_maps.

Set Default Proof Using "Type".

(** ** Exceptions and outcomes *)

Inductive exn : Type :=
  | ValueError
  | KeyError
  | TypeError
  | ZeroDivisionError.

Inductive outcome (A : Type) : Type :=
  | Returned (a : A)
  | Raised (e : exn).

Arguments Returned {A} a.
Arguments Raised {A} e.

Definition obind {A B : Type} (m : outcome A) (k : A -> outcome B) : outcome B :=
  match m with
  | Returned a => k a
  | Raised e => Raised e
  end.

Notation "x <-- m ;; k" := (obind m (fun x => k))
  (at level 100, m at next level, right associativity).

(** [d[key]] on a key that may be absent. *)
Definition subscript {A : Type} (o : option A) : outcome A :=
  match o with
  | Some a => Returned a
  | None => Raised KeyError
  end.

(** [d.get(key)] and [key in d] on a dictionary literal. *)
Fixpoint dict_get {A : Type} (k : string) (d : list (string * A)) : option A :=
  match d with
  | [] => None
  | (k', v) :: d' => if String.eqb k k' then Some v else dict_get k d'
  end.

Definition dict_keys {A : Type} (d : list (string * A)) : list string := map fst d.

Definition dict_values {A : Type} (d : list (string * A)) : list A := map snd d.

(** ** Path selection (lines 26-30 and 556-583) *)

Record environment : Type := {
  DOWNLOAD_SUMMARY : option (gmap string string);
  DOWNLOAD_CONFIG : gmap string string
}.

Definition HAS_DOWNLOAD_SUMMARY (env : environment) : bool :=
  match DOWNLOAD_SUMMARY env with
  | Some _ => true
  | None => false
  end.

Definition DATA_LEVEL (env : environment) : string :=
  match DOWNLOAD_SUMMARY env with
  | Some summary => default "level1b"%string (summary !! "data_level"%string)
  | None => "level1b"%string
  end.

Definition DOMAIN_TYPE (env : environment) : string :=
  default "conus"%string (DOWNLOAD_CONFIG env !! "domain_type"%string).

Definition determine_processing_path (env : environment) : string :=
  let has_summary := HAS_DOWNLOAD_SUMMARY env in
  let data_level := DATA_LEVEL env in
  let domain_type := DOMAIN_TYPE env in
  if String.eqb data_level "level2" || has_summary then "level2_aware"%string
  else if String.eqb domain_type "full_disk" then "enhanced_full_disk"%string
  else "standard_conus"%string.

(** ** Arrays and the compiled kernels *)

Definition shape_t : Type := (nat * nat)%type.

(** A 2-D numpy array: its shape and its buffer. *)
Record ndarray (buf : Type) : Type := MkArray {
  shape : shape_t;
  data : buf
}.

Arguments MkArray {buf} shape data.
Arguments shape {buf} n.
Arguments data {buf} n.

(** [NUMBA_AVAILABLE = True] (line 14). *)
Definition NUMBA_AVAILABLE : bool := true.

(** ** Floating-point rounding *)

Section Rounding.

Local Open Scope R_scope.

(** The integer nearest a real, a tie going to the even one. *)
Definition round_half_even (y : R) : Z :=
  let n := Int_part y in
  if Rlt_dec (y - IZR n) (1 / 2) then n
  else if Rlt_dec (1 / 2) (y - IZR n) then (n + 1)%Z
  else if Z.even n then n else (n + 1)%Z.

(** The binary floating-point number nearest a real [x], with [prec]
    significant bits and the subnormal spacing [2^emin], a tie going to
    the even significand.  A result beyond the range of the format,
    which the machine makes infinite, is rounded with the exponent
    unbounded: the values of a channel and of a projection are far from
    it. *)
Definition round_binary (prec emin : Z) (x : R) : R :=
  if Req_dec_T x 0 then 0
  else
    let e := Z.max (Int_part (ln (Rabs x) / ln 2) - (prec - 1)) emin in
    IZR (round_half_even (x / powerRZ 2 e)) * powerRZ 2 e.

(** The float32 an elementwise operation on float32 arrays stores for
    its exact result, and the double a Python float operation returns. *)
Definition float32 (x : R) : R := round_binary 24 (-149) x.

Definition float64 (x : R) : R := round_binary 53 (-1074) x.

End Rounding.

(** The kernels and library calls the module uses and does not define.
    A kernel that fills a preallocated [output] returns the buffer it
    wrote; the shape of the result is that of [output], which the caller
    allocated.  [buf] holds calibrated or raw values, [img] the 8-bit
    enhanced image. *)
Class Backend (buf img : Type) : Type := {
  (* calibration *)
  numba_radiance_to_brightness_temp : ndarray buf -> R -> R -> R -> R -> buf;
  np_radiance_to_brightness_temp : ndarray buf -> R -> R -> R -> R -> buf;
  numba_visible_calibration : ndarray buf -> R -> buf;
  np_multiply : ndarray buf -> R -> buf;
  np_divide : ndarray buf -> R -> buf;
  np_nanmax : ndarray buf -> outcome (option R);
  (* resampling *)
  numba_fast_upscale_2x : ndarray buf -> shape_t -> buf;
  numba_fast_upscale_4x : ndarray buf -> shape_t -> buf;
  numba_bilinear_upscale : ndarray buf -> shape_t -> Q -> Q -> buf;
  scipy_zoom : ndarray buf -> Q * Q -> outcome (ndarray buf);
  (* enhancement *)
  enhance_ir_channel : ndarray buf -> string -> outcome (ndarray img);
  enhance_visible_channel : ndarray buf -> outcome (ndarray img);
  (* dtype conversions *)
  astype_float32 : ndarray buf -> ndarray buf;
  astype_uint8 : ndarray img -> ndarray img
}.

(** ** Resampling (lines 749-772) *)

(** [int(x)] on a float: truncation toward zero. *)
Definition py_int (q : Q) : Z := Z.quot (Qnum q) (Zpos (Qden q)).

(** [round(x)] on a float: to the nearest integer, ties to even. *)
Definition py_round (q : Q) : Z :=
  let lo := Qfloor q in
  let twice := Qfloor (2 * (q - inject_Z lo)) in
  if Qeq_bool (q - inject_Z lo) (1 # 2) then (if Z.even lo then lo else lo + 1)%Z
  else if (1 <=? twice)%Z then (lo + 1)%Z else lo.

(** [floor(log2 a)] for a positive rational. *)
Definition ilog2 (a : Q) : Z :=
  let e0 := (Z.log2 (Qnum a) - Z.log2 (Zpos (Qden a)))%Z in
  if Qle_bool (2 ^ e0) a then e0 else (e0 - 1)%Z.

(** The double nearest to a positive rational: 53 significant bits, ties
    to the even significand; below [2^-1022] the spacing stays
    [2^-1074]. *)
Definition nearest_double (a : Q) : Q :=
  let e := Z.max (ilog2 a - 52) (-1074) in
  Qred (inject_Z (py_round (a / 2 ^ e)) * 2 ^ e)%Q.

(** The result of an operation on doubles: the exact result rounded to
    the nearest double.  An integer is kept as it is: below [2^53] it is
    a double, and no dimension of an array reaches [2^53]. *)
Definition round_double (q : Q) : Q :=
  if Qeq_bool q (inject_Z (Qfloor q)) then inject_Z (Qfloor q)
  else if Qle_bool 0 q then nearest_double q else (- nearest_double (- q))%Q.

(** [a / b] on two Python integers: the quotient rounded to a double. *)
Definition py_truediv (a b : Z) : outcome Q :=
  if (b =? 0)%Z then Raised ZeroDivisionError
  else Returned (round_double (inject_Z a / inject_Z b)%Q).

(** The shape check of [np.zeros(shape)]: a negative dimension raises. *)
Definition np_zeros_shape (s : Z * Z) : outcome shape_t :=
  if ((0 <=? fst s) && (0 <=? snd s))%Z then Returned (Z.to_nat (fst s), Z.to_nat (snd s))
  else Raised ValueError.

(** [zoom_factor == (a, b)] on a pair of floats. *)
Definition zoom_is (zoom_factor : Q * Q) (a b : Q) : bool :=
  Qeq_bool (fst zoom_factor) a && Qeq_bool (snd zoom_factor) b.

(** [n * z] for a dimension [n] and a double [z]. *)
Definition dim_times (n : nat) (z : Q) : Q :=
  round_double (inject_Z (Z.of_nat n) * z)%Q.

Definition fast_upscale_array `{Backend buf img} (arr : ndarray buf) (zoom_factor : Q * Q)
    : outcome (ndarray buf) :=
  if zoom_is zoom_factor 1 1 then Returned arr
  else
    let target_shape :=
      (py_int (dim_times (fst (shape arr)) (fst zoom_factor)),
       py_int (dim_times (snd (shape arr)) (snd zoom_factor))) in
    if NUMBA_AVAILABLE then
      if zoom_is zoom_factor 2 2 then
        s <-- np_zeros_shape target_shape ;;
        Returned (MkArray s (numba_fast_upscale_2x arr s))
      else if zoom_is zoom_factor 4 4 then
        s <-- np_zeros_shape target_shape ;;
        Returned (MkArray s (numba_fast_upscale_4x arr s))
      else
        y_ratio <-- py_truediv (Z.of_nat (fst (shape arr))) (fst target_shape) ;;
        x_ratio <-- py_truediv (Z.of_nat (snd (shape arr))) (snd target_shape) ;;
        s <-- np_zeros_shape target_shape ;;
        Returned (MkArray s (numba_bilinear_upscale arr s y_ratio x_ratio))
    else scipy_zoom arr zoom_factor.

(** The per-channel requirement tables (lines 610-624 and 1336-1345). *)
Definition ALL_CHANNELS : list string :=
  ["C01"; "C02"; "C03"; "C04"; "C05"; "C06"; "C07"; "C08";
   "C09"; "C10"; "C11"; "C12"; "C13"; "C14"; "C15"; "C16"]%string.

Definition get_standard_channel_requirements : list (string * string) :=
  [("C02", "native"); ("C04", "native"); ("C09", "native");
   ("C11", "upscale_4x"); ("C12", "upscale_4x"); ("C14", "upscale_4x");
   ("C15", "upscale_4x"); ("C16", "native");
   ("C01", "upscale_2x"); ("C03", "upscale_2x"); ("C05", "upscale_2x");
   ("C06", "upscale_4x"); ("C07", "upscale_4x"); ("C08", "upscale_4x");
   ("C10", "upscale_4x"); ("C13", "upscale_4x")]%string.

Definition get_level2_channel_requirements (domain_type : string) : list (string * string) :=
  if String.eqb domain_type "full_disk" then map (fun ch => (ch, "native"%string)) ALL_CHANNELS
  else get_standard_channel_requirements.

Definition shape_for_requirement (requirement : string) (native_shape : shape_t)
    (reference_shape : option shape_t) : option shape_t :=
  if String.eqb requirement "native" then Some native_shape
  else if String.eqb requirement "upscale_2x" then
    Some (fst native_shape * 2, snd native_shape * 2)
  else if String.eqb requirement "upscale_4x" then
    Some (fst native_shape * 4, snd native_shape * 4)
  else reference_shape.

Definition get_target_shape (channel_code : string) (native_shape : shape_t)
    (reference_shape : option shape_t) (domain_type : string) : option shape_t :=
  let requirements := get_level2_channel_requirements domain_type in
  let requirement := default "native"%string (dict_get channel_code requirements) in
  shape_for_requirement requirement native_shape reference_shape.

Definition get_standard_target_shape (channel_code : string) (native_shape : shape_t)
    (reference_shape : option shape_t) : option shape_t :=
  let requirements := get_standard_channel_requirements in
  let requirement := default "native"%string (dict_get channel_code requirements) in
  shape_for_requirement requirement native_shape reference_shape.

(** ** Infrared calibration (lines 346-404) *)

(** A row of [CHANNEL_CONSTANTS]: wavelength, fk1, fk2, bc1, bc2. *)
Definition constants_row : Type := (R * R * R * R * R)%type.

Definition C13_CONSTANTS : constants_row :=
  (10.3499, 7.47300e+02, 8.68467e+02, 0.53083, 0.99111)%R.

Definition CHANNEL_CONSTANTS : list (string * constants_row) :=
  [("C07"%string, (3.8853, 5.44958e+03, 9.20062e+02, 0.43616, 0.99715)%R);
   ("C08"%string, (6.2428, 2.08380e+03, 8.97668e+02, 0.27387, 0.99636)%R);
   ("C09"%string, (6.9419, 1.67380e+03, 8.95963e+02, 0.30802, 0.99574)%R);
   ("C10"%string, (7.3414, 1.49979e+03, 8.94765e+02, 0.33708, 0.99536)%R);
   ("C11"%string, (8.4447, 1.12855e+03, 8.89377e+02, 0.39298, 0.99419)%R);
   ("C12"%string, (9.6136, 8.68052e+02, 8.78786e+02, 0.47261, 0.99248)%R);
   ("C13"%string, C13_CONSTANTS);
   ("C14"%string, (11.1949, 6.34106e+02, 8.55701e+02, 0.60474, 0.98917)%R);
   ("C15"%string, (12.2740, 5.16292e+02, 8.36581e+02, 0.70681, 0.98622)%R);
   ("C16"%string, (13.2807, 4.31815e+02, 8.16406e+02, 0.81669, 0.98279)%R)].

(** The four Planck constants, in the order fk1, fk2, bc1, bc2. *)
Definition planck : Type := (R * R * R * R)%type.

Definition row_planck (row : constants_row) : planck :=
  let '(_, fk1, fk2, bc1, bc2) := row in (fk1, fk2, bc1, bc2).

(** The object the workers pass as [ds]: each attribute's [values] is
    the channel record's entry, a number or [None]. *)
Record mock_dataset : Type := {
  planck_fk1 : option R;
  planck_fk2 : option R;
  planck_bc1 : option R;
  planck_bc2 : option R
}.

(** [float(v)]: a [None] raises. *)
Definition py_float (v : option R) : outcome R :=
  match v with
  | Some x => Returned x
  | None => Raised TypeError
  end.

(** The [try] block of lines 367-371. *)
Definition dataset_constants (ds : mock_dataset) : outcome planck :=
  fk1 <-- py_float (planck_fk1 ds) ;;
  fk2 <-- py_float (planck_fk2 ds) ;;
  bc1 <-- py_float (planck_bc1 ds) ;;
  bc2 <-- py_float (planck_bc2 ds) ;;
  Returned (fk1, fk2, bc1, bc2).

Definition select_constants (channel_code : string) (ds : option mock_dataset) : planck :=
  match ds with
  | Some d =>
      match dataset_constants d with
      | Returned c => c
      | Raised _ =>
          row_planck (default C13_CONSTANTS (dict_get channel_code CHANNEL_CONSTANTS))
      end
  | None =>
      match dict_get channel_code CHANNEL_CONSTANTS with
      | Some constants => row_planck constants
      | None => row_planck C13_CONSTANTS
      end
  end.

(** Lines 386-404.  The kernel receives the radiance and the four
    constants cast to float32; the numpy branch takes them as they
    are.  A constant of the table is the real number its literal
    denotes: for each of them the nearest float32 is also the float32
    of the double Python reads the literal as. *)
Definition radiance_to_brightness_temp `{Backend buf img} (radiance : ndarray buf)
    (channel_code : string) (ds : option mock_dataset) : ndarray buf :=
  let '(fk1, fk2, bc1, bc2) := select_constants channel_code ds in
  if NUMBA_AVAILABLE then
    MkArray (shape radiance)
      (numba_radiance_to_brightness_temp (astype_float32 radiance)
         (float32 fk1) (float32 fk2) (float32 bc1) (float32 bc2))
  else
    MkArray (shape radiance) (np_radiance_to_brightness_temp radiance fk1 fk2 bc1 bc2).

(** ** The numeric arrays *)

(** A float pixel; [None] is NaN. *)
Definition pixel : Type := option R.

(** A 2-D buffer, row by row. *)
Abbreviation grid A := (list (list A)) (only parsing).

Definition cell {A : Type} (g : grid A) (i j : nat) : option A :=
  match g !! i with
  | Some row => row !! j
  | None => None
  end.

Definition grid_map {A B : Type} (f : A -> B) (g : grid A) : grid B := map (map f) g.

Definition grid_zip_with {A B C : Type} (f : A -> B -> C) (g : grid A) (h : grid B) : grid C :=
  zip_with (zip_with f) g h.

(** [np.full(shape, v)]. *)
Definition np_full {A : Type} (s : shape_t) (v : A) : grid A := repeat (repeat v (snd s)) (fst s).

(** [np.any(mask)]. *)
Definition np_any (mask : grid bool) : bool := existsb (existsb (fun b : bool => b)) mask.

(** [x > 0] on a float: false on NaN. *)
Definition positive_px (p : pixel) : bool :=
  match p with
  | Some x => if Rlt_dec 0 x then true else false
  | None => false
  end.

(** The inverse Planck function at one radiance value. *)
Definition planck_bt (fk1 fk2 bc1 bc2 r : R) : R :=
  ((fk2 / ln (fk1 / r + 1) - bc1) / bc2)%R.

(** Lines 397-404: the numpy implementation, kept by the module as the
    branch without numba. *)
Definition np_bt (radiance : ndarray (grid pixel)) (fk1 fk2 bc1 bc2 : R) : grid pixel :=
  let valid_mask := grid_map positive_px (data radiance) in
  let bt : grid pixel := grid_map (fun _ => None) (data radiance) in
  if np_any valid_mask then
    grid_zip_with
      (fun (valid : bool) (p : pixel) =>
         if valid then
           match p with
           | Some r => Some (planck_bt fk1 fk2 bc1 bc2 r)
           | None => None
           end
         else None)
      valid_mask (data radiance)
  else bt.

(** Modelled from the spec: the compiled kernel
    [numba_radiance_to_brightness_temp], which is not in this module.
    "temperature = bc2^-1 (fk2 / ln(fk1/radiance + 1) - bc1), computed
    elementwise; pixels with non-positive radiance map to no data". *)
Definition numba_bt (radiance : ndarray (grid pixel)) (fk1 fk2 bc1 bc2 : R) : grid pixel :=
  grid_map
    (fun p : pixel =>
       match p with
       | Some r => if Rlt_dec 0 r then Some (planck_bt fk1 fk2 bc1 bc2 r) else None
       | None => None
       end)
    (data radiance).

(** [np.nanmax(a)]: the largest pixel that is not NaN; NaN when every
    pixel is; a zero-size array raises. *)
Definition np_nanmax_grid (a : ndarray (grid pixel)) : outcome (option R) :=
  match concat (data a) with
  | [] => Raised ValueError
  | px =>
      Returned
        (fold_right
           (fun (p : pixel) (acc : option R) =>
              match p, acc with
              | Some x, Some m => Some (Rmax x m)
              | Some x, None => Some x
              | None, _ => acc
              end)
           None px)
  end.

(** [a * k] and [a / k] for a scalar [k]. *)
Definition np_multiply_grid (a : ndarray (grid pixel)) (k : R) : grid pixel :=
  grid_map (option_map (fun x => x * k)%R) (data a).

Definition np_divide_grid (a : ndarray (grid pixel)) (k : R) : grid pixel :=
  grid_map (option_map (fun x => x / k)%R) (data a).

(** Modelled from the spec: the compiled kernel
    [numba_visible_calibration], which is not in this module.
    "reflectance = radiance x kappa0 when a per-channel kappa0 is
    available". *)
Definition numba_visible_grid (a : ndarray (grid pixel)) (kappa : R) : grid pixel :=
  np_multiply_grid a kappa.

(** The numeric backend.  The resampling kernels and the enhancement
    functions, whose pixel arithmetic no property below depends on, stay
    parameters; the [float32] and [uint8] conversions of an array are the
    identity, the arrays of this backend being taken to hold values of
    the target type already, and the kernels compute in real
    arithmetic. *)
Definition numeric_backend {img : Type}
    (upscale_2x upscale_4x : ndarray (grid pixel) -> shape_t -> grid pixel)
    (bilinear : ndarray (grid pixel) -> shape_t -> Q -> Q -> grid pixel)
    (zoom : ndarray (grid pixel) -> Q * Q -> outcome (ndarray (grid pixel)))
    (enhance_ir : ndarray (grid pixel) -> string -> outcome (ndarray img))
    (enhance_visible : ndarray (grid pixel) -> outcome (ndarray img))
    : Backend (grid pixel) img :=
  {| numba_radiance_to_brightness_temp := numba_bt;
     np_radiance_to_brightness_temp := np_bt;
     numba_visible_calibration := numba_visible_grid;
     np_multiply := np_multiply_grid;
     np_divide := np_divide_grid;
     np_nanmax := np_nanmax_grid;
     numba_fast_upscale_2x := upscale_2x;
     numba_fast_upscale_4x := upscale_4x;
     numba_bilinear_upscale := bilinear;
     scipy_zoom := zoom;
     enhance_ir_channel := enhance_ir;
     enhance_visible_channel := enhance_visible;
     astype_float32 := fun a => a;
     astype_uint8 := fun a => a |}.

(** ** Channel records, tasks and results *)

Record projection : Type := {
  longitude_of_projection_origin : R;
  perspective_point_height : R
}.

Record coordinate_data_t : Type := {
  x_coords : list R;
  y_coords : list R;
  projection_info : projection;
  primary_channel : string
}.

(** One entry of [raw_data_store].  A field of option type is [None]
    when the key is absent or holds [None].  The two are told apart only
    by a subscript, which raises [KeyError] on an absent key: a worker
    subscripts the radiance, which only the records of the Level 2
    loader lack ([None] is the absent key there, see [subscript]), and
    the Planck constants and [kappa0], whose keys the Level 1b loader
    always sets on an infrared and on a visible record. *)
Record raw_record (buf : Type) : Type := {
  radiance : option (ndarray buf);
  calibrated_data : option (ndarray buf);
  native_shape : shape_t;
  band_id : option Z;
  channel_type : string;
  data_level : option string;
  raw_planck_fk1 : option R;
  raw_planck_fk2 : option R;
  raw_planck_bc1 : option R;
  raw_planck_bc2 : option R;
  kappa0 : option R;
  time_coverage_start : string;
  time_coverage_end : string;
  orbital_slot : string;
  file_path : string;
  coordinate_data : option coordinate_data_t
}.

Arguments radiance {buf} r.
Arguments calibrated_data {buf} r.
Arguments native_shape {buf} r.
Arguments band_id {buf} r.
Arguments channel_type {buf} r.
Arguments data_level {buf} r.
Arguments raw_planck_fk1 {buf} r.
Arguments raw_planck_fk2 {buf} r.
Arguments raw_planck_bc1 {buf} r.
Arguments raw_planck_bc2 {buf} r.
Arguments kappa0 {buf} r.
Arguments time_coverage_start {buf} r.
Arguments time_coverage_end {buf} r.
Arguments orbital_slot {buf} r.
Arguments file_path {buf} r.
Arguments coordinate_data {buf} r.

Record metadata_t : Type := {
  md_file_path : string;
  md_shape : option shape_t;
  md_band_id : option Z;
  md_data_level : option string;
  md_time_coverage_start : string;
  md_time_coverage_end : string;
  md_orbital_slot : string
}.

Record success_t (buf img : Type) : Type := {
  res_channel_code : string;
  res_calibrated_data : ndarray buf;
  res_enhanced_data : ndarray img;
  res_channel_type : string;
  res_metadata : metadata_t;
  res_coordinate_data : option coordinate_data_t;
  res_processing_time : R
}.

Arguments res_channel_code {buf img} s.
Arguments res_calibrated_data {buf img} s.
Arguments res_enhanced_data {buf img} s.
Arguments res_channel_type {buf img} s.
Arguments res_metadata {buf img} s.
Arguments res_coordinate_data {buf img} s.
Arguments res_processing_time {buf img} s.

Inductive worker_result (buf img : Type) : Type :=
  | Success (s : success_t buf img)
  | Failure (channel_code : string) (error : exn) (processing_time : R).

Arguments Success {buf img} s.
Arguments Failure {buf img} channel_code error processing_time.

(** [(channel_code, raw_data, target_shape, reference_shape)], and the
    domain type for the Level 2 aware path. *)
Record task (buf : Type) : Type := {
  task_channel_code : string;
  task_raw_data : raw_record buf;
  task_target_shape : option shape_t;
  task_reference_shape : option shape_t;
  task_domain_type : string
}.

Arguments task_channel_code {buf} t.
Arguments task_raw_data {buf} t.
Arguments task_target_shape {buf} t.
Arguments task_reference_shape {buf} t.
Arguments task_domain_type {buf} t.

(** [globals().get('COMPRESS_STORED_DATA', True)] and the like. *)
Record config : Type := {
  COMPRESS_STORED_DATA : bool;
  MAX_PARALLEL_WORKERS : nat;
  ENABLE_PARALLEL_PROCESSING : bool;
  ENABLE_SOLAR_ANGLES : bool
}.

Definition default_config : config :=
  {| COMPRESS_STORED_DATA := true;
     MAX_PARALLEL_WORKERS := 4;
     ENABLE_PARALLEL_PROCESSING := true;
     ENABLE_SOLAR_ANGLES := true |}.

(** ** The per-channel workers (lines 788-895 and 1361-1460) *)

Section Workers.

Context {buf img : Type} `{Backend buf img}.

(** [x > 0] on the result of [np.nanmax]. *)
Definition positive_max (max_val : option R) : option R :=
  match max_val with
  | Some v => if Rlt_dec 0 v then Some v else None
  | None => None
  end.

(** [SimpleMockDataset(raw_data)]. *)
Definition SimpleMockDataset (cal_params : raw_record buf) : mock_dataset :=
  {| planck_fk1 := raw_planck_fk1 cal_params;
     planck_fk2 := raw_planck_fk2 cal_params;
     planck_bc1 := raw_planck_bc1 cal_params;
     planck_bc2 := raw_planck_bc2 cal_params |}.

Definition simple_mock_ds (raw_data : raw_record buf) : option mock_dataset :=
  match raw_planck_fk1 raw_data with
  | Some _ => Some (SimpleMockDataset raw_data)
  | None => None
  end.

(** The calibration block of either worker: lines 810-834 and the
    calibration statements of lines 1386-1417. *)
Definition calibrate (channel_code : string) (raw_data : raw_record buf)
    (radiance : ndarray buf) : outcome (ndarray buf) :=
  if String.eqb (channel_type raw_data) "ir" then
    Returned (radiance_to_brightness_temp radiance channel_code (simple_mock_ds raw_data))
  else
    match kappa0 raw_data with
    | Some k =>
        if NUMBA_AVAILABLE then
          Returned (MkArray (shape radiance) (numba_visible_calibration radiance k))
        else Returned (MkArray (shape radiance) (np_multiply radiance k))
    | None =>
        max_val <-- np_nanmax radiance ;;
        match positive_max max_val with
        | Some v => Returned (MkArray (shape radiance) (np_divide radiance v))
        | None => Returned radiance
        end
    end.

(** The resampling block: lines 840-847 and 1379-1383. *)
Definition upscale_if_needed (current_shape : shape_t) (target_shape : option shape_t)
    (arr : ndarray buf) : outcome (ndarray buf) :=
  if bool_decide (Some current_shape = target_shape) then Returned arr
  else
    t <-- match target_shape with
          | Some t => Returned t
          | None => Raised TypeError
          end ;;
    z0 <-- py_truediv (Z.of_nat (fst t)) (Z.of_nat (fst current_shape)) ;;
    z1 <-- py_truediv (Z.of_nat (snd t)) (Z.of_nat (snd current_shape)) ;;
    if zoom_is (z0, z1) 1 1 then Returned arr
    else fast_upscale_array arr (z0, z1).

(** The enhancement block: lines 850-853 and the enhancement statements
    of lines 1402 and 1419. *)
Definition enhance (channel_code : string) (raw_data : raw_record buf)
    (calibrated : ndarray buf) : outcome (ndarray img) :=
  if String.eqb (channel_type raw_data) "ir" then enhance_ir_channel calibrated channel_code
  else enhance_visible_channel calibrated.

(** Lines 866-869 and 1432-1434. *)
Definition compress (cfg : config) (calibrated : ndarray buf) (enhanced : ndarray img)
    : ndarray buf * ndarray img :=
  if COMPRESS_STORED_DATA cfg then (astype_float32 calibrated, astype_uint8 enhanced)
  else (calibrated, enhanced).

Definition standard_conus_body (cfg : config) (t : task buf) (processing_time : R)
    : outcome (worker_result buf img) :=
  let channel_code := task_channel_code t in
  let raw_data := task_raw_data t in
  let target_shape := task_target_shape t in
  radiance <-- subscript (radiance raw_data) ;;
  let current_shape := native_shape raw_data in
  radiance <-- upscale_if_needed current_shape target_shape radiance ;;
  calibrated <-- calibrate channel_code raw_data radiance ;;
  enhanced <-- enhance channel_code raw_data calibrated ;;
  let metadata :=
    {| md_file_path := file_path raw_data;
       md_shape := target_shape;
       md_band_id := band_id raw_data;
       md_data_level := None;
       md_time_coverage_start := time_coverage_start raw_data;
       md_time_coverage_end := time_coverage_end raw_data;
       md_orbital_slot := orbital_slot raw_data |} in
  let stored := compress cfg calibrated enhanced in
  Returned
    (Success
       {| res_channel_code := channel_code;
          res_calibrated_data := fst stored;
          res_enhanced_data := snd stored;
          res_channel_type := channel_type raw_data;
          res_metadata := metadata;
          res_coordinate_data := coordinate_data raw_data;
          res_processing_time := processing_time |}).

Definition standard_conus_worker (cfg : config) (t : task buf) (processing_time : R)
    : worker_result buf img :=
  match standard_conus_body cfg t processing_time with
  | Returned result => result
  | Raised e => Failure (task_channel_code t) e processing_time
  end.

Definition level2_aware_body (cfg : config) (t : task buf) (processing_time : R)
    : outcome (worker_result buf img) :=
  let channel_code := task_channel_code t in
  let raw_data := task_raw_data t in
  let target_shape := task_target_shape t in
  let level := default "level1b"%string (data_level raw_data) in
  let current_shape := native_shape raw_data in
  calibrated <--
    (if String.eqb level "level2" then subscript (calibrated_data raw_data)
     else
       radiance <-- subscript (radiance raw_data) ;;
       calibrate channel_code raw_data radiance) ;;
  calibrated <-- upscale_if_needed current_shape target_shape calibrated ;;
  enhanced <-- enhance channel_code raw_data calibrated ;;
  let metadata :=
    {| md_file_path := file_path raw_data;
       md_shape := target_shape;
       md_band_id := band_id raw_data;
       md_data_level := Some level;
       md_time_coverage_start := time_coverage_start raw_data;
       md_time_coverage_end := time_coverage_end raw_data;
       md_orbital_slot := orbital_slot raw_data |} in
  let stored := compress cfg calibrated enhanced in
  Returned
    (Success
       {| res_channel_code := channel_code;
          res_calibrated_data := fst stored;
          res_enhanced_data := snd stored;
          res_channel_type := channel_type raw_data;
          res_metadata := metadata;
          res_coordinate_data := coordinate_data raw_data;
          res_processing_time := processing_time |}).

Definition level2_aware_worker (cfg : config) (t : task buf) (processing_time : R)
    : worker_result buf img :=
  match level2_aware_body cfg t processing_time with
  | Returned result => result
  | Raised e => Failure (task_channel_code t) e processing_time
  end.

End Workers.

(** ** The channel store (lines 498-550) *)

Record solar_angles_t : Type := {
  sza : ndarray (grid pixel);
  cos_sza : ndarray (grid pixel)
}.

Record channel_entry (buf img : Type) : Type := {
  calibrated : ndarray buf;
  enhanced : ndarray img;
  entry_channel_type : string;
  entry_shape : shape_t
}.

Arguments calibrated {buf img} c.
Arguments enhanced {buf img} c.
Arguments entry_channel_type {buf img} c.
Arguments entry_shape {buf img} c.

Record ChannelDataStore (buf img : Type) : Type := {
  channels : gmap string (channel_entry buf img);
  metadata : gmap string metadata_t;
  store_coordinates : option coordinate_data_t;
  solar_angles : option solar_angles_t;
  processing_times : gmap string R
}.

Arguments channels {buf img} c.
Arguments metadata {buf img} c.
Arguments store_coordinates {buf img} c.
Arguments solar_angles {buf img} c.
Arguments processing_times {buf img} c.

Section Store.

Context {buf img : Type}.

Definition new_store : ChannelDataStore buf img :=
  {| channels := ∅;
     metadata := ∅;
     store_coordinates := None;
     solar_angles := None;
     processing_times := ∅ |}.

Definition store_channel (st : ChannelDataStore buf img) (channel_code : string)
    (calibrated_data : ndarray buf) (enhanced_data : ndarray img) (channel_type : string)
    (md : metadata_t) (processing_time : R) : ChannelDataStore buf img :=
  {| channels :=
       <[channel_code :=
           {| calibrated := calibrated_data;
              enhanced := enhanced_data;
              entry_channel_type := channel_type;
              entry_shape := shape calibrated_data |}]> (channels st);
     metadata := <[channel_code := md]> (metadata st);
     store_coordinates := store_coordinates st;
     solar_angles := solar_angles st;
     processing_times :=
       if Req_dec_T processing_time 0 then processing_times st
       else <[channel_code := processing_time]> (processing_times st) |}.

Definition store_coordinate_data (st : ChannelDataStore buf img) (x y : list R)
    (proj : projection) : ChannelDataStore buf img :=
  {| channels := channels st;
     metadata := metadata st;
     store_coordinates :=
       Some {| x_coords := x; y_coords := y; projection_info := proj;
               primary_channel := "C02" |};
     solar_angles := solar_angles st;
     processing_times := processing_times st |}.


(** ** Reference shape and tasks (lines 1210-1234, 1622-1644, 1775-1799) *)

Definition pixel_count (s : shape_t) : nat := fst s * snd s.

(** One turn of the loop over [raw_data_store.values()]; the state is
    [(max_pixels, reference_shape)]. *)
Definition largest_step (acc : nat * option shape_t) (d : raw_record buf)
    : nat * option shape_t :=
  let pixels := pixel_count (native_shape d) in
  if fst acc <? pixels then (pixels, Some (native_shape d)) else acc.

Definition reference_shape_of (raw_data_store : list (string * raw_record buf))
    : option shape_t :=
  match dict_get "C02" raw_data_store with
  | Some d => Some (native_shape d)
  | None => snd (fold_left largest_step (dict_values raw_data_store) (0, None))
  end.

Definition level2_tasks (domain_type : string) (raw_data_store : list (string * raw_record buf))
    : list (task buf) :=
  let reference_shape := reference_shape_of raw_data_store in
  map (fun kv : string * raw_record buf =>
         {| task_channel_code := fst kv;
            task_raw_data := snd kv;
            task_target_shape :=
              get_target_shape (fst kv) (native_shape (snd kv)) reference_shape domain_type;
            task_reference_shape := reference_shape;
            task_domain_type := domain_type |})
      raw_data_store.

Definition standard_tasks (domain_type : string) (raw_data_store : list (string * raw_record buf))
    : list (task buf) :=
  let reference_shape := reference_shape_of raw_data_store in
  map (fun kv : string * raw_record buf =>
         {| task_channel_code := fst kv;
            task_raw_data := snd kv;
            task_target_shape :=
              get_standard_target_shape (fst kv) (native_shape (snd kv)) reference_shape;
            task_reference_shape := reference_shape;
            task_domain_type := domain_type |})
      raw_data_store.

Definition full_disk_tasks (domain_type : string) (raw_data_store : list (string * raw_record buf))
    : list (task buf) :=
  let reference_shape := reference_shape_of raw_data_store in
  map (fun kv : string * raw_record buf =>
         {| task_channel_code := fst kv;
            task_raw_data := snd kv;
            task_target_shape := Some (native_shape (snd kv));
            task_reference_shape := reference_shape;
            task_domain_type := domain_type |})
      raw_data_store.

(** ** Aggregation (lines 1238-1305, 1648-1715, 1803-1870) *)

Record tally : Type := {
  data_store : ChannelDataStore buf img;
  successful : nat;
  failed : nat
}.

Definition new_tally : tally :=
  {| data_store := new_store; successful := 0; failed := 0 |}.

(** The body of either aggregation loop, for one worker result. *)
Definition merge_result (acc : tally) (result : worker_result buf img) : tally :=
  match result with
  | Success s =>
      let st :=
        store_channel (data_store acc) (res_channel_code s) (res_calibrated_data s)
          (res_enhanced_data s) (res_channel_type s) (res_metadata s)
          (res_processing_time s) in
      let st :=
        match res_coordinate_data s with
        | Some coord_data =>
            store_coordinate_data st (x_coords coord_data) (y_coords coord_data)
              (projection_info coord_data)
        | None => st
        end in
      {| data_store := st; successful := S (successful acc); failed := failed acc |}
  | Failure _ _ _ =>
      {| data_store := data_store acc; successful := successful acc;
         failed := S (failed acc) |}
  end.

(** A run: each task with the time its worker measured, in the order in
    which the results are merged. *)
Definition run : Type := list (task buf * R).

Definition aggregate (worker : task buf -> R -> worker_result buf img) (r : run) : tally :=
  fold_left merge_result (map (fun tr => worker (fst tr) (snd tr)) r) new_tally.

(** The order of the merge: the pool hands results over as they complete,
    the sequential loop follows the task list. *)
Definition merge_order (cfg : config) (tasks : list (task buf)) (r : run) : Prop :=
  if ENABLE_PARALLEL_PROCESSING cfg && (1 <? length tasks) then map fst r ≡ₚ tasks
  else map fst r = tasks.


End Store.

(** ** Solar geometry (lines 589-608, 897-1166, 1462-1591) *)

Section SolarGeometry.

Local Open Scope R_scope.

Definition earth_radius : R := 6378137.0.

Definition DEFAULT_SAT_HEIGHT : R := 35786023.0.

(** [np.arcsin]: NaN outside [-1, 1]. *)
Definition np_arcsin (x : R) : option R :=
  if Rle_dec (-1) x then (if Rle_dec x 1 then Some (asin x) else None) else None.

(** [a <= b] on floats: false when [b] is NaN. *)
Definition le_float (a : R) (b : option R) : bool :=
  match b with
  | Some v => if Rle_dec a v then true else false
  | None => false
  end.

(** The coordinate arrays are the one-dimensional axes the loaders store
    ([ds['x'].values], [ds['y'].values]), so the mask is built on the
    [meshgrid] of line 595: row [i], column [j] holds [(x[j], y[i])]. *)
Definition create_valid_coordinate_mask (x_coords y_coords : list R) (sat_height : R)
    : outcome (grid bool * grid R * grid R) :=
  if Req_dec_T sat_height 0 then Raised ZeroDivisionError
  else
    let max_viewing_angle := np_arcsin (earth_radius / sat_height) in
    let y_2d : grid R := map (fun y => map (fun _ => y) x_coords) y_coords in
    let x_2d : grid R := map (fun _ => x_coords) y_coords in
    let r_squared := grid_zip_with (fun x y => x ^ 2 + y ^ 2) x_2d y_2d in
    let valid_mask :=
      grid_map (fun r2 => le_float r2 (option_map (fun a => a ^ 2) max_viewing_angle))
        r_squared in
    let x_grid := grid_map (fun x => x * sat_height) x_2d in
    let y_grid := grid_map (fun y => y * sat_height) y_2d in
    Returned (valid_mask, x_grid, y_grid).

(** The fields of [scan_time] the fallbacks read. *)
Record datetime : Type := {
  hour : nat;
  minute : nat
}.

Definition angle_grids : Type := (ndarray (grid pixel) * ndarray (grid pixel))%type.

(** [np.linspace(0, 1, n)] and [np.arange(n) / n]. *)
Definition np_linspace01 (n : nat) : list R :=
  map (fun k => if (n =? 1)%nat then 0 else INR k / INR (n - 1)) (seq 0 n).


Definition np_clip (v lo hi : R) : R := Rmin (Rmax v lo) hi.

Definition np_radians (deg : R) : R := deg * PI / 180.

(** [np.where(mask, value, np.nan)]. *)
Definition where_valid (mask : grid bool) (values : grid pixel) : grid pixel :=
  grid_zip_with (fun (m : bool) (v : pixel) => if m then v else None) mask values.

(** [np.nanmin], [np.nanmax], [np.min] and [np.max] inside the report
    lines: a zero-size array raises. *)
Definition reduce_check (full_shape : shape_t) : outcome unit :=
  if (fst full_shape * snd full_shape =? 0)%nat then Raised ValueError else Returned tt.

(** The statements of the [try] blocks are split where [scan_time]
    becomes a local: [scan_time_of] stands for lines 907-915 (and
    1472-1479), the two bodies for the reprojection that follows. *)
Variable scan_time_of : option string -> outcome datetime.
Variable enhanced_body : coordinate_data_t -> datetime -> outcome angle_grids.
Variable simple_body : coordinate_data_t -> datetime -> outcome angle_grids.

(** Lines 1125-1162, inside the inner [try]. *)
Definition enhanced_fallback (coordinate_data : coordinate_data_t)
    (scan_time : option datetime) : outcome angle_grids :=
  let full_shape :=
    (length (y_coords coordinate_data), length (x_coords coordinate_data)) in
  let x_coords := x_coords coordinate_data in
  let y_coords := y_coords coordinate_data in
  mask <-- create_valid_coordinate_mask x_coords y_coords DEFAULT_SAT_HEIGHT ;;
  let valid_mask := fst (fst mask) in
  match scan_time with
  | Some scan_time =>
      let utc_hour := INR (hour scan_time) + INR (minute scan_time) / 60 in
      let x_indices : grid R :=
        map (fun _ => np_linspace01 (snd full_shape)) (np_linspace01 (fst full_shape)) in
      let base_sza := Rmax (90 - 15 * Rabs (utc_hour - 12)) 20 in
      let sza_pattern := grid_map (fun x => base_sza + (x - 0.5) * 30) x_indices in
      let sza :=
        where_valid valid_mask (grid_map (fun v => Some (np_clip v 10 120)) sza_pattern) in
      let cos_sza :=
        where_valid valid_mask (grid_map (option_map (fun v => cos (np_radians v))) sza) in
      _ <-- reduce_check full_shape ;;
      Returned (MkArray full_shape sza, MkArray full_shape cos_sza)
  | None =>
      let sza := grid_map (fun m : bool => if m then Some 60 else None) valid_mask in
      let cos_sza :=
        grid_map (fun m : bool => if m then Some (cos (np_radians 60)) else None)
          valid_mask in
      Returned (MkArray full_shape sza, MkArray full_shape cos_sza)
  end.

Definition compute_solar_angles_enhanced (coordinate_data : option coordinate_data_t)
    (scan_time_str : option string) : option angle_grids :=
  match coordinate_data with
  | None => None
  | Some coordinate_data =>
      match scan_time_of scan_time_str with
      | Raised _ =>
          match enhanced_fallback coordinate_data None with
          | Returned grids => Some grids
          | Raised _ => None
          end
      | Returned scan_time =>
          match enhanced_body coordinate_data scan_time with
          | Returned grids => Some grids
          | Raised _ =>
              match enhanced_fallback coordinate_data (Some scan_time) with
              | Returned grids => Some grids
              | Raised _ => None
              end
          end
      end
  end.



End SolarGeometry.

(** ** The RGB catalog and registry (lines 2047-2184) *)

Record catalog_entry : Type := {
  cat_channels : list string;
  cat_worker : string;
  cat_description : string;
  cat_category : string
}.

Definition RGB_CATALOG : list (string * catalog_entry) :=
  [("geocolor",
    {| cat_channels := ["C01"; "C02"; "C03"; "C07"; "C13"];
       cat_worker := "rgb_worker_geocolor";
       cat_description := "Sophisticated geocolor with day/night blending";
       cat_category := "core" |});
   ("cloud_microphysics",
    {| cat_channels := ["C02"; "C05"; "C07"; "C13"; "C15"];
       cat_worker := "rgb_worker_cloud_microphysics";
       cat_description := "Cloud microphysics RGB for 24-hour composite";
       cat_category := "core" |});
   ("true_color",
    {| cat_channels := ["C01"; "C02"; "C03"];
       cat_worker := "rgb_worker_true_color";
       cat_description := "Basic true color (use geocolor for better results)";
       cat_category := "basic" |});
   ("day_cloud_phase",
    {| cat_channels := ["C02"; "C05"; "C13"];
       cat_worker := "rgb_worker_day_cloud_phase";
       cat_description := "Day cloud phase only (use cloud_microphysics for 24h)";
       cat_category := "basic" |});
   ("airmass",
    {| cat_channels := ["C08"; "C10"; "C12"; "C13"];
       cat_worker := "rgb_worker_airmass";
       cat_description := "Airmass RGB for jet streams and fronts";
       cat_category := "atmospheric" |});
   ("simple_water_vapor",
    {| cat_channels := ["C08"; "C09"; "C10"];
       cat_worker := "rgb_worker_simple_water_vapor";
       cat_description := "Simple water vapor RGB";
       cat_category := "atmospheric" |});
   ("differential_water_vapor",
    {| cat_channels := ["C08"; "C10"];
       cat_worker := "rgb_worker_differential_water_vapor";
       cat_description := "Differential water vapor";
       cat_category := "atmospheric" |});
   ("dust",
    {| cat_channels := ["C11"; "C13"; "C14"; "C15"];
       cat_worker := "rgb_worker_dust";
       cat_description := "Dust RGB for dust storms";
       cat_category := "hazards" |});
   ("ash",
    {| cat_channels := ["C11"; "C13"; "C15"];
       cat_worker := "rgb_worker_ash";
       cat_description := "Volcanic ash RGB";
       cat_category := "hazards" |});
   ("fire_temperature",
    {| cat_channels := ["C07"; "C06"; "C05"];
       cat_worker := "rgb_worker_fire_temperature";
       cat_description := "Fire temperature RGB";
       cat_category := "hazards" |});
   ("day_land_cloud_fire",
    {| cat_channels := ["C06"; "C03"; "C02"];
       cat_worker := "rgb_worker_day_land_cloud_fire";
       cat_description := "Day land cloud fire RGB";
       cat_category := "hazards" |});
   ("day_snow_fog",
    {| cat_channels := ["C03"; "C05"; "C07"; "C13"];
       cat_worker := "rgb_worker_day_snow_fog";
       cat_description := "Day snow fog RGB";
       cat_category := "weather" |});
   ("night_microphysics",
    {| cat_channels := ["C07"; "C13"; "C15"];
       cat_worker := "rgb_worker_night_microphysics";
       cat_description := "Nighttime microphysics (fog, low clouds)";
       cat_category := "weather" |});
   ("split_window",
    {| cat_channels := ["C13"; "C15"];
       cat_worker := "rgb_worker_split_window_optimized";
       cat_description := "Split window RGB with temperature analysis";
       cat_category := "weather" |});
   ("split_window_difference",
    {| cat_channels := ["C13"; "C15"];
       cat_worker := "rgb_worker_split_window_difference";
       cat_description := "Split window difference";
       cat_category := "weather" |});
   ("day_snow_fog_night_fog",
    {| cat_channels := ["C03"; "C05"; "C07"; "C13"];
       cat_worker := "rgb_worker_day_snow_fog_night_fog";
       cat_description := "24-hour fog detection: Day snow fog + Night fog (cyan)";
       cat_category := "weather" |});
   ("sandwich",
    {| cat_channels := ["C02"; "C13"];
       cat_worker := "rgb_worker_sandwich_optimized";
       cat_description := "Sandwich RGB for 24-hour day/night composite";
       cat_category := "composite" |})]%string.

(** The keys of [get_rgb_worker_registry()]. *)
Definition REGISTERED_WORKERS : list string :=
  ["rgb_worker_geocolor"; "rgb_worker_true_color"; "rgb_worker_day_cloud_phase";
   "rgb_worker_cloud_microphysics"; "rgb_worker_airmass"; "rgb_worker_dust";
   "rgb_worker_ash"; "rgb_worker_fire_temperature"; "rgb_worker_night_microphysics";
   "rgb_worker_day_snow_fog"; "rgb_worker_split_window_difference";
   "rgb_worker_differential_water_vapor"; "rgb_worker_simple_water_vapor";
   "rgb_worker_day_land_cloud_fire"; "rgb_worker_split_window_optimized";
   "rgb_worker_sandwich_optimized"; "rgb_worker_day_snow_fog_night_fog"]%string.

(** ** The RGB product loop (lines 3114-3225) *)

Inductive rgb_error : Type :=
  | MissingChannelsError (missing : list string)
  | WorkerException (e : exn).

(** What a worker returns: [{'success': True, 'rgb_data', 'method'}] or
    [{'success': False, 'error'}]. *)
Inductive rgb_result (rgb : Type) : Type :=
  | RGBSuccess (rgb_data : rgb) (method : string)
  | RGBFailure (error : rgb_error).

Arguments RGBSuccess {rgb} rgb_data method.
Arguments RGBFailure {rgb} error.

(** The lines the loop prints about a product. *)
Inductive report : Type :=
  | AllChannelsAvailable (rgb_name : string)
  | MissingChannels (rgb_name : string) (missing_channels : list string)
  | UnknownProduct (rgb_name : string)
  | NoProductsPossible
  | Creating (product_name : string)
  | WorkerNotFound (worker_name : string)
  | Created (product_name : string)
  | ProductFailed (product_name : string) (error : rgb_error)
  | ProductException (product_name : string) (e : exn).

Record UnifiedRGBDataStore (rgb : Type) : Type := {
  rgb_products : gmap string rgb;
  processing_stats : gmap string string
}.

Arguments rgb_products {rgb} u.
Arguments processing_stats {rgb} u.

Definition store_rgb {rgb : Type} (st : UnifiedRGBDataStore rgb) (product_name : string)
    (rgb_array : rgb) (method : string) : UnifiedRGBDataStore rgb :=
  {| rgb_products := <[product_name := rgb_array]> (rgb_products st);
     processing_stats := <[product_name := method]> (processing_stats st) |}.

Definition new_rgb_store {rgb : Type} : UnifiedRGBDataStore rgb :=
  {| rgb_products := ∅; processing_stats := ∅ |}.

Section RGBProducts.

Context {img rgb : Type}.

Definition channels_data_t : Type := gmap string (channel_entry (grid pixel) img).

(** [MemoryStoreAdapter(CHANNELS, SOLAR_ANGLES)]. *)
Record memory_store_t : Type := {
  ms_channels : channels_data_t;
  ms_solar_angles : option solar_angles_t
}.

Definition worker_fn : Type :=
  channels_data_t -> option solar_angles_t -> outcome (rgb_result rgb).

(** The functions behind the registry's names. *)
Variable worker_impl : string -> worker_fn.

Definition get_rgb_worker_registry : list (string * worker_fn) :=
  map (fun name => (name, worker_impl name)) REGISTERED_WORKERS.

(** [[ch for ch in required if ch not in available]]. *)
Definition missing_from (required : list string) (available : gset string) : list string :=
  filter (fun ch => ch ∉ available) required.

(** Lines 3130-3141, for one requested name; the state is
    [(possible_products, printed)]. *)
Definition select_product (available_channels : gset string)
    (acc : list string * list report) (rgb_name : string) : list string * list report :=
  match dict_get rgb_name RGB_CATALOG with
  | Some entry =>
      let required_channels := cat_channels entry in
      let missing_channels := missing_from required_channels available_channels in
      match missing_channels with
      | [] => (fst acc ++ [rgb_name], snd acc ++ [AllChannelsAvailable rgb_name])
      | _ => (fst acc, snd acc ++ [MissingChannels rgb_name missing_channels])
      end
  | None => (fst acc, snd acc ++ [UnknownProduct rgb_name])
  end.

(** Lines 3184-3216, for one possible product; the state is
    [(rgb_store, printed)]. *)
Definition build_product (channels_data : channels_data_t)
    (solar_angles_data : option solar_angles_t)
    (acc : UnifiedRGBDataStore rgb * list report) (product_name : string)
    : UnifiedRGBDataStore rgb * list report :=
  let printed := snd acc ++ [Creating product_name] in
  match dict_get product_name RGB_CATALOG with
  | None => (fst acc, printed)
  | Some product_info =>
      let worker_name := cat_worker product_info in
      match dict_get worker_name get_rgb_worker_registry with
      | None => (fst acc, printed ++ [WorkerNotFound worker_name])
      | Some worker_func =>
          match worker_func channels_data solar_angles_data with
          | Returned (RGBSuccess rgb_data method) =>
              (store_rgb (fst acc) product_name rgb_data method,
               printed ++ [Created product_name])
          | Returned (RGBFailure error) =>
              (fst acc, printed ++ [ProductFailed product_name error])
          | Raised e => (fst acc, printed ++ [ProductException product_name e])
          end
      end
  end.

(** [RGB_PRODUCTS_TO_CREATE if RGB_PRODUCTS_TO_CREATE else
    list(RGB_CATALOG.keys())]. *)
Definition requested_products_of (RGB_PRODUCTS_TO_CREATE : option (list string)) : list string :=
  match RGB_PRODUCTS_TO_CREATE with
  | Some (name :: names) => name :: names
  | _ => dict_keys RGB_CATALOG
  end.

(** The temporary directory and the pickled copies written to it are
    left out: nothing reads them back. *)
Definition create_rgb_products_unified (RGB_PRODUCTS_TO_CREATE : option (list string))
    (memory_store : memory_store_t) : UnifiedRGBDataStore rgb * list report :=
  let available_channels : gset string := dom (ms_channels memory_store) in
  let requested_products := requested_products_of RGB_PRODUCTS_TO_CREATE in
  let selected :=
    fold_left (select_product available_channels) requested_products ([], []) in
  let possible_products := fst selected in
  match possible_products with
  | [] => (new_rgb_store, snd selected ++ [NoProductsPossible])
  | _ =>
      let channels_data := ms_channels memory_store in
      let solar_angles_data := ms_solar_angles memory_store in
      fold_left (build_product channels_data solar_angles_data) possible_products
        (new_rgb_store, snd selected)
  end.

End RGBProducts.

(** ** The day/night-aware workers (lines 2322-2382, 2620-2654, 2735-2767) *)

Section DayNightWorkers.

Context {img rgb land_mask : Type}.

Local Open Scope R_scope.

(** Globals and helpers of the other notebook cells. *)
Variable DOMAIN_CHOICE : string.
Variable COORDINATE_DATA : option coordinate_data_t.
Variable prepare_mesoscale_nightlights : outcome unit.
Variable get_land_mask_for_geocolor : outcome land_mask.

(** [create_coordinate_grids] (lines 2243-2320) reprojects through pyproj
    and answers NaN grids when that fails; it is a parameter here. *)
Variable create_coordinate_grids : list R -> list R -> shape_t -> grid pixel * grid pixel.

(** The compiled compositing kernels; each returns the [output] it
    filled, or raises. *)
Variable numba_geocolor_core :
  ndarray (grid pixel) -> ndarray (grid pixel) -> ndarray (grid pixel) ->
  ndarray (grid pixel) -> ndarray (grid pixel) ->
  ndarray (grid pixel) -> ndarray (grid pixel) ->
  land_mask -> grid pixel -> grid pixel -> outcome rgb.
Variable numba_cloud_microphysics_core :
  ndarray (grid pixel) -> ndarray (grid pixel) -> ndarray (grid pixel) ->
  ndarray (grid pixel) -> ndarray (grid pixel) -> ndarray (grid pixel) -> outcome rgb.
Variable numba_sandwich_enhanced_core :
  ndarray (grid pixel) -> ndarray (grid pixel) -> ndarray (grid pixel) -> outcome rgb.

(** [channels_data[ch]['calibrated']]. *)
Definition calibrated_of (channels_data : @channels_data_t img) (ch : string)
    : outcome (ndarray (grid pixel)) :=
  subscript (calibrated <$> channels_data !! ch).

Definition missing_in (required : list string) (channels_data : @channels_data_t img)
    : list string :=
  filter (fun ch => ch ∉ dom channels_data) required.

(** [np.full(shape, value, dtype=np.float32)]. *)
Definition full_array (s : shape_t) (value : R) : ndarray (grid pixel) :=
  MkArray s (np_full s (Some value)).

(** Lines 2345-2352: [(cos_sza, sza)]. *)
Definition geocolor_solar_inputs (solar_angles_data : option solar_angles_t)
    (s : shape_t) : ndarray (grid pixel) * ndarray (grid pixel) :=
  match solar_angles_data with
  | Some angles => (cos_sza angles, sza angles)
  | None => (full_array s 0.707, full_array s 45.0)
  end.

(** Lines 2639-2642. *)
Definition cloud_microphysics_sza (solar_angles_data : option solar_angles_t)
    (s : shape_t) : ndarray (grid pixel) :=
  match solar_angles_data with
  | Some angles => sza angles
  | None => full_array s 60.0
  end.

(** Lines 2750-2755. *)
Definition sandwich_sza (solar_angles_data : option solar_angles_t)
    (s : shape_t) : ndarray (grid pixel) :=
  match solar_angles_data with
  | Some angles => sza angles
  | None => full_array s 80.0
  end.

Definition try_worker (body : outcome (rgb_result rgb)) : rgb_result rgb :=
  match body with
  | Returned result => result
  | Raised e => RGBFailure (WorkerException e)
  end.

Definition rgb_worker_geocolor (channels_data : @channels_data_t img)
    (solar_angles_data : option solar_angles_t) : rgb_result rgb :=
  try_worker
    (let required := ["C01"; "C02"; "C03"; "C07"; "C13"]%string in
     match missing_in required channels_data with
     | ch :: rest => Returned (RGBFailure (MissingChannelsError (ch :: rest)))
     | [] =>
         _ <-- (if bool_decide (DOMAIN_CHOICE ∈ ["mesoscale1"; "mesoscale2"]%string)
                then prepare_mesoscale_nightlights else Returned tt) ;;
         blue_ref <-- calibrated_of channels_data "C01" ;;
         red_ref <-- calibrated_of channels_data "C02" ;;
         nir_ref <-- calibrated_of channels_data "C03" ;;
         c13_bt <-- calibrated_of channels_data "C13" ;;
         c07_bt <-- calibrated_of channels_data "C07" ;;
         let angles := geocolor_solar_inputs solar_angles_data (shape blue_ref) in
         land_mask <-- get_land_mask_for_geocolor ;;
         coordinate_data <--
           match COORDINATE_DATA with
           | Some c => Returned c
           | None => Raised TypeError
           end ;;
         let lonlat :=
           create_coordinate_grids (x_coords coordinate_data) (y_coords coordinate_data)
             (shape blue_ref) in
         output <--
           numba_geocolor_core blue_ref red_ref nir_ref c13_bt c07_bt
             (fst angles) (snd angles) land_mask (fst lonlat) (snd lonlat) ;;
         Returned (RGBSuccess output "geocolor_enhanced_mesoscale")
     end).

Definition rgb_worker_cloud_microphysics (channels_data : @channels_data_t img)
    (solar_angles_data : option solar_angles_t) : rgb_result rgb :=
  try_worker
    (let required := ["C02"; "C05"; "C07"; "C13"; "C15"]%string in
     match missing_in required channels_data with
     | ch :: rest => Returned (RGBFailure (MissingChannelsError (ch :: rest)))
     | [] =>
         red_ref <-- calibrated_of channels_data "C02" ;;
         snow_ice_ref <-- calibrated_of channels_data "C05" ;;
         swir_bt <-- calibrated_of channels_data "C07" ;;
         clean_ir_bt <-- calibrated_of channels_data "C13" ;;
         dirty_ir_bt <-- calibrated_of channels_data "C15" ;;
         let sza := cloud_microphysics_sza solar_angles_data (shape red_ref) in
         output <--
           numba_cloud_microphysics_core red_ref snow_ice_ref swir_bt clean_ir_bt
             dirty_ir_bt sza ;;
         Returned (RGBSuccess output "cloud_microphysics_goes2go_night")
     end).

Definition rgb_worker_sandwich_optimized (channels_data : @channels_data_t img)
    (solar_angles_data : option solar_angles_t) : rgb_result rgb :=
  try_worker
    (let required := ["C02"; "C13"]%string in
     match missing_in required channels_data with
     | ch :: rest => Returned (RGBFailure (MissingChannelsError (ch :: rest)))
     | [] =>
         vis_ref <-- calibrated_of channels_data "C02" ;;
         ir_bt <-- calibrated_of channels_data "C13" ;;
         let ir_bt_celsius :=
           MkArray (shape ir_bt) (grid_map (option_map (fun t => t - 273.15)) (data ir_bt)) in
         let sza := sandwich_sza solar_angles_data (shape vis_ref) in
         output <-- numba_sandwich_enhanced_core vis_ref ir_bt_celsius sza ;;
         Returned (RGBSuccess output "sandwich_temperature_filtered_solar_corrected")
     end).

End DayNightWorkers.

(** ** Stage orders *)

Section StageOrders.

Context {buf img : Type} `{Backend buf img}.

(** The order in the specification's words: "calibration -> (optional
    resample) -> enhancement", on the raw radiance of the task. *)
Definition calibrate_resample_enhance (cfg : config) (t : task buf)
    : outcome (ndarray buf * ndarray img) :=
  let raw_data := task_raw_data t in
  radiance <-- subscript (radiance raw_data) ;;
  calibrated <-- calibrate (task_channel_code t) raw_data radiance ;;
  resampled <-- upscale_if_needed (native_shape raw_data) (task_target_shape t) calibrated ;;
  enhanced <-- enhance (task_channel_code t) raw_data resampled ;;
  Returned (compress cfg resampled enhanced).

(** Resampling of the raw radiance first, then calibration, then
    enhancement. *)
Definition resample_calibrate_enhance (cfg : config) (t : task buf)
    : outcome (ndarray buf * ndarray img) :=
  let raw_data := task_raw_data t in
  radiance <-- subscript (radiance raw_data) ;;
  resampled <-- upscale_if_needed (native_shape raw_data) (task_target_shape t) radiance ;;
  calibrated <-- calibrate (task_channel_code t) raw_data resampled ;;
  enhanced <-- enhance (task_channel_code t) raw_data calibrated ;;
  Returned (compress cfg calibrated enhanced).

(** A pre-calibrated (Level 2) array: resampling and enhancement only. *)
Definition resample_enhance (cfg : config) (t : task buf)
    : outcome (ndarray buf * ndarray img) :=
  let raw_data := task_raw_data t in
  calibrated <-- subscript (calibrated_data raw_data) ;;
  resampled <-- upscale_if_needed (native_shape raw_data) (task_target_shape t) calibrated ;;
  enhanced <-- enhance (task_channel_code t) raw_data resampled ;;
  Returned (compress cfg resampled enhanced).

(** The arrays a worker result carries, if it is a success. *)
Definition stored_arrays (result : worker_result buf img) : option (ndarray buf * ndarray img) :=
  match result with
  | Success s => Some (res_calibrated_data s, res_enhanced_data s)
  | Failure _ _ _ => None
  end.

Definition returned {A : Type} (o : outcome A) : option A :=
  match o with
  | Returned a => Some a
  | Raised _ => None
  end.

End StageOrders.

(** The kernels read symbolically: a buffer is the history of the stages
    that produced it. *)
Inductive stage : Type :=
  | RawRadiance
  | Calibrated (input : stage)
  | Resampled (input : stage)
  | EnhancedFrom (input : stage).

Definition symbolic_backend : Backend stage stage :=
  {| numba_radiance_to_brightness_temp := fun a _ _ _ _ => Calibrated (data a);
     np_radiance_to_brightness_temp := fun a _ _ _ _ => Calibrated (data a);
     numba_visible_calibration := fun a _ => Calibrated (data a);
     np_multiply := fun a _ => Calibrated (data a);
     np_divide := fun a _ => Calibrated (data a);
     np_nanmax := fun _ => Returned (Some 1%R);
     numba_fast_upscale_2x := fun a _ => Resampled (data a);
     numba_fast_upscale_4x := fun a _ => Resampled (data a);
     numba_bilinear_upscale := fun a _ _ _ => Resampled (data a);
     scipy_zoom := fun a _ => Returned (MkArray (shape a) (Resampled (data a)));
     enhance_ir_channel := fun a _ => Returned (MkArray (shape a) (EnhancedFrom (data a)));
     enhance_visible_channel := fun a => Returned (MkArray (shape a) (EnhancedFrom (data a)));
     astype_float32 := fun a => a;
     astype_uint8 := fun a => a |}.

(** ** Sample inputs *)

(** A Level 1b record of an infrared channel with a [rows x cols] scene. *)
Definition ir_record {buf : Type} (rad : buf) (s : shape_t) : raw_record buf :=
  {| radiance := Some (MkArray s rad);
     calibrated_data := None;
     native_shape := s;
     band_id := Some 13%Z;
     channel_type := "ir";
     data_level := Some "level1b"%string;
     raw_planck_fk1 := None;
     raw_planck_fk2 := None;
     raw_planck_bc1 := None;
     raw_planck_bc2 := None;
     kappa0 := None;
     time_coverage_start := "2024-06-01T18:00:00.0Z";
     time_coverage_end := "2024-06-01T18:05:00.0Z";
     orbital_slot := "GOES-East";
     file_path := "C13.nc";
     coordinate_data := None |}.

(** Channel C13 of the CONUS table: native [1 x 1], target [4 x 4]. *)
Definition c13_task {buf : Type} (rad : buf) : task buf :=
  {| task_channel_code := "C13";
     task_raw_data := ir_record rad (1, 1)%nat;
     task_target_shape := get_standard_target_shape "C13" (1, 1)%nat (Some (1, 1)%nat);
     task_reference_shape := Some (1, 1)%nat;
     task_domain_type := "conus" |}.

(** A numeric backend whose unmodelled kernels do the least possible. *)
Definition plain_backend : Backend (grid pixel) unit :=
  numeric_backend
    (fun _ s => np_full s None)
    (fun _ s => np_full s None)
    (fun _ s _ _ => np_full s None)
    (fun a _ => Returned a)
    (fun a _ => Returned (MkArray (shape a) tt))
    (fun a => Returned (MkArray (shape a) tt)).

(** A full-disk download with no summary. *)
Definition full_disk_env : environment :=
  {| DOWNLOAD_SUMMARY := None;
     DOWNLOAD_CONFIG := {["domain_type"%string := "full_disk"%string]} |}.

(** Two infrared channels and no C02. *)
Definition two_ir_store : list (string * raw_record stage) :=
  [("C13"%string, ir_record RawRadiance (2, 2)%nat);
   ("C07"%string, ir_record RawRadiance (1, 1)%nat)].

(** Three infrared channels, the first smaller than the two others,
    which have the same number of pixels; and one channel of an empty
    scene. *)
Definition three_ir_store : list (string * raw_record stage) :=
  [("C07"%string, ir_record RawRadiance (1, 1)%nat);
   ("C13"%string, ir_record RawRadiance (2, 2)%nat);
   ("C14"%string, ir_record RawRadiance (4, 1)%nat)].

Definition empty_scene_store : list (string * raw_record stage) :=
  [("C13"%string, ir_record RawRadiance (0, 5)%nat)].

(** ** Solar geometry: notions for the properties *)

(** Inside the visible disk at the default satellite height. *)
Definition on_disk (x y : R) : Prop :=
  (x ^ 2 + y ^ 2 <= asin (earth_radius / DEFAULT_SAT_HEIGHT) ^ 2)%R.

Definition raised {A : Type} (o : outcome A) : Prop := exists e, o = Raised e.

(** The primary computation raises, with [scan_time] the value of that
    local when it does ([None] when it is not yet bound). *)
Definition failed_attempt (scan_time_of : option string -> outcome datetime)
    (body : coordinate_data_t -> datetime -> outcome angle_grids)
    (coordinate_data : coordinate_data_t) (scan_time_str : option string)
    (scan_time : option datetime) : Prop :=
  match scan_time with
  | None => raised (scan_time_of scan_time_str)
  | Some t =>
      scan_time_of scan_time_str = Returned t /\ raised (body coordinate_data t)
  end.

Definition goes_east : projection :=
  {| longitude_of_projection_origin := (-75.0)%R;
     perspective_point_height := 35786023.0%R |}.

(** A one-pixel scene at the sub-satellite point, and one at a corner of
    the full-disk frame, 0.15 rad off axis in both directions. *)
Definition centre_scene : coordinate_data_t :=
  {| x_coords := [0%R]; y_coords := [0%R];
     projection_info := goes_east; primary_channel := "C02" |}.

Definition corner_scene : coordinate_data_t :=
  {| x_coords := [0.15%R]; y_coords := [0.15%R];
     projection_info := goes_east; primary_channel := "C02" |}.

Definition six_pm : datetime := {| hour := 18; minute := 0 |}.

(** A reprojection that always fails. *)
Definition failing_body (coordinate_data : coordinate_data_t) (scan_time : datetime)
    : outcome angle_grids :=
  Raised ValueError.

(** ** Aggregation: notions for the properties *)

Section Contributions.

Context {buf img : Type}.

(** What one worker result adds to the store, under its channel code:
    nothing for a failure. *)
Definition contribution (result : worker_result buf img)
    : string * option (channel_entry buf img * metadata_t) :=
  match result with
  | Success s =>
      (res_channel_code s,
       Some ({| calibrated := res_calibrated_data s;
                enhanced := res_enhanced_data s;
                entry_channel_type := res_channel_type s;
                entry_shape := shape (res_calibrated_data s) |},
             res_metadata s))
  | Failure channel_code _ _ => (channel_code, None)
  end.

(** The part of a tally that the properties compare: the channel
    entries, the metadata and the two counters. *)
Definition summary_t : Type :=
  (gmap string (channel_entry buf img) * gmap string metadata_t * nat * nat)%type.

Definition summary_of (acc : @tally buf img) : summary_t :=
  (channels (data_store acc), metadata (data_store acc), successful acc, failed acc).

Definition add_contribution (s : summary_t)
    (c : string * option (channel_entry buf img * metadata_t)) : summary_t :=
  let '(chans, mds, ok, ko) := s in
  match snd c with
  | Some (entry, md) => (<[fst c := entry]> chans, <[fst c := md]> mds, S ok, ko)
  | None => (chans, mds, ok, S ko)
  end.

End Contributions.

(** The default settings with the worker pool switched off. *)
Definition sequential_config : config :=
  {| COMPRESS_STORED_DATA := true;
     MAX_PARALLEL_WORKERS := 4;
     ENABLE_PARALLEL_PROCESSING := false;
     ENABLE_SOLAR_ANGLES := true |}.

(** The tasks of [two_ir_store] merged in task order, and merged in the
    opposite order after other measured times. *)
Definition task_order_run : @run stage :=
  map (fun t => (t, 1%R)) (standard_tasks "conus" two_ir_store).

Definition completion_order_run : @run stage :=
  rev (map (fun t => (t, 2%R)) (standard_tasks "conus" two_ir_store)).

(** ** The RGB loop: notions for the properties *)

(** What the worker of a product makes of the stored channels: the RGB
    array when it succeeds, nothing when it reports a failure or
    raises. *)
Definition built {img rgb : Type} (worker_impl : string -> @worker_fn img rgb)
    (channels_data : @channels_data_t img) (solar_angles_data : option solar_angles_t)
    (product_name : string) : option rgb :=
  match dict_get product_name RGB_CATALOG with
  | Some product_info =>
      match worker_impl (cat_worker product_info) channels_data solar_angles_data with
      | Returned (RGBSuccess rgb_data _) => Some rgb_data
      | _ => None
      end
  | None => None
  end.


(** A store holding the three water-vapour channels, and workers of which
    only the differential water-vapour one succeeds. *)
Definition water_vapour_entry : channel_entry (grid pixel) string :=
  {| calibrated := MkArray (1, 1)%nat [[Some 250%R]];
     enhanced := MkArray (1, 1)%nat "png"%string;
     entry_channel_type := "ir"%string;
     entry_shape := (1, 1)%nat |}.

Definition water_vapour_store : @memory_store_t string :=
  {| ms_channels :=
       {["C08"%string := water_vapour_entry; "C09"%string := water_vapour_entry;
         "C10"%string := water_vapour_entry]};
     ms_solar_angles := None |}.

Definition one_good_worker (worker_name : string) : @worker_fn string string :=
  fun _ _ =>
    if String.eqb worker_name "rgb_worker_differential_water_vapor"
    then Returned (RGBSuccess "differential"%string "numba"%string)
    else Raised ValueError.

(** ** Workers: notions for the properties *)

Section WorkerNotions.

Context {buf img : Type} `{Backend buf img}.

(** Calibration of the raw radiance followed by enhancement, with no
    resampling in between. *)
Definition calibrate_enhance (cfg : config) (t : task buf)
    : outcome (ndarray buf * ndarray img) :=
  let raw_data := task_raw_data t in
  radiance <-- subscript (radiance raw_data) ;;
  calibrated <-- calibrate (task_channel_code t) raw_data radiance ;;
  enhanced <-- enhance (task_channel_code t) raw_data calibrated ;;
  Returned (compress cfg calibrated enhanced).

End WorkerNotions.

(** A store with the single channel C13, and a scene with no rows that
    the table upscales four times. *)
Definition c13_store : list (string * raw_record stage) :=
  [("C13"%string, ir_record RawRadiance (1, 1)%nat)].

Definition empty_scene_task : task stage :=
  {| task_channel_code := "C13";
     task_raw_data := ir_record RawRadiance (0, 5)%nat;
     task_target_shape := get_standard_target_shape "C13" (0, 5)%nat None;
     task_reference_shape := None;
     task_domain_type := "conus" |}.

Section TallyNotions.

Context {buf img : Type}.

(** The channel codes of the successful results, in merge order, and the
    number of failed ones. *)
Fixpoint success_codes (results : list (worker_result buf img)) : list string :=
  match results with
  | [] => []
  | Success s :: rest => res_channel_code s :: success_codes rest
  | Failure _ _ _ :: rest => success_codes rest
  end.

Fixpoint failure_count (results : list (worker_result buf img)) : nat :=
  match results with
  | [] => 0
  | Success _ :: rest => failure_count rest
  | Failure _ _ _ :: rest => S (failure_count rest)
  end.

(** The coordinates [c] are those of the result [s], filed under the
    primary channel the store writes. *)
Definition coordinates_from (c : coordinate_data_t) (s : success_t buf img) : Prop :=
  exists c', res_coordinate_data s = Some c' /\
    c = {| x_coords := x_coords c'; y_coords := y_coords c';
           projection_info := projection_info c'; primary_channel := "C02" |}.

End TallyNotions.

Section RGBLoopNotions.

Context {img rgb : Type}.

(** [UnifiedRGBProductFactory.get_available_products] (lines 3242-3252);
    [generate_all_rgb_products] runs the same loop (lines 3273-3279). *)
Definition get_available_products (memory_store : @memory_store_t img) : list string :=
  let available_channels : gset string := dom (ms_channels memory_store) in
  fold_left
    (fun (products : list string) (item : string * catalog_entry) =>
       let required_channels := cat_channels (snd item) in
       if forallb (fun ch => bool_decide (ch ∈ available_channels)) required_channels
       then products ++ [fst item]
       else products)
    RGB_CATALOG [].

(** The line the selection loop prints for a requested name, and the
    lines the building loop prints for a possible product. *)
Definition selection_report (available_channels : gset string) (rgb_name : string) : report :=
  match dict_get rgb_name RGB_CATALOG with
  | Some entry =>
      match missing_from (cat_channels entry) available_channels with
      | [] => AllChannelsAvailable rgb_name
      | ch :: rest => MissingChannels rgb_name (ch :: rest)
      end
  | None => UnknownProduct rgb_name
  end.

Definition build_reports (worker_impl : string -> @worker_fn img rgb)
    (channels_data : @channels_data_t img) (solar_angles_data : option solar_angles_t)
    (product_name : string) : list report :=
  Creating product_name ::
  match dict_get product_name RGB_CATALOG with
  | None => []
  | Some product_info =>
      match worker_impl (cat_worker product_info) channels_data solar_angles_data with
      | Returned (RGBSuccess _ _) => [Created product_name]
      | Returned (RGBFailure error) => [ProductFailed product_name error]
      | Raised e => [ProductException product_name e]
      end
  end.

(** A requested name that passes the selection loop. *)
Definition selectable (available_channels : gset string) (requested : list string)
    (name : string) : Prop :=
  name ∈ requested /\
  exists entry, dict_get name RGB_CATALOG = Some entry /\
                missing_from (cat_channels entry) available_channels = [].

End RGBLoopNotions.

(** The products a log says were attempted, in order. *)
Fixpoint attempted (printed : list report) : list string :=
  match printed with
  | [] => []
  | Creating product_name :: rest => product_name :: attempted rest
  | _ :: rest => attempted rest
  end.

(** ** Elementwise numpy arithmetic on 2-D arrays *)

Section Numpy.

Local Open Scope R_scope.

(** The size two dimensions broadcast to, if they do. *)
Definition broadcast_dim (a b : nat) : option nat :=
  if (a =? b)%nat then Some a
  else if (a =? 1)%nat then Some b
  else if (b =? 1)%nat then Some a
  else None.

Definition np_broadcast_shape (s t : shape_t) : outcome shape_t :=
  match broadcast_dim (fst s) (fst t), broadcast_dim (snd s) (snd t) with
  | Some rows, Some cols => Returned (rows, cols)
  | _, _ => Raised ValueError
  end.

(** The element a broadcast reads at [(i, j)]: a dimension of size 1 is
    read at index 0. *)
Definition at_broadcast (a : ndarray (grid pixel)) (i j : nat) : pixel :=
  default None
    (cell (data a) (if (fst (shape a) =? 1)%nat then 0%nat else i)
       (if (snd (shape a) =? 1)%nat then 0%nat else j)).

Definition tabulate {A : Type} (s : shape_t) (f : nat -> nat -> A) : grid A :=
  map (fun i => map (fun j => f i j) (seq 0 (snd s))) (seq 0 (fst s)).

(** [a - b] and the like on two arrays: NaN where either operand is. *)
Definition np_binary (f : R -> R -> R) (a b : ndarray (grid pixel))
    : outcome (ndarray (grid pixel)) :=
  s <-- np_broadcast_shape (shape a) (shape b) ;;
  Returned
    (MkArray s
       (tabulate s
          (fun i j =>
             match at_broadcast a i j, at_broadcast b i j with
             | Some x, Some y => Some (f x y)
             | _, _ => None
             end))).

(** An operation with a scalar, and [np.clip(a, lo, hi)]: NaN stays NaN. *)
Definition np_scalar (f : R -> R) (a : ndarray (grid pixel)) : ndarray (grid pixel) :=
  MkArray (shape a) (grid_map (option_map f) (data a)).

Definition np_clip_array (a : ndarray (grid pixel)) (lo hi : R) : ndarray (grid pixel) :=
  np_scalar (fun v => np_clip v lo hi) a.

(** The integer a float is cast to: truncation toward zero. *)
Definition py_trunc (x : R) : Z :=
  if Rle_dec 0 x then Int_part x else (- Int_part (- x))%Z.

(** [a.astype(np.uint8)]; [nan_byte] is what the platform's cast makes
    of NaN. *)
Definition uint8_of (nan_byte : Z) (p : pixel) : Z :=
  match p with
  | Some x => (py_trunc x mod 256)%Z
  | None => (nan_byte mod 256)%Z
  end.

Definition np_astype_uint8 (nan_byte : Z) (a : ndarray (grid pixel)) : ndarray (grid Z) :=
  MkArray (shape a) (grid_map (uint8_of nan_byte) (data a)).

(** An RGB image: rows of (red, green, blue) bytes. *)
Definition rgb_image : Type := ndarray (grid (Z * Z * Z)).

(** [np.stack([r, g, b], axis=-1)]: the planes must have one shape. *)
Definition np_stack3 (r g b : ndarray (grid Z)) : outcome rgb_image :=
  if bool_decide (shape r = shape g) && bool_decide (shape g = shape b) then
    Returned
      (MkArray (shape r)
         (grid_zip_with (fun rg bl => (fst rg, snd rg, bl))
            (grid_zip_with (fun x y => (x, y)) (data r) (data g)) (data b)))
  else Raised ValueError.

End Numpy.

(** ** The other RGB workers (lines 2442-2507 and 2656-3112) *)

(** The compiled compositing kernels and the globals of the other
    notebook cells.  A kernel returns the [output] it filled, or raises.
    The [python_] fields are the branches without numba, which
    [NUMBA_AVAILABLE = True] leaves dead. *)
Class Compositing (land_mask : Type) : Type := {
  DOMAIN_CHOICE : string;
  COORDINATE_DATA : option coordinate_data_t;
  prepare_mesoscale_nightlights : outcome unit;
  get_land_mask_for_geocolor : outcome land_mask;
  create_coordinate_grids : list R -> list R -> shape_t -> grid pixel * grid pixel;
  uint8_of_nan : Z;
  numba_geocolor_core :
    ndarray (grid pixel) -> ndarray (grid pixel) -> ndarray (grid pixel) ->
    ndarray (grid pixel) -> ndarray (grid pixel) ->
    ndarray (grid pixel) -> ndarray (grid pixel) ->
    land_mask -> grid pixel -> grid pixel -> outcome rgb_image;
  numba_true_color_core_enhanced :
    ndarray (grid pixel) -> ndarray (grid pixel) -> ndarray (grid pixel) ->
    ndarray (grid pixel) -> outcome rgb_image;
  numba_day_cloud_phase_core_enhanced :
    ndarray (grid pixel) -> ndarray (grid pixel) -> ndarray (grid pixel) ->
    outcome rgb_image;
  numba_cloud_microphysics_core :
    ndarray (grid pixel) -> ndarray (grid pixel) -> ndarray (grid pixel) ->
    ndarray (grid pixel) -> ndarray (grid pixel) -> ndarray (grid pixel) ->
    outcome rgb_image;
  numba_split_window_core :
    ndarray (grid pixel) -> ndarray (grid pixel) -> outcome rgb_image;
  python_split_window :
    ndarray (grid pixel) -> ndarray (grid pixel) -> outcome rgb_image;
  numba_day_snow_fog_night_fog_core :
    ndarray (grid pixel) -> ndarray (grid pixel) -> ndarray (grid pixel) ->
    ndarray (grid pixel) -> ndarray (grid pixel) -> outcome rgb_image;
  python_day_snow_fog_night_fog :
    ndarray (grid pixel) -> ndarray (grid pixel) -> ndarray (grid pixel) ->
    ndarray (grid pixel) -> outcome rgb_image;
  numba_sandwich_enhanced_core :
    ndarray (grid pixel) -> ndarray (grid pixel) -> ndarray (grid pixel) ->
    outcome rgb_image;
  numba_airmass_optimized_core :
    ndarray (grid pixel) -> ndarray (grid pixel) -> ndarray (grid pixel) ->
    ndarray (grid pixel) -> outcome rgb_image;
  numba_dust_optimized_core :
    ndarray (grid pixel) -> ndarray (grid pixel) -> ndarray (grid pixel) ->
    ndarray (grid pixel) -> outcome rgb_image;
  numba_fire_temperature_core :
    ndarray (grid pixel) -> ndarray (grid pixel) -> ndarray (grid pixel) ->
    outcome rgb_image;
  numba_night_microphysics_optimized_core :
    ndarray (grid pixel) -> ndarray (grid pixel) -> ndarray (grid pixel) ->
    outcome rgb_image;
  numba_day_snow_fog_core :
    ndarray (grid pixel) -> ndarray (grid pixel) -> ndarray (grid pixel) ->
    ndarray (grid pixel) -> outcome rgb_image;
  python_day_snow_fog :
    ndarray (grid pixel) -> ndarray (grid pixel) -> ndarray (grid pixel) ->
    ndarray (grid pixel) -> outcome rgb_image;
  numba_differential_water_vapor_core :
    ndarray (grid pixel) -> ndarray (grid pixel) -> outcome rgb_image;
  python_differential_water_vapor :
    ndarray (grid pixel) -> ndarray (grid pixel) -> outcome rgb_image;
  numba_split_window_difference_core :
    ndarray (grid pixel) -> ndarray (grid pixel) -> outcome rgb_image;
  python_split_window_difference :
    ndarray (grid pixel) -> ndarray (grid pixel) -> outcome rgb_image;
  numba_simple_water_vapor_core :
    ndarray (grid pixel) -> ndarray (grid pixel) -> ndarray (grid pixel) ->
    outcome rgb_image;
  python_simple_water_vapor :
    ndarray (grid pixel) -> ndarray (grid pixel) -> ndarray (grid pixel) ->
    outcome rgb_image;
  numba_day_land_cloud_fire_core :
    ndarray (grid pixel) -> ndarray (grid pixel) -> ndarray (grid pixel) ->
    outcome rgb_image;
  python_day_land_cloud_fire :
    ndarray (grid pixel) -> ndarray (grid pixel) -> ndarray (grid pixel) ->
    outcome rgb_image
}.

Section OtherWorkers.

Context {img land_mask : Type} `{Compositing land_mask}.

Local Open Scope R_scope.

(** The frame every worker shares: the [try], the check of the required
    channels, and the success dictionary around the array the body
    makes. *)
Definition rgb_worker (required : list string) (method : string)
    (channels_data : @channels_data_t img) (body : outcome rgb_image) : rgb_result rgb_image :=
  try_worker
    (match missing_in required channels_data with
     | ch :: rest => Returned (RGBFailure (MissingChannelsError (ch :: rest)))
     | [] =>
         output <-- body ;;
         Returned (RGBSuccess output method)
     end).

Definition celsius (bt : ndarray (grid pixel)) : ndarray (grid pixel) :=
  np_scalar (fun t => t - 273.15) bt.

Definition rgb_worker_true_color (channels_data : @channels_data_t img)
    (solar_angles_data : option solar_angles_t) : rgb_result rgb_image :=
  rgb_worker ["C01"; "C02"; "C03"]%string "true_color_enhanced" channels_data
    (blue_ref <-- calibrated_of channels_data "C01" ;;
     red_ref <-- calibrated_of channels_data "C02" ;;
     nir_ref <-- calibrated_of channels_data "C03" ;;
     let cos_sza :=
       match solar_angles_data with
       | Some angles => cos_sza angles
       | None => full_array (shape blue_ref) 0.707
       end in
     numba_true_color_core_enhanced blue_ref red_ref nir_ref cos_sza).

Definition rgb_worker_day_cloud_phase (channels_data : @channels_data_t img)
    (solar_angles_data : option solar_angles_t) : rgb_result rgb_image :=
  rgb_worker ["C02"; "C05"; "C13"]%string "day_cloud_phase_advanced" channels_data
    (red_ref <-- calibrated_of channels_data "C02" ;;
     snow_ice_ref <-- calibrated_of channels_data "C05" ;;
     clean_ir_bt <-- calibrated_of channels_data "C13" ;;
     let clean_ir_celsius := celsius clean_ir_bt in
     numba_day_cloud_phase_core_enhanced red_ref snow_ice_ref clean_ir_celsius).

Definition rgb_worker_split_window_optimized (channels_data : @channels_data_t img)
    (solar_angles_data : option solar_angles_t) : rgb_result rgb_image :=
  rgb_worker ["C13"; "C15"]%string "split_window_rainbow_colorscale" channels_data
    (c13_bt <-- calibrated_of channels_data "C13" ;;
     c15_bt <-- calibrated_of channels_data "C15" ;;
     if NUMBA_AVAILABLE then numba_split_window_core c13_bt c15_bt
     else python_split_window c13_bt c15_bt).

Definition rgb_worker_day_snow_fog_night_fog_core (channels_data : @channels_data_t img)
    (solar_angles_data : option solar_angles_t) : rgb_result rgb_image :=
  rgb_worker ["C03"; "C05"; "C07"; "C13"]%string "fog_detection_24h_day_snow_fog_night_fog"
    channels_data
    (c03_ref <-- calibrated_of channels_data "C03" ;;
     c05_ref <-- calibrated_of channels_data "C05" ;;
     c07_bt <-- calibrated_of channels_data "C07" ;;
     c13_bt <-- calibrated_of channels_data "C13" ;;
     let sza :=
       match solar_angles_data with
       | Some angles => sza angles
       | None => full_array (shape c03_ref) 80.0
       end in
     if NUMBA_AVAILABLE then numba_day_snow_fog_night_fog_core c03_ref c05_ref c07_bt c13_bt sza
     else python_day_snow_fog_night_fog c03_ref c05_ref c07_bt c13_bt).

Definition rgb_worker_airmass (channels_data : @channels_data_t img)
    (solar_angles_data : option solar_angles_t) : rgb_result rgb_image :=
  rgb_worker ["C08"; "C10"; "C12"; "C13"]%string "airmass_corrected_normalization"
    channels_data
    (c08_bt <-- calibrated_of channels_data "C08" ;;
     c10_bt <-- calibrated_of channels_data "C10" ;;
     c12_bt <-- calibrated_of channels_data "C12" ;;
     c13_bt <-- calibrated_of channels_data "C13" ;;
     numba_airmass_optimized_core c08_bt c10_bt c12_bt c13_bt).

Definition rgb_worker_dust (channels_data : @channels_data_t img)
    (solar_angles_data : option solar_angles_t) : rgb_result rgb_image :=
  rgb_worker ["C11"; "C13"; "C14"; "C15"]%string "dust_corrected_C14_gamma" channels_data
    (c11_bt <-- calibrated_of channels_data "C11" ;;
     c13_bt <-- calibrated_of channels_data "C13" ;;
     c14_bt <-- calibrated_of channels_data "C14" ;;
     c15_bt <-- calibrated_of channels_data "C15" ;;
     numba_dust_optimized_core c11_bt c13_bt c14_bt c15_bt).

Definition rgb_worker_fire_temperature (channels_data : @channels_data_t img)
    (solar_angles_data : option solar_angles_t) : rgb_result rgb_image :=
  rgb_worker ["C07"; "C06"; "C05"]%string "fire_temperature_corrected_gamma_C07_C06_C05"
    channels_data
    (c07_bt <-- calibrated_of channels_data "C07" ;;
     c06_ref <-- calibrated_of channels_data "C06" ;;
     c05_ref <-- calibrated_of channels_data "C05" ;;
     numba_fire_temperature_core c07_bt c06_ref c05_ref).

Definition rgb_worker_night_microphysics (channels_data : @channels_data_t img)
    (solar_angles_data : option solar_angles_t) : rgb_result rgb_image :=
  rgb_worker ["C07"; "C13"; "C15"]%string "night_microphysics_numba_optimized" channels_data
    (c07_bt <-- calibrated_of channels_data "C07" ;;
     c13_bt <-- calibrated_of channels_data "C13" ;;
     c15_bt <-- calibrated_of channels_data "C15" ;;
     numba_night_microphysics_optimized_core c07_bt c13_bt c15_bt).

(** Lines 2893-2907: the three planes of the ash product, before the
    cast to bytes.  The calibrated arrays are float32, so every
    elementwise operation rounds its result to float32, and the Python
    constant 273.15 enters as the float32 nearest to it; the other
    constants are float32 values already. *)
Definition ash_celsius (bt : ndarray (grid pixel)) : ndarray (grid pixel) :=
  np_scalar (fun t => float32 (t - float32 273.15)) bt.

Definition ash_planes (c11 c13 c15 : ndarray (grid pixel))
    : outcome (ndarray (grid pixel) * ndarray (grid pixel) * ndarray (grid pixel)) :=
  let c11_bt := ash_celsius c11 in
  let c13_bt := ash_celsius c13 in
  let c15_bt := ash_celsius c15 in
  d_red <-- np_binary (fun x y => float32 (x - y)) c15_bt c13_bt ;;
  let red := np_clip_array (np_scalar (fun v => float32 (float32 (v + 4) / 8)) d_red) 0 1 in
  d_green <-- np_binary (fun x y => float32 (x - y)) c13_bt c11_bt ;;
  let green :=
    np_clip_array (np_scalar (fun v => float32 (float32 (v + 2) / 12)) d_green) 0 1 in
  let blue :=
    np_clip_array (np_scalar (fun v => float32 (float32 (v + 30) / 140)) c11_bt) 0 1 in
  Returned (red, green, blue).

Definition ash_byte_plane (plane : ndarray (grid pixel)) : ndarray (grid Z) :=
  np_astype_uint8 uint8_of_nan
    (np_clip_array (np_scalar (fun v => float32 (v * 255)) plane) 0 255).

Definition rgb_worker_ash (channels_data : @channels_data_t img)
    (solar_angles_data : option solar_angles_t) : rgb_result rgb_image :=
  rgb_worker ["C11"; "C13"; "C15"]%string "ash_python" channels_data
    (c11 <-- calibrated_of channels_data "C11" ;;
     c13 <-- calibrated_of channels_data "C13" ;;
     c15 <-- calibrated_of channels_data "C15" ;;
     planes <-- ash_planes c11 c13 c15 ;;
     let '(red, green, blue) := planes in
     np_stack3 (ash_byte_plane red) (ash_byte_plane green) (ash_byte_plane blue)).

Definition rgb_worker_day_snow_fog (channels_data : @channels_data_t img)
    (solar_angles_data : option solar_angles_t) : rgb_result rgb_image :=
  rgb_worker ["C03"; "C05"; "C07"; "C13"]%string "day_snow_fog_corrected_gamma_temp_diff"
    channels_data
    (c03_ref <-- calibrated_of channels_data "C03" ;;
     c05_ref <-- calibrated_of channels_data "C05" ;;
     c07_bt <-- calibrated_of channels_data "C07" ;;
     c13_bt <-- calibrated_of channels_data "C13" ;;
     if NUMBA_AVAILABLE then numba_day_snow_fog_core c03_ref c05_ref c07_bt c13_bt
     else python_day_snow_fog c03_ref c05_ref c07_bt c13_bt).

Definition rgb_worker_differential_water_vapor (channels_data : @channels_data_t img)
    (solar_angles_data : option solar_angles_t) : rgb_result rgb_image :=
  rgb_worker ["C08"; "C10"]%string "differential_water_vapor_numba" channels_data
    (c08_bt <-- calibrated_of channels_data "C08" ;;
     c10_bt <-- calibrated_of channels_data "C10" ;;
     if NUMBA_AVAILABLE then numba_differential_water_vapor_core c08_bt c10_bt
     else python_differential_water_vapor c08_bt c10_bt).

Definition rgb_worker_split_window_difference (channels_data : @channels_data_t img)
    (solar_angles_data : option solar_angles_t) : rgb_result rgb_image :=
  rgb_worker ["C13"; "C15"]%string "split_window_difference_numba" channels_data
    (c13_bt <-- calibrated_of channels_data "C13" ;;
     c15_bt <-- calibrated_of channels_data "C15" ;;
     if NUMBA_AVAILABLE then numba_split_window_difference_core c13_bt c15_bt
     else python_split_window_difference c13_bt c15_bt).

Definition rgb_worker_simple_water_vapor (channels_data : @channels_data_t img)
    (solar_angles_data : option solar_angles_t) : rgb_result rgb_image :=
  rgb_worker ["C08"; "C09"; "C10"]%string "simple_water_vapor_numba" channels_data
    (c08_bt <-- calibrated_of channels_data "C08" ;;
     c09_bt <-- calibrated_of channels_data "C09" ;;
     c10_bt <-- calibrated_of channels_data "C10" ;;
     if NUMBA_AVAILABLE then numba_simple_water_vapor_core c08_bt c09_bt c10_bt
     else python_simple_water_vapor c08_bt c09_bt c10_bt).

Definition rgb_worker_day_land_cloud_fire (channels_data : @channels_data_t img)
    (solar_angles_data : option solar_angles_t) : rgb_result rgb_image :=
  rgb_worker ["C06"; "C03"; "C02"]%string "day_land_cloud_fire_C06_C03_C02" channels_data
    (c06_ref <-- calibrated_of channels_data "C06" ;;
     c03_ref <-- calibrated_of channels_data "C03" ;;
     c02_ref <-- calibrated_of channels_data "C02" ;;
     if NUMBA_AVAILABLE then numba_day_land_cloud_fire_core c06_ref c03_ref c02_ref
     else python_day_land_cloud_fire c06_ref c03_ref c02_ref).

(** The functions of [get_rgb_worker_registry()] (lines 2164-2184), by
    registry key.  A worker catches what it raises, so the call
    returns. *)
Definition registered_worker (worker_name : string) : @worker_fn img rgb_image :=
  fun channels_data solar_angles_data =>
    match
      dict_get worker_name
        [("rgb_worker_geocolor",
          rgb_worker_geocolor DOMAIN_CHOICE COORDINATE_DATA
            prepare_mesoscale_nightlights get_land_mask_for_geocolor
            create_coordinate_grids numba_geocolor_core);
         ("rgb_worker_true_color", rgb_worker_true_color);
         ("rgb_worker_day_cloud_phase", rgb_worker_day_cloud_phase);
         ("rgb_worker_cloud_microphysics",
          rgb_worker_cloud_microphysics numba_cloud_microphysics_core);
         ("rgb_worker_airmass", rgb_worker_airmass);
         ("rgb_worker_dust", rgb_worker_dust);
         ("rgb_worker_ash", rgb_worker_ash);
         ("rgb_worker_fire_temperature", rgb_worker_fire_temperature);
         ("rgb_worker_night_microphysics", rgb_worker_night_microphysics);
         ("rgb_worker_day_snow_fog", rgb_worker_day_snow_fog);
         ("rgb_worker_split_window_difference", rgb_worker_split_window_difference);
         ("rgb_worker_differential_water_vapor", rgb_worker_differential_water_vapor);
         ("rgb_worker_simple_water_vapor", rgb_worker_simple_water_vapor);
         ("rgb_worker_day_land_cloud_fire", rgb_worker_day_land_cloud_fire);
         ("rgb_worker_split_window_optimized", rgb_worker_split_window_optimized);
         ("rgb_worker_sandwich_optimized",
          rgb_worker_sandwich_optimized numba_sandwich_enhanced_core);
         ("rgb_worker_day_snow_fog_night_fog", rgb_worker_day_snow_fog_night_fog_core)]%string
    with
    | Some worker => Returned (worker channels_data solar_angles_data)
    | None => Raised KeyError
    end.

End OtherWorkers.

(** A compositing environment whose kernels return an empty image, and a
    store that holds every channel. *)
Definition blank_image : rgb_image := MkArray (0, 0)%nat [].

Definition plain_compositing : Compositing unit :=
  {| DOMAIN_CHOICE := "conus";
     COORDINATE_DATA := Some centre_scene;
     prepare_mesoscale_nightlights := Returned tt;
     get_land_mask_for_geocolor := Returned tt;
     create_coordinate_grids := fun _ _ s => (np_full s None, np_full s None);
     uint8_of_nan := 0;
     numba_geocolor_core := fun _ _ _ _ _ _ _ _ _ _ => Returned blank_image;
     numba_true_color_core_enhanced := fun _ _ _ _ => Returned blank_image;
     numba_day_cloud_phase_core_enhanced := fun _ _ _ => Returned blank_image;
     numba_cloud_microphysics_core := fun _ _ _ _ _ _ => Returned blank_image;
     numba_split_window_core := fun _ _ => Returned blank_image;
     python_split_window := fun _ _ => Returned blank_image;
     numba_day_snow_fog_night_fog_core := fun _ _ _ _ _ => Returned blank_image;
     python_day_snow_fog_night_fog := fun _ _ _ _ => Returned blank_image;
     numba_sandwich_enhanced_core := fun _ _ _ => Returned blank_image;
     numba_airmass_optimized_core := fun _ _ _ _ => Returned blank_image;
     numba_dust_optimized_core := fun _ _ _ _ => Returned blank_image;
     numba_fire_temperature_core := fun _ _ _ => Returned blank_image;
     numba_night_microphysics_optimized_core := fun _ _ _ => Returned blank_image;
     numba_day_snow_fog_core := fun _ _ _ _ => Returned blank_image;
     python_day_snow_fog := fun _ _ _ _ => Returned blank_image;
     numba_differential_water_vapor_core := fun _ _ => Returned blank_image;
     python_differential_water_vapor := fun _ _ => Returned blank_image;
     numba_split_window_difference_core := fun _ _ => Returned blank_image;
     python_split_window_difference := fun _ _ => Returned blank_image;
     numba_simple_water_vapor_core := fun _ _ _ => Returned blank_image;
     python_simple_water_vapor := fun _ _ _ => Returned blank_image;
     numba_day_land_cloud_fire_core := fun _ _ _ => Returned blank_image;
     python_day_land_cloud_fire := fun _ _ _ => Returned blank_image |}.

Definition all_channels_store : @channels_data_t string :=
  list_to_map (map (fun ch => (ch, water_vapour_entry)) ALL_CHANNELS).

(** ** The loaders (lines 626-747) and the projection authority (lines 43-200) *)

(** [d[k] = v] on a dictionary: the value is replaced in place when the
    key is there, appended otherwise. *)
Fixpoint dict_set {A : Type} (k : string) (v : A) (d : list (string * A)) : list (string * A) :=
  match d with
  | [] => [(k, v)]
  | (k', v') :: d' => if String.eqb k k' then (k, v) :: d' else (k', v') :: dict_set k v d'
  end.

(** The attributes of [goes_imager_projection] the authority reads besides
    the two of [projection]. *)
Record ellipsoid : Type := {
  semi_major_axis : R;
  semi_minor_axis : R;
  inverse_flattening : R;
  sweep_angle_axis : string
}.

(** What [xr.open_dataset] exposes of a Level 1b file.  A variable or an
    attribute the file lacks is [None]; reading it raises. *)
Record l1b_dataset (buf : Type) : Type := {
  ds_Rad : option (ndarray buf);
  ds_band_id : option Z;
  ds_planck_fk1 : option R;
  ds_planck_fk2 : option R;
  ds_planck_bc1 : option R;
  ds_planck_bc2 : option R;
  ds_kappa0 : option R;
  ds_time_coverage_start : option string;
  ds_time_coverage_end : option string;
  ds_orbital_slot : option string;
  ds_x : option (list R);
  ds_y : option (list R);
  ds_goes_imager_projection : option projection;
  ds_ellipsoid : option ellipsoid
}.

Arguments ds_Rad {buf} l.
Arguments ds_band_id {buf} l.
Arguments ds_planck_fk1 {buf} l.
Arguments ds_planck_fk2 {buf} l.
Arguments ds_planck_bc1 {buf} l.
Arguments ds_planck_bc2 {buf} l.
Arguments ds_kappa0 {buf} l.
Arguments ds_time_coverage_start {buf} l.
Arguments ds_time_coverage_end {buf} l.
Arguments ds_orbital_slot {buf} l.
Arguments ds_x {buf} l.
Arguments ds_y {buf} l.
Arguments ds_goes_imager_projection {buf} l.
Arguments ds_ellipsoid {buf} l.

(** The state of a [GOESProjectionAuthority]; the WKT and PROJ strings,
    which [osr] and the float formatter write, are left out. *)
Record authority : Type := {
  sat_lon : R;
  sat_height : R;
  semi_major : R;
  semi_minor : R;
  inv_flattening : R;
  sweep_axis : string;
  x_min : R;
  x_max : R;
  y_min : R;
  y_max : R;
  x_extent_rad : R;
  y_extent_rad : R;
  source_resolution_km : R
}.

Section Authority.

Local Open Scope R_scope.

(** [a.min()] and [a.max()]: an empty array raises. *)
Definition np_min (a : list R) : option R :=
  match a with
  | [] => None
  | v :: rest => Some (fold_left Rmin rest v)
  end.

Definition np_max (a : list R) : option R :=
  match a with
  | [] => None
  | v :: rest => Some (fold_left Rmax rest v)
  end.

(** Lines 83-89 and 143-149: the standard resolution of a pixel size.
    The thresholds are the doubles the literals denote. *)
Definition resolution_of (pixel_size_rad : R) : R :=
  if Rlt_dec pixel_size_rad (float64 0.000021) then 0.5
  else if Rlt_dec pixel_size_rad (float64 0.000042) then 1.0
  else 2.0.

(** [GOESProjectionAuthority.__init__]; [None] when a read raises.  The
    extents are differences of Python floats, rounded to a double; the
    difference [dx] of two neighbouring coordinates is taken by numpy in
    the type of the coordinate array, and is kept as the array has it. *)
Definition GOESProjectionAuthority {buf : Type} (netcdf_dataset : l1b_dataset buf)
    : option authority :=
  proj_info ← ds_goes_imager_projection netcdf_dataset;
  shape_info ← ds_ellipsoid netcdf_dataset;
  x_coords ← ds_x netcdf_dataset;
  y_coords ← ds_y netcdf_dataset;
  x_min ← np_min x_coords;
  x_max ← np_max x_coords;
  y_min ← np_min y_coords;
  y_max ← np_max y_coords;
  x1 ← x_coords !! 1%nat;
  x0 ← x_coords !! 0%nat;
  let dx := x1 - x0 in
  let pixel_size_rad := Rabs dx in
  Some {| sat_lon := longitude_of_projection_origin proj_info;
          sat_height := perspective_point_height proj_info;
          semi_major := semi_major_axis shape_info;
          semi_minor := semi_minor_axis shape_info;
          inv_flattening := inverse_flattening shape_info;
          sweep_axis := sweep_angle_axis shape_info;
          x_min := x_min;
          x_max := x_max;
          y_min := y_min;
          y_max := y_max;
          x_extent_rad := float64 (x_max - x_min);
          y_extent_rad := float64 (y_max - y_min);
          source_resolution_km := resolution_of pixel_size_rad |}.

(** [x / n] for a float and a Python integer: the quotient rounded to a
    double. *)
Definition float_div_int (x : R) (n : nat) : outcome R :=
  if (n =? 0)%nat then Raised ZeroDivisionError else Returned (float64 (x / INR n)).

Definition detect_resolution_from_dimensions (self : authority) (data_width data_height : nat)
    : outcome (R * R * R) :=
  pixel_spacing_x_rad <-- float_div_int (x_extent_rad self) data_width ;;
  pixel_spacing_y_rad <-- float_div_int (y_extent_rad self) data_height ;;
  let pixel_size_rad := Rabs pixel_spacing_x_rad in
  let detected_km := resolution_of pixel_size_rad in
  Returned (detected_km, pixel_spacing_x_rad, pixel_spacing_y_rad).

Definition get_geotransform (self : authority) (data_width data_height : nat)
    : outcome (list R) :=
  detected <-- detect_resolution_from_dimensions self data_width data_height ;;
  let '(detected_km, dx_rad, dy_rad) := detected in
  let upper_left_x := float64 (x_min self * sat_height self) in
  let upper_left_y := float64 (y_max self * sat_height self) in
  let pixel_size_x := float64 (dx_rad * sat_height self) in
  let pixel_size_y := Rabs (float64 (dy_rad * sat_height self)) in
  Returned [upper_left_x; pixel_size_x; 0.0; upper_left_y; 0.0; - pixel_size_y].

(** [get_projection_authority] on the global singleton. *)
Definition get_projection_authority (_GOES_PROJECTION_AUTHORITY : option authority)
    : outcome authority :=
  match _GOES_PROJECTION_AUTHORITY with
  | None => Raised ValueError
  | Some a => Returned a
  end.

End Authority.

Section Loaders.

Context {buf : Type}.

(** [xr.open_dataset(path)]; [None] when it raises. *)
Variable open_dataset : string -> option (l1b_dataset buf).

(** [DOWNLOAD_RESULTS], channel code to local path, and
    [DOWNLOAD_CONFIG["satellite"]]. *)
Variable DOWNLOAD_RESULTS : list (string * string).
Variable satellite : string.

(** Lines 708-712: the channel whose record gets the coordinates. *)
Definition carries_coordinates (channels_to_process : list string) (channel : string) : bool :=
  String.eqb channel "C02" ||
  (bool_decide (head channels_to_process = Some channel) &&
   bool_decide ("C02"%string ∉ channels_to_process)).

(** The dictionary of lines 705-715 and its update of lines 717-725;
    [None] when building it raises, which leaves the store as it was. *)
Definition level1b_record (file_path : string) (ds : l1b_dataset buf)
    : option (raw_record buf) :=
  rad ← ds_Rad ds;
  band ← ds_band_id ds;
  start ← ds_time_coverage_start ds;
  stop ← ds_time_coverage_end ds;
  let is_ir := (7 <=? band)%Z in
  Some {| radiance := Some rad;
          calibrated_data := None;
          native_shape := shape rad;
          band_id := Some band;
          channel_type := if is_ir then "ir" else "visible";
          data_level := Some "level1b"%string;
          raw_planck_fk1 := if is_ir then ds_planck_fk1 ds else None;
          raw_planck_fk2 := if is_ir then ds_planck_fk2 ds else None;
          raw_planck_bc1 := if is_ir then ds_planck_bc1 ds else None;
          raw_planck_bc2 := if is_ir then ds_planck_bc2 ds else None;
          kappa0 := if is_ir then None else ds_kappa0 ds;
          time_coverage_start := start;
          time_coverage_end := stop;
          orbital_slot := default ("GOES-" ++ satellite)%string (ds_orbital_slot ds);
          file_path := file_path;
          coordinate_data := None |}.

(** Lines 728-733; [None] when a read raises. *)
Definition level1b_coordinates (channel : string) (ds : l1b_dataset buf)
    : option coordinate_data_t :=
  x ← ds_x ds;
  y ← ds_y ds;
  proj ← ds_goes_imager_projection ds;
  Some {| x_coords := x; y_coords := y; projection_info := proj;
          primary_channel := channel |}.

Definition with_coordinates (record : raw_record buf) (c : coordinate_data_t)
    : raw_record buf :=
  {| radiance := radiance record;
     calibrated_data := calibrated_data record;
     native_shape := native_shape record;
     band_id := band_id record;
     channel_type := channel_type record;
     data_level := data_level record;
     raw_planck_fk1 := raw_planck_fk1 record;
     raw_planck_fk2 := raw_planck_fk2 record;
     raw_planck_bc1 := raw_planck_bc1 record;
     raw_planck_bc2 := raw_planck_bc2 record;
     kappa0 := kappa0 record;
     time_coverage_start := time_coverage_start record;
     time_coverage_end := time_coverage_end record;
     orbital_slot := orbital_slot record;
     file_path := file_path record;
     coordinate_data := Some c |}.

(** One turn of the loop of [load_level1b_data]; the state is
    [(raw_data_store, _GOES_PROJECTION_AUTHORITY)].  An exception ends
    the turn where it is raised: what was assigned before it stays. *)
Definition load_level1b_channel (channels_to_process : list string)
    (state : list (string * raw_record buf) * option authority) (channel : string)
    : list (string * raw_record buf) * option authority :=
  let '(raw_data_store, projection_authority) := state in
  match dict_get channel DOWNLOAD_RESULTS with
  | None => state
  | Some file_path =>
      match open_dataset file_path with
      | None => state
      | Some ds =>
          match
            match projection_authority with
            | Some a => Some (Some a)
            | None => option_map Some (GOESProjectionAuthority ds)
            end
          with
          | None => state
          | Some projection_authority =>
              match level1b_record file_path ds with
              | None => (raw_data_store, projection_authority)
              | Some record =>
                  if carries_coordinates channels_to_process channel then
                    match level1b_coordinates channel ds with
                    | Some c =>
                        (dict_set channel (with_coordinates record c) raw_data_store,
                         projection_authority)
                    | None => (dict_set channel record raw_data_store, projection_authority)
                    end
                  else (dict_set channel record raw_data_store, projection_authority)
              end
          end
      end
  end.

Definition load_level1b_data (projection_authority : option authority)
    (channels_to_process : list string)
    : list (string * raw_record buf) * option authority :=
  fold_left (load_level1b_channel channels_to_process) channels_to_process
    ([], projection_authority).


End Loaders.

Section LoaderNotions.

Context {buf : Type}.
Variable open_dataset : string -> option (l1b_dataset buf).
Variable DOWNLOAD_RESULTS : list (string * string).

(** The one channel whose record may carry the coordinates: C02 when it
    is to be processed, else the first channel to process. *)
Definition designated (channels_to_process : list string) : option string :=
  if bool_decide ("C02"%string ∈ channels_to_process) then Some "C02"%string
  else head channels_to_process.

(** What holds of a record [load_level1b_data] stored under [channel]. *)
Definition level1b_loaded (channels_to_process : list string) (channel : string)
    (record : raw_record buf) : Prop :=
  channel ∈ channels_to_process /\
  exists path ds rad band,
    dict_get channel DOWNLOAD_RESULTS = Some path /\
    open_dataset path = Some ds /\
    ds_Rad ds = Some rad /\
    ds_band_id ds = Some band /\
    radiance record = Some rad /\
    native_shape record = shape rad /\
    calibrated_data record = None /\
    band_id record = Some band /\
    channel_type record = (if (7 <=? band)%Z then "ir" else "visible")%string /\
    data_level record = Some "level1b"%string /\
    file_path record = path /\
    forall c, coordinate_data record = Some c ->
      designated channels_to_process = Some channel /\
      primary_channel c = channel /\
      ds_x ds = Some (x_coords c) /\ ds_y ds = Some (y_coords c) /\
      ds_goes_imager_projection ds = Some (projection_info c).

End LoaderNotions.

(** What [xr.open_dataset] exposes of a Level 2 multi-channel file; the
    variables are indexed by channel code. *)
Record l2_dataset (buf : Type) : Type := {
  l2_dims : option (nat * nat);
  l2_CMI : string -> option (ndarray buf);
  l2_CMI_units : string -> option string;
  l2_band_id : string -> option Z;
  l2_time_coverage_start : option string;
  l2_time_coverage_end : option string;
  l2_orbital_slot : option string;
  l2_x : option (list R);
  l2_y : option (list R);
  l2_goes_imager_projection : option projection
}.

Arguments l2_dims {buf} l.
Arguments l2_CMI {buf} l.
Arguments l2_CMI_units {buf} l.
Arguments l2_band_id {buf} l.
Arguments l2_time_coverage_start {buf} l.
Arguments l2_time_coverage_end {buf} l.
Arguments l2_orbital_slot {buf} l.
Arguments l2_x {buf} l.
Arguments l2_y {buf} l.
Arguments l2_goes_imager_projection {buf} l.

Section Level2Loader.

Context {buf : Type}.

Variable open_level2 : string -> option (l2_dataset buf).
Variable DOWNLOAD_RESULTS : list (string * string).
Variable satellite : string.

(** [int(s)] on a string; [None] when it raises. *)
Variable py_int_of_string : string -> option Z.

(** [channel[1:]]. *)
Definition drop_first (channel : string) : string :=
  substring 1 (String.length channel - 1) channel.

(** One turn of the loop of lines 640-677; [None] when the turn raises,
    [Some] of the unchanged store when the variable is not in the
    file. *)
Definition load_level2_channel (level2_file : string) (ds : l2_dataset buf)
    (channels_to_process : list string)
    (raw_data_store : list (string * raw_record buf)) (channel : string)
    : option (list (string * raw_record buf)) :=
  match l2_CMI ds channel with
  | None => Some raw_data_store
  | Some calibrated =>
      band ← match l2_band_id ds channel with
             | Some b => Some b
             | None => py_int_of_string (drop_first channel)
             end;
      let units := default ""%string (l2_CMI_units ds channel) in
      let record :=
        {| radiance := None;
           calibrated_data := Some calibrated;
           native_shape := shape calibrated;
           band_id := Some band;
           channel_type := if String.eqb units "K" then "ir" else "visible";
           data_level := Some "level2"%string;
           raw_planck_fk1 := None;
           raw_planck_fk2 := None;
           raw_planck_bc1 := None;
           raw_planck_bc2 := None;
           kappa0 := None;
           time_coverage_start := default ""%string (l2_time_coverage_start ds);
           time_coverage_end := default ""%string (l2_time_coverage_end ds);
           orbital_slot := default ("GOES-" ++ satellite)%string (l2_orbital_slot ds);
           file_path := level2_file;
           coordinate_data := None |} in
      if bool_decide (head channels_to_process = Some channel) then
        x ← l2_x ds;
        y ← l2_y ds;
        proj ← l2_goes_imager_projection ds;
        Some (dict_set channel
                (with_coordinates record
                   {| x_coords := x; y_coords := y; projection_info := proj;
                      primary_channel := channel |})
                raw_data_store)
      else Some (dict_set channel record raw_data_store)
  end.

Fixpoint load_level2_loop (level2_file : string) (ds : l2_dataset buf)
    (channels_to_process remaining : list string)
    (raw_data_store : list (string * raw_record buf))
    : option (list (string * raw_record buf)) :=
  match remaining with
  | [] => Some raw_data_store
  | channel :: rest =>
      store ← load_level2_channel level2_file ds channels_to_process raw_data_store channel;
      load_level2_loop level2_file ds channels_to_process rest store
  end.

(** [load_level2_data]: [None] when the call raises, which only the
    lookup of the first download, outside the [try], can make it do. *)
Definition load_level2_data (channels_to_process : list string)
    : option (list (string * raw_record buf)) :=
  first_download ← head DOWNLOAD_RESULTS;
  let level2_file := snd first_download in
  match
    ds ← open_level2 level2_file;
    _ ← l2_dims ds;
    load_level2_loop level2_file ds channels_to_process channels_to_process []
  with
  | Some raw_data_store => Some raw_data_store
  | None => Some []
  end.

End Level2Loader.

Section Level2Notions.

Context {buf : Type}.
Variable open_level2 : string -> option (l2_dataset buf).

(** What holds of a record [load_level2_data] stored under [channel],
    read from the file [level2_file]. *)
Definition level2_loaded (level2_file : string) (channels_to_process : list string)
    (channel : string) (record : raw_record buf) : Prop :=
  channel ∈ channels_to_process /\
  exists ds calibrated,
    open_level2 level2_file = Some ds /\
    l2_CMI ds channel = Some calibrated /\
    calibrated_data record = Some calibrated /\
    native_shape record = shape calibrated /\
    radiance record = None /\
    data_level record = Some "level2"%string /\
    file_path record = level2_file /\
    channel_type record =
      (if String.eqb (default ""%string (l2_CMI_units ds channel)) "K"
       then "ir" else "visible")%string /\
    forall c, coordinate_data record = Some c ->
      head channels_to_process = Some channel /\ primary_channel c = channel.

Variable py_int_of_string : string -> option Z.

(** The turn of the loop for [channel] reads without an exception: when
    the file has the channel's variable, it has the channel's band
    identifier or the digits of the code parse as an integer, and, for
    the first channel to process, it has the two coordinate variables
    and the projection. *)
Definition level2_channel_readable (ds : l2_dataset buf) (channels_to_process : list string)
    (channel : string) : Prop :=
  is_Some (l2_CMI ds channel) ->
  (is_Some (l2_band_id ds channel) \/ is_Some (py_int_of_string (drop_first channel))) /\
  (head channels_to_process = Some channel ->
   is_Some (l2_x ds) /\ is_Some (l2_y ds) /\ is_Some (l2_goes_imager_projection ds)).

(** The file opens, has its two dimensions, and every turn of the loop
    reads without an exception. *)
Definition level2_readable (level2_file : string) (channels_to_process : list string)
    : Prop :=
  exists ds,
    open_level2 level2_file = Some ds /\ is_Some (l2_dims ds) /\
    forall channel, channel ∈ channels_to_process ->
      level2_channel_readable ds channels_to_process channel.

End Level2Notions.

(** A Level 1b file of channel C13 with a [1 x 2] scene, and a Level 2
    file that holds C13 only. *)
Definition grs80 : ellipsoid :=
  {| semi_major_axis := 6378137.0%R;
     semi_minor_axis := 6356752.31414%R;
     inverse_flattening := 298.2572221%R;
     sweep_angle_axis := "x" |}.

Definition c13_file : l1b_dataset stage :=
  {| ds_Rad := Some (MkArray (1, 2)%nat RawRadiance);
     ds_band_id := Some 13%Z;
     ds_planck_fk1 := None;
     ds_planck_fk2 := None;
     ds_planck_bc1 := None;
     ds_planck_bc2 := None;
     ds_kappa0 := None;
     ds_time_coverage_start := Some "2024-06-01T18:00:00.0Z"%string;
     ds_time_coverage_end := Some "2024-06-01T18:05:00.0Z"%string;
     ds_orbital_slot := None;
     ds_x := Some [0%R; 0.000056%R];
     ds_y := Some [0%R];
     ds_goes_imager_projection := Some goes_east;
     ds_ellipsoid := Some grs80 |}.

Definition c13_download : list (string * string) := [("C13", "OR_ABI-L1b-RadC-M6C13.nc")]%string.

Definition c13_level2_file : l2_dataset stage :=
  {| l2_dims := Some (1, 2)%nat;
     l2_CMI := fun ch => if String.eqb ch "C13" then Some (MkArray (1, 2)%nat RawRadiance) else None;
     l2_CMI_units := fun ch => Some "K"%string;
     l2_band_id := fun ch => None;
     l2_time_coverage_start := None;
     l2_time_coverage_end := None;
     l2_orbital_slot := None;
     l2_x := Some [0%R; 0.000056%R];
     l2_y := Some [0%R];
     l2_goes_imager_projection := Some goes_east |}.


(** ** Grid sampling (src/convert_geodata.py, lines 29-35) *)

(** The elements a slice [l[::step]] with a positive step keeps: one,
    then none of the next [step - 1]; [wait] counts the elements still to
    pass over. *)
Fixpoint slice_from {A : Type} (step wait : nat) (l : list A) : list A :=
  match l with
  | [] => []
  | x :: l' =>
      match wait with
      | O => x :: slice_from step (step - 1) l'
      | S w => slice_from step w l'
      end
  end.

(** [l[::step]] for a step that is not zero: a negative step walks from
    the last element backwards. *)
Definition slice_axis {A : Type} (step : Z) (l : list A) : list A :=
  if (0 <? step)%Z then slice_from (Z.to_nat step) 0 l
  else slice_from (Z.to_nat (- step)) 0 (rev l).

(** [len(range(0, len, step))], the length numpy gives the sliced axis. *)
Definition slice_length (len step : nat) : nat := (len + step - 1) / step.

(** [a[::step, ::step]] on the first two axes of an array whose cells are
    of type [B]: numbers for a 2-D array, the vector along the last axis
    for a 3-D one.  A zero step raises [ValueError]. *)
Definition slice_two_axes {B : Type} (step : Z) (a : ndarray (grid B))
    : outcome (ndarray (grid B)) :=
  if (step =? 0)%Z then Raised ValueError
  else
    let n := Z.to_nat (Z.abs step) in
    Returned
      (MkArray (slice_length (fst (shape a)) n, slice_length (snd (shape a)) n)
         (map (slice_axis step) (slice_axis step (data a)))).

(** The arrays [sample_grid] is called on, by rank; [depth] is the
    length of the last axis of a 3-D array. *)
Inductive geo_array (A : Type) : Type :=
  | Rank0 (x : A)
  | Rank1 (v : list A)
  | Rank2 (a : ndarray (grid A))
  | Rank3 (depth : nat) (a : ndarray (grid (list A))).

Arguments Rank0 {A} x.
Arguments Rank1 {A} v.
Arguments Rank2 {A} a.
Arguments Rank3 {A} depth a.

Definition ndim {A : Type} (arr : geo_array A) : nat :=
  match arr with
  | Rank0 _ => 0
  | Rank1 _ => 1
  | Rank2 _ => 2
  | Rank3 _ _ => 3
  end.

Definition sample_grid {A : Type} (arr : geo_array A) (sample_rate : Z)
    : outcome (geo_array A) :=
  if (ndim arr =? 2)%nat then
    match arr with
    | Rank2 a => a' <-- slice_two_axes sample_rate a ;; Returned (Rank2 a')
    | _ => Returned arr
    end
  else if (ndim arr =? 3)%nat then
    match arr with
    | Rank3 depth a => a' <-- slice_two_axes sample_rate a ;; Returned (Rank3 depth a')
    | _ => Returned arr
    end
  else Returned arr.

(** An array whose buffer has the rows and columns its shape tells. *)
Definition rectangular {B : Type} (a : ndarray (grid B)) : Prop :=
  length (data a) = fst (shape a) /\
  Forall (fun row => length row = snd (shape a)) (data a).

(** A [3 x 5] grid of the numbers [10 i + j]. *)
Definition numbered_grid : ndarray (grid Z) :=
  MkArray (3, 5)%nat
    [[0; 1; 2; 3; 4]; [10; 11; 12; 13; 14]; [20; 21; 22; 23; 24]]%Z.

(** ** The standard CONUS path (lines 1593-1740) *)

Section StandardPath.

Context {buf img : Type} `{Backend buf img}.

Variable open_dataset : string -> option (l1b_dataset buf).
Variable DOWNLOAD_RESULTS : list (string * string).
Variable satellite : string.
Variable DOMAIN_TYPE : string.
Variable scan_time_of : option string -> outcome datetime.
Variable simple_body : coordinate_data_t -> datetime -> outcome angle_grids.





End StandardPath.





(** ** Grouping products by category (lines 2028-2035 and 3285-3291) *)

(** [if category not in categories: categories[category] = []] followed
    by [categories[category].append(product_name)]. *)
Definition append_to_category (categories : list (string * list string))
    (category product_name : string) : list (string * list string) :=
  match dict_get category categories with
  | Some products => dict_set category (products ++ [product_name]) categories
  | None => dict_set category [product_name] categories
  end.

(** The ['categories'] entry of [UnifiedRGBDataStore.get_summary], from
    the keys of [rgb_products] in the order of their insertion. *)
Definition summary_categories (product_names : list string) : list (string * list string) :=
  fold_left
    (fun (categories : list (string * list string)) (product_name : string) =>
       match dict_get product_name RGB_CATALOG with
       | Some info => append_to_category categories (cat_category info) product_name
       | None => categories
       end)
    product_names [].

(** [by_category] of [generate_all_rgb_products], which subscripts the
    catalog without a membership test. *)
Definition by_category (available_products : list string)
    : outcome (list (string * list string)) :=
  fold_left
    (fun (acc : outcome (list (string * list string))) (product : string) =>
       categories <-- acc ;;
       info <-- subscript (dict_get product RGB_CATALOG) ;;
       Returned (append_to_category categories (cat_category info) product))
    available_products (Returned []).

(** The category the catalog files a name under. *)
Definition category_of (product_name : string) : option string :=
  option_map cat_category (dict_get product_name RGB_CATALOG).

(** What a category holds after the names [l] are filed on top of
    [before]. *)
Definition filed (before : option (list string)) (l : list string) : option (list string) :=
  match before, l with
  | None, [] => None
  | _, _ => Some (default [] before ++ l)
  end.


(** ** The temperature enhancement table (lines 212-246) *)

Section TemperatureTable.

Local Open Scope R_scope.

(** [np.linspace(start, stop, num)]: [num] evenly spaced samples, the
    last one set to [stop]. *)
Definition np_linspace (start stop : R) (num : nat) : list R :=
  map (fun k : nat =>
         if (1 <? num)%nat && (k =? num - 1)%nat then stop
         else INR k * ((stop - start) / INR (num - 1)) + start)
    (seq 0 num).

(** [np.interp] at one point [v] to the right of the first sample point
    [(x0, f0)]: linear between two neighbouring sample points, the last
    value from the last sample point on. *)
Fixpoint interp_from (v x0 f0 : R) (rest : list (R * R)) : R :=
  match rest with
  | [] => f0
  | (x1, f1) :: rest' =>
      if Rlt_dec v x1 then (f1 - f0) / (x1 - x0) * (v - x0) + f0
      else interp_from v x1 f1 rest'
  end.

(** [np.interp] at one point: the first value to the left of the first
    sample point. *)
Definition interp_point (x0 f0 : R) (rest : list (R * R)) (v : R) : R :=
  if Rle_dec v x0 then f0 else interp_from v x0 f0 rest.

(** [np.interp(x, xp, fp)] for increasing [xp].  No sample points, or
    values of another length, raise [ValueError]. *)
Definition np_interp (x xp fp : list R) : outcome (list R) :=
  if negb (length xp =? length fp)%nat then Raised ValueError
  else
    match combine xp fp with
    | [] => Raised ValueError
    | (x0, f0) :: rest => Returned (map (interp_point x0 f0 rest) x)
    end.

(** [[int(i * 255 / (n - 1)) for i in range(n)]]. *)
Definition ramp_values (n : nat) : outcome (list Z) :=
  if (n =? 1)%nat then Raised ZeroDivisionError
  else
    Returned
      (map (fun i : nat =>
              py_int (inject_Z (Z.of_nat i * 255) / inject_Z (Z.of_nat n - 1))%Q)
         (seq 0 n)).

Definition WATER_VAPOR_TEMPS : list Z :=
  [-93; -88; -83; -78; -73; -68; -63; -58; -54; -53;
   -48; -43; -38; -33; -30; -28; -23; -18; -13; -8;
   -5; -3; 2; 7]%Z.

Definition WINDOW_TEMPS : list Z :=
  [-110; -105; -100; -95; -90; -85; -80; -75; -70; -65;
   -60; -59; -55; -50; -45; -40; -35; -30; -25; -20;
   -15; -10; -5; 0; 5; 6; 10; 15; 20; 25; 30; 31;
   35; 40; 45; 50; 55; 57]%Z.

Definition WATER_VAPOR_CHANNELS : list string := ["C08"; "C09"; "C10"]%string.

Definition WINDOW_CHANNELS : list string :=
  ["C11"; "C12"; "C13"; "C14"; "C15"; "C16"]%string.

(** One entry of [self._temperature_luts]. *)
Record temperature_lut : Type := {
  lut_temp_celsius : list R;
  lut_enhanced : list Z
}.

(** The number of samples of the table. *)
Definition LUT_SAMPLES : nat := Z.to_nat 30000.

(** The float array [enhanced] before its conversion to bytes. *)
Definition enhancement_curve (channel_code : string) (temp_celsius : list R)
    : outcome (list R) :=
  if String.eqb channel_code "C07" then
    let t_min := -83.0 in
    let t_max := 127.0 in
    let normalized := map (fun t => (t - t_min) / (t_max - t_min)) temp_celsius in
    Returned (map (fun n => 255.0 - np_clip (n * 255.0) 0.0 255.0) normalized)
  else if bool_decide (channel_code ∈ WATER_VAPOR_CHANNELS) then
    let temps := map IZR WATER_VAPOR_TEMPS in
    values <-- ramp_values (length temps) ;;
    np_interp temp_celsius temps (map IZR values)
  else if bool_decide (channel_code ∈ WINDOW_CHANNELS) then
    let temps := map IZR WINDOW_TEMPS in
    values <-- ramp_values (length temps) ;;
    np_interp temp_celsius temps (map IZR values)
  else
    Returned (map (fun t => np_clip ((t + 100) / 200 * 255) 0 255) temp_celsius).

(** [self] is the dictionary [self._temperature_luts]; the result is the
    table and the dictionary after the call. *)
Definition _create_temperature_enhancement_lut (self : gmap string temperature_lut)
    (channel_code : string) : outcome (temperature_lut * gmap string temperature_lut) :=
  match self !! channel_code with
  | Some lut => Returned (lut, self)
  | None =>
      let temp_celsius := np_linspace (-150) 150 LUT_SAMPLES in
      enhanced <-- enhancement_curve channel_code temp_celsius ;;
      let lut :=
        {| lut_temp_celsius := temp_celsius;
           lut_enhanced := map (fun v => (py_trunc v mod 256)%Z) enhanced |} in
      Returned (lut, <[channel_code := lut]> self)
  end.

(** Sample points with increasing abscissas and values that do not
    decrease. *)
Fixpoint rising (x0 f0 : R) (rest : list (R * R)) : Prop :=
  match rest with
  | [] => True
  | (x1, f1) :: rest' => x0 < x1 /\ f0 <= f1 /\ rising x1 f1 rest'
  end.

(** The temperatures between which the table of a channel varies, and
    the bytes it holds at its cold and at its warm end. *)
Definition enhancement_range (channel_code : string) : R * R :=
  if String.eqb channel_code "C07" then (-83, 127)
  else if bool_decide (channel_code ∈ WATER_VAPOR_CHANNELS) then (-93, 7)
  else if bool_decide (channel_code ∈ WINDOW_CHANNELS) then (-110, 57)
  else (-100, 100).

Definition cold_byte (channel_code : string) : Z :=
  if String.eqb channel_code "C07" then 255%Z else 0%Z.

Definition warm_byte (channel_code : string) : Z :=
  if String.eqb channel_code "C07" then 0%Z else 255%Z.

Fixpoint risingb (x0 f0 : Z) (rest : list (Z * Z)) : bool :=
  match rest with
  | [] => true
  | (x1, f1) :: rest' => (x0 <? x1)%Z && (f0 <=? f1)%Z && risingb x1 f1 rest'
  end.

End TemperatureTable.

(** * Properties *)

(** ** Outcomes and dictionaries *)

Lemma obind_returned {A B : Type} (m : outcome A) (k : A -> outcome B) (b : B) :
  obind m k = Returned b -> exists a, m = Returned a /\ k a = Returned b.
Proof. destruct m as [a|e]; simpl; [eauto | discriminate]. Qed.

Lemma dict_get_elem_of {A : Type} (k : string) (d : list (string * A)) (v : A) :
  dict_get k d = Some v -> (k, v) ∈ d.
Proof.
  induction d as [|[k' v'] d IH]; simpl; [discriminate|].
  destruct (String.eqb_spec k k') as [->|Hne].
  - intros [= ->]. apply list_elem_of_here.
  - intros Hget. apply list_elem_of_further. auto.
Qed.

Lemma dict_get_None {A : Type} (k : string) (d : list (string * A)) :
  dict_get k d = None -> k ∉ dict_keys d.
Proof.
  induction d as [|[k' v'] d IH]; simpl.
  - intros _. apply not_elem_of_nil.
  - destruct (String.eqb_spec k k') as [->|Hne]; [discriminate|].
    intros Hget. rewrite not_elem_of_cons. split; [exact Hne | auto].
Qed.

(** ** Path selection *)

(** C8. The processing path is a function of the download summary, the
    data level and the domain type alone: Level 2 data or a download
    summary selects [level2_aware]; otherwise a full-disk domain selects
    [enhanced_full_disk]; otherwise the path is [standard_conus]. *)
Theorem path_selection (env : environment) :
  (DATA_LEVEL env = "level2"%string \/ is_Some (DOWNLOAD_SUMMARY env) ->
     determine_processing_path env = "level2_aware"%string) /\
  (DATA_LEVEL env <> "level2"%string -> DOWNLOAD_SUMMARY env = None ->
     DOMAIN_TYPE env = "full_disk"%string ->
     determine_processing_path env = "enhanced_full_disk"%string) /\
  (DATA_LEVEL env <> "level2"%string -> DOWNLOAD_SUMMARY env = None ->
     DOMAIN_TYPE env <> "full_disk"%string ->
     determine_processing_path env = "standard_conus"%string) /\
  (forall env' : environment,
     HAS_DOWNLOAD_SUMMARY env = HAS_DOWNLOAD_SUMMARY env' ->
     DATA_LEVEL env = DATA_LEVEL env' ->
     DOMAIN_TYPE env = DOMAIN_TYPE env' ->
     determine_processing_path env = determine_processing_path env').
Proof.
  unfold determine_processing_path, HAS_DOWNLOAD_SUMMARY.
  repeat split.
  - intros [Hlevel|[summary Hsummary]].
    + rewrite Hlevel. reflexivity.
    + rewrite Hsummary. rewrite orb_true_r. reflexivity.
  - intros Hlevel Hsummary Hdomain. rewrite Hsummary, Hdomain.
    destruct (String.eqb_spec (DATA_LEVEL env) "level2"); [contradiction | reflexivity].
  - intros Hlevel Hsummary Hdomain. rewrite Hsummary.
    destruct (String.eqb_spec (DATA_LEVEL env) "level2"); [contradiction|].
    destruct (String.eqb_spec (DOMAIN_TYPE env) "full_disk"); [contradiction | reflexivity].
  - intros env' Hsum Hlevel Hdomain. unfold HAS_DOWNLOAD_SUMMARY in Hsum.
    rewrite Hlevel, Hdomain.
    destruct (DOWNLOAD_SUMMARY env), (DOWNLOAD_SUMMARY env'); simpl in *;
      try discriminate; reflexivity.
Qed.

Lemma path_selection_witness :
  determine_processing_path full_disk_env = "enhanced_full_disk"%string.
Proof.
  apply (proj1 (proj2 (path_selection full_disk_env))).
  - discriminate.
  - reflexivity.
  - reflexivity.
Defined.

(** ** Reference shape *)

Section ReferenceShape.

Context {buf : Type}.

(** The loop keeps the first record of greatest pixel count, provided
    that count exceeds the initial [max_pixels]. *)
Lemma largest_step_first (l : list (raw_record buf)) (m : nat) (r : option shape_t) :
  let out := fold_left largest_step l (m, r) in
  (out = (m, r) /\ forall d, d ∈ l -> pixel_count (native_shape d) <= m) \/
  (exists l1 d l2,
     l = l1 ++ d :: l2 /\
     out = (pixel_count (native_shape d), Some (native_shape d)) /\
     m < pixel_count (native_shape d) /\
     (forall d', d' ∈ l1 -> pixel_count (native_shape d') < pixel_count (native_shape d)) /\
     (forall d', d' ∈ l2 -> pixel_count (native_shape d') <= pixel_count (native_shape d))).
Proof.
  revert m r. induction l as [|d l IH]; intros m r; cbn [fold_left].
  - left. split; [reflexivity|]. intros d Hd. apply elem_of_nil in Hd. contradiction.
  - change (largest_step (m, r) d) with
      (if m <? pixel_count (native_shape d)
       then (pixel_count (native_shape d), Some (native_shape d)) else (m, r)).
    destruct (Nat.ltb_spec m (pixel_count (native_shape d))) as [Hlt|Hge].
    + destruct (IH (pixel_count (native_shape d)) (Some (native_shape d)))
        as [[Hout Hall]|(l1 & d' & l2 & Hl & Hout & Hm & Hbefore & Hafter)].
      * right. exists [], d, l. split; [reflexivity|]. split; [exact Hout|].
        split; [exact Hlt|]. split; [|exact Hall].
        intros d' Hd'. apply elem_of_nil in Hd'. contradiction.
      * right. exists (d :: l1), d', l2. split; [rewrite Hl; reflexivity|].
        split; [exact Hout|]. split; [lia|]. split; [|exact Hafter].
        intros d'' Hd''. apply elem_of_cons in Hd'' as [->|Hd'']; [exact Hm | auto].
    + destruct (IH m r) as [[Hout Hall]|(l1 & d' & l2 & Hl & Hout & Hm & Hbefore & Hafter)].
      * left. split; [exact Hout|].
        intros d' Hd'. apply elem_of_cons in Hd' as [->|Hd']; [exact Hge | auto].
      * right. exists (d :: l1), d', l2. split; [rewrite Hl; reflexivity|].
        split; [exact Hout|]. split; [exact Hm|]. split; [|exact Hafter].
        intros d'' Hd''. apply elem_of_cons in Hd'' as [->|Hd'']; [lia | auto].
Qed.

(** C10, as the code has it.  The reference shape is C02's native shape
    whenever C02 is among the loaded channels.  Otherwise, when some
    loaded channel has a pixel, it is the native shape of the first
    loaded channel whose number of pixels, rows times columns, is the
    greatest among the loaded channels; and when no loaded channel has a
    pixel, there is no reference shape.  Every task of every path carries
    that reference shape. *)
Theorem reference_shape_choice (raw_data_store : list (string * raw_record buf)) :
  (forall c02 : raw_record buf,
     dict_get "C02" raw_data_store = Some c02 ->
     reference_shape_of raw_data_store = Some (native_shape c02)) /\
  (dict_get "C02" raw_data_store = None ->
   (exists d, d ∈ dict_values raw_data_store /\
              0 < fst (native_shape d) * snd (native_shape d)) ->
   exists before d after,
     dict_values raw_data_store = before ++ d :: after /\
     reference_shape_of raw_data_store = Some (native_shape d) /\
     (forall d', d' ∈ before ->
        fst (native_shape d') * snd (native_shape d') <
        fst (native_shape d) * snd (native_shape d)) /\
     (forall d', d' ∈ after ->
        fst (native_shape d') * snd (native_shape d') <=
        fst (native_shape d) * snd (native_shape d))) /\
  (dict_get "C02" raw_data_store = None ->
   (forall d, d ∈ dict_values raw_data_store ->
              fst (native_shape d) * snd (native_shape d) = 0) ->
   reference_shape_of raw_data_store = None) /\
  (forall (domain_type : string) (t : task buf),
     t ∈ level2_tasks domain_type raw_data_store \/
     t ∈ standard_tasks domain_type raw_data_store \/
     t ∈ full_disk_tasks domain_type raw_data_store ->
     task_reference_shape t = reference_shape_of raw_data_store).
Proof.
  split; [|split; [|split]].
  - intros c02 Hc02. unfold reference_shape_of. rewrite Hc02. reflexivity.
  - intros Hnone (d0 & Hd0 & Hpos). unfold reference_shape_of. rewrite Hnone.
    destruct (largest_step_first (dict_values raw_data_store) 0 None)
      as [[_ Hall]|(l1 & d & l2 & Hl & Hout & _ & Hbefore & Hafter)].
    + specialize (Hall d0 Hd0). unfold pixel_count in Hall. lia.
    + exists l1, d, l2. split; [exact Hl|]. split; [rewrite Hout; reflexivity|].
      split; [exact Hbefore | exact Hafter].
  - intros Hnone Hzero. unfold reference_shape_of. rewrite Hnone.
    destruct (largest_step_first (dict_values raw_data_store) 0 None)
      as [[Hout _]|(l1 & d & l2 & Hl & _ & Hpos & _)].
    + rewrite Hout. reflexivity.
    + exfalso. assert (Hd : d ∈ dict_values raw_data_store).
      { rewrite Hl. apply elem_of_app. right. apply list_elem_of_here. }
      specialize (Hzero d Hd). unfold pixel_count in Hpos. lia.
  - intros domain_type t Ht.
    unfold level2_tasks, standard_tasks, full_disk_tasks in Ht.
    destruct Ht as [Ht|[Ht|Ht]];
      apply list_elem_of_fmap in Ht as (kv & -> & _); reflexivity.
Qed.

End ReferenceShape.

Lemma reference_shape_choice_witness :
  exists before d after,
    dict_values three_ir_store = before ++ d :: after /\
    reference_shape_of three_ir_store = Some (2, 2)%nat /\
    native_shape d = (2, 2)%nat /\
    before = [ir_record RawRadiance (1, 1)%nat].
Proof.
  destruct (proj1 (proj2 (reference_shape_choice three_ir_store)) eq_refl)
    as (before & d & after & Hsplit & Href & Hbefore & Hafter).
  { exists (ir_record RawRadiance (1, 1)%nat). split; [apply list_elem_of_here|].
    cbn. lia. }
  exists before, d, after. split; [exact Hsplit|].
  clear Hafter. assert (Hshape : native_shape d = (2, 2)%nat).
  { change (reference_shape_of three_ir_store) with (Some (2, 2)%nat) in Href.
    injection Href as Href. symmetry. exact Href. }
  split; [rewrite Href, Hshape; reflexivity|]. split; [exact Hshape|].
  unfold three_ir_store, dict_values in Hsplit. cbn [map snd] in Hsplit.
  destruct before as [|b0 [|b1 before]]; cbn [app] in Hsplit.
  - exfalso. injection Hsplit as <- _.
    change ((1, 1)%nat = (2, 2)%nat) in Hshape. congruence.
  - injection Hsplit as <- _. reflexivity.
  - exfalso. injection Hsplit as <- <- Hrest.
    specialize (Hbefore (ir_record RawRadiance (2, 2)%nat)).
    rewrite Hshape in Hbefore. cbn in Hbefore.
    assert (4 < 4) by (apply Hbefore; apply list_elem_of_further, list_elem_of_here). lia.
Defined.

(** C10 as stated fails when no loaded channel has a pixel: with C02
    absent and one channel of shape 0 x 5 loaded, that channel's native
    shape has the greatest pixel count among the loaded channels, and
    the reference shape is [None]. *)
Lemma reference_shape_zero_pixels :
  dict_get "C02" empty_scene_store = None /\
  ir_record RawRadiance (0, 5)%nat ∈ dict_values empty_scene_store /\
  (forall d', d' ∈ dict_values empty_scene_store ->
     fst (native_shape d') * snd (native_shape d') <= 0 * 5) /\
  reference_shape_of empty_scene_store = None /\
  reference_shape_of empty_scene_store <> Some (0, 5)%nat.
Proof.
  split; [reflexivity|]. split; [apply list_elem_of_here|]. split.
  - intros d' Hd'. apply elem_of_cons in Hd' as [->|Hd']; [cbn; lia|].
    apply elem_of_nil in Hd'. contradiction.
  - split; [reflexivity | discriminate].
Qed.

(** ** Resampling *)

Lemma py_int_integral (q : Q) (k : Z) : (q == inject_Z k)%Q -> py_int q = k.
Proof.
  destruct q as [a b]. unfold Qeq, py_int. simpl. intros Heq.
  rewrite Z.mul_1_r in Heq. rewrite Heq. apply Z.quot_mul. discriminate.
Qed.

Lemma py_round_integral (q : Q) (k : Z) : (q == inject_Z k)%Q -> py_round q = k.
Proof.
  intros Heq. unfold py_round.
  assert (Hfloor : Qfloor q = k) by (rewrite Heq; apply Qfloor_Z).
  rewrite Hfloor.
  assert (Hzero : (q - inject_Z k == 0)%Q) by (rewrite Heq; ring).
  destruct (Qeq_bool (q - inject_Z k) (1 # 2)) eqn:Hhalf.
  - apply Qeq_bool_iff in Hhalf. rewrite Hzero in Hhalf. discriminate.
  - assert (Htwice : Qfloor (2 * (q - inject_Z k)) = 0%Z).
    { assert (H0 : (2 * (q - inject_Z k) == inject_Z 0)%Q) by (rewrite Hzero; reflexivity).
      rewrite H0. apply Qfloor_Z. }
    rewrite Htwice. reflexivity.
Qed.

Lemma np_zeros_shape_returned (s : Z * Z) (out : shape_t) :
  np_zeros_shape s = Returned out ->
  Z.of_nat (fst out) = fst s /\ Z.of_nat (snd out) = snd s.
Proof.
  unfold np_zeros_shape.
  destruct (0 <=? fst s)%Z eqn:H0; simpl; [|discriminate].
  destruct (0 <=? snd s)%Z eqn:H1; simpl; [|discriminate].
  intros [= <-]. simpl. apply Z.leb_le in H0, H1. lia.
Qed.

Lemma np_zeros_shape_total (s : Z * Z) :
  (0 <= fst s)%Z -> (0 <= snd s)%Z -> exists out, np_zeros_shape s = Returned out.
Proof.
  intros H0 H1. unfold np_zeros_shape.
  apply Z.leb_le in H0, H1. rewrite H0, H1. simpl. eauto.
Qed.

Lemma zoom_is_spec (zoom_factor : Q * Q) (a b : Q) :
  zoom_is zoom_factor a b = true -> (fst zoom_factor == a)%Q /\ (snd zoom_factor == b)%Q.
Proof.
  unfold zoom_is. intros Hz. apply andb_prop in Hz as [Ha Hb].
  split; apply Qeq_bool_iff; assumption.
Qed.

(** Rounding leaves an integer as it is. *)
Lemma round_double_integral (q : Q) (k : Z) :
  (q == inject_Z k)%Q -> round_double q = inject_Z k.
Proof.
  intros Hq. unfold round_double.
  assert (Hfloor : Qfloor q = k) by (rewrite Hq; apply Qfloor_Z).
  rewrite Hfloor.
  destruct (Qeq_bool q (inject_Z k)) eqn:Hbool; [reflexivity|].
  apply Qeq_bool_iff in Hq. congruence.
Qed.

Lemma dim_times_integral (n : nat) (z : Q) (m : Z) :
  (z == inject_Z m)%Q -> (dim_times n z == inject_Z (Z.of_nat n * m))%Q.
Proof.
  intros Hz. unfold dim_times. rewrite (round_double_integral _ (Z.of_nat n * m)).
  - reflexivity.
  - rewrite Hz, inject_Z_mult. reflexivity.
Qed.

Section Resampling.

Context {buf img : Type} `{Backend buf img}.

(** The shape of a resampled array.  A zoom factor of exactly (1.0, 1.0)
    returns the input unchanged.  For any other zoom factor a returned
    array has, in each dimension, the size
    [int(native_dimension x zoom_factor)]: the double product truncated
    toward zero; the call does return whenever both truncated sizes are
    at least 1.  Truncation and rounding agree when the product is an
    integer, so the x2 and x4 rules always return an array of shape
    [round(native_dimension x zoom_factor)]. *)
Theorem fast_upscale_shape (arr : ndarray buf) (zoom_factor : Q * Q) :
  let rows := py_int (dim_times (fst (shape arr)) (fst zoom_factor)) in
  let cols := py_int (dim_times (snd (shape arr)) (snd zoom_factor)) in
  (zoom_is zoom_factor 1 1 = true -> fast_upscale_array arr zoom_factor = Returned arr) /\
  (zoom_is zoom_factor 1 1 = false ->
     (forall out : ndarray buf,
        fast_upscale_array arr zoom_factor = Returned out ->
        Z.of_nat (fst (shape out)) = rows /\ Z.of_nat (snd (shape out)) = cols) /\
     ((1 <= rows)%Z -> (1 <= cols)%Z ->
      exists out : ndarray buf, fast_upscale_array arr zoom_factor = Returned out)) /\
  (zoom_is zoom_factor 2 2 = true \/ zoom_is zoom_factor 4 4 = true ->
     exists out : ndarray buf,
       fast_upscale_array arr zoom_factor = Returned out /\
       Z.of_nat (fst (shape out)) = py_round (dim_times (fst (shape arr)) (fst zoom_factor)) /\
       Z.of_nat (snd (shape out)) = py_round (dim_times (snd (shape arr)) (snd zoom_factor))) /\
  (forall (n : nat) (z : Q) (k : Z),
     (dim_times n z == inject_Z k)%Q ->
     py_int (dim_times n z) = k /\ py_round (dim_times n z) = k).
Proof.
  intros rows cols.
  assert (Hshape : zoom_is zoom_factor 1 1 = false ->
    forall out : ndarray buf,
      fast_upscale_array arr zoom_factor = Returned out ->
      Z.of_nat (fst (shape out)) = rows /\ Z.of_nat (snd (shape out)) = cols).
  { intros Hone out. unfold fast_upscale_array. rewrite Hone.
    change NUMBA_AVAILABLE with true. cbv iota. fold rows cols.
    destruct (zoom_is zoom_factor 2 2); [|destruct (zoom_is zoom_factor 4 4)].
    - intros Hout. apply obind_returned in Hout as (s & Hs & [= <-]).
      apply np_zeros_shape_returned in Hs. exact Hs.
    - intros Hout. apply obind_returned in Hout as (s & Hs & [= <-]).
      apply np_zeros_shape_returned in Hs. exact Hs.
    - intros Hout.
      apply obind_returned in Hout as (y_ratio & _ & Hout).
      apply obind_returned in Hout as (x_ratio & _ & Hout).
      apply obind_returned in Hout as (s & Hs & [= <-]).
      apply np_zeros_shape_returned in Hs. exact Hs. }
  assert (Htotal : zoom_is zoom_factor 1 1 = false ->
    (0 <= rows)%Z -> (0 <= cols)%Z ->
    (zoom_is zoom_factor 2 2 = false -> zoom_is zoom_factor 4 4 = false ->
     rows <> 0%Z /\ cols <> 0%Z) ->
    exists out : ndarray buf, fast_upscale_array arr zoom_factor = Returned out).
  { intros Hone Hrows Hcols Hnz. unfold fast_upscale_array. rewrite Hone.
    change NUMBA_AVAILABLE with true. cbv iota. fold rows cols.
    destruct (np_zeros_shape_total (rows, cols) Hrows Hcols) as (s & Hs).
    destruct (zoom_is zoom_factor 2 2); [|destruct (zoom_is zoom_factor 4 4)].
    - rewrite Hs. simpl. eauto.
    - rewrite Hs. simpl. eauto.
    - destruct Hnz as [Hr Hc]; [reflexivity | reflexivity |].
      unfold py_truediv. simpl.
      apply Z.eqb_neq in Hr, Hc. rewrite Hr, Hc. simpl.
      rewrite Hs. simpl. eauto. }
  split; [|split; [|split]].
  - intros Hone. unfold fast_upscale_array. rewrite Hone. reflexivity.
  - intros Hone. split; [exact (Hshape Hone)|].
    intros Hrows Hcols. apply Htotal; [exact Hone | lia | lia |].
    intros _ _. lia.
  - intros Hrule.
    assert (Hint : exists m : Z, (0 <= m)%Z /\ (m <> 1)%Z /\
      (fst zoom_factor == inject_Z m)%Q /\ (snd zoom_factor == inject_Z m)%Q /\
      (zoom_is zoom_factor 2 2 = true \/ zoom_is zoom_factor 4 4 = true)).
    { destruct Hrule as [Hz|Hz]; pose proof (zoom_is_spec _ _ _ Hz) as [Ha Hb].
      - exists 2%Z. repeat split; try lia; auto.
      - exists 4%Z. repeat split; try lia; auto. }
    destruct Hint as (m & Hm & Hm1 & Ha & Hb & Hrule').
    pose proof (dim_times_integral (fst (shape arr)) _ _ Ha) as Hr.
    pose proof (dim_times_integral (snd (shape arr)) _ _ Hb) as Hc.
    assert (Hone : zoom_is zoom_factor 1 1 = false).
    { destruct (zoom_is zoom_factor 1 1) eqn:Hz; [|reflexivity].
      apply zoom_is_spec in Hz as [Hz _]. rewrite Ha in Hz.
      unfold Qeq in Hz. simpl in Hz. lia. }
    assert (Hrows : rows = (Z.of_nat (fst (shape arr)) * m)%Z)
      by (apply py_int_integral; exact Hr).
    assert (Hcols : cols = (Z.of_nat (snd (shape arr)) * m)%Z)
      by (apply py_int_integral; exact Hc).
    destruct (Htotal Hone) as (out & Hout); [lia | lia | |].
    { intros H2 H4. destruct Hrule' as [Hz|Hz]; congruence. }
    exists out. split; [exact Hout|].
    destruct (Hshape Hone out Hout) as [Hfst Hsnd].
    rewrite (py_round_integral _ _ Hr), (py_round_integral _ _ Hc). lia.
  - intros n z k Hk. split; [apply py_int_integral | apply py_round_integral]; exact Hk.
Qed.

End Resampling.

Lemma fast_upscale_shape_witness :
  exists out : ndarray stage,
    @fast_upscale_array stage stage symbolic_backend (MkArray (2, 2)%nat RawRadiance)
      (1.5, 1.5)%Q = Returned out.
Proof.
  apply (proj2 (proj1 (proj2
    (@fast_upscale_shape stage stage symbolic_backend (MkArray (2, 2)%nat RawRadiance)
       (1.5, 1.5)%Q)) eq_refl)).
  - vm_compute. discriminate.
  - vm_compute. discriminate.
Defined.

(** C2. The code at the failing input: a 1 x 1 array zoomed by 1.75
    comes back with the shape 1 x 1 = int(1 x 1.75), where the claim says
    round(1 x 1.75) = 2 in each dimension.  The same truncation makes a
    worker miss the target shape it asked for: a 7 x 7 array resampled
    towards 61 x 61 is zoomed by the double 61/7, whose product with 7
    is the double just below 61, and comes back 60 x 60. *)
Lemma fast_upscale_not_rounded :
  @fast_upscale_array stage stage symbolic_backend (MkArray (1, 1)%nat RawRadiance)
    (1.75, 1.75)%Q = Returned (MkArray (1, 1)%nat (Resampled RawRadiance)) /\
  py_round (dim_times 1 1.75) = 2%Z /\
  @upscale_if_needed stage stage symbolic_backend (7, 7)%nat (Some (61, 61)%nat)
    (MkArray (7, 7)%nat RawRadiance) =
    Returned (MkArray (60, 60)%nat (Resampled RawRadiance)) /\
  py_round (dim_times 7 (round_double (61 # 7))) = 61%Z.
Proof. split; [|split; [|split]]; vm_compute; reflexivity. Qed.

(** ** Grids *)

Lemma lookup_map {A B : Type} (f : A -> B) (l : list A) (i : nat) :
  map f l !! i = option_map f (l !! i).
Proof.
  revert i. induction l as [|a l IH]; intros [|i]; simpl; auto.
Qed.

Lemma cell_grid_map {A B : Type} (f : A -> B) (g : grid A) (i j : nat) :
  cell (grid_map f g) i j = option_map f (cell g i j).
Proof.
  unfold cell, grid_map. rewrite lookup_map.
  destruct (g !! i) as [row|]; simpl; [apply lookup_map | reflexivity].
Qed.

Lemma cell_grid_zip_with {A B C : Type} (f : A -> B -> C) (g : grid A) (h : grid B)
    (i j : nat) :
  cell (grid_zip_with f g h) i j =
  match cell g i j, cell h i j with
  | Some a, Some b => Some (f a b)
  | _, _ => None
  end.
Proof.
  unfold cell, grid_zip_with. rewrite lookup_zip_with.
  destruct (g !! i) as [r1|]; simpl; [|reflexivity].
  destruct (h !! i) as [r2|]; simpl.
  - rewrite lookup_zip_with.
    destruct (r1 !! j); simpl; [|reflexivity].
    destruct (r2 !! j); reflexivity.
  - destruct (r1 !! j); reflexivity.
Qed.

Lemma cell_elem_of {A : Type} (g : grid A) (i j : nat) (a : A) :
  cell g i j = Some a -> exists row, row ∈ g /\ a ∈ row.
Proof.
  unfold cell. destruct (g !! i) as [row|] eqn:Hrow; [|discriminate].
  intros Hj. exists row. split; eapply list_elem_of_lookup_2; eassumption.
Qed.

Lemma np_any_false (mask : grid bool) (i j : nat) (b : bool) :
  np_any mask = false -> cell mask i j = Some b -> b = false.
Proof.
  intros Hany Hcell. destruct b; [|reflexivity].
  apply cell_elem_of in Hcell as (row & Hrow & Hb).
  assert (Htrue : np_any mask = true); [|congruence].
  unfold np_any. apply existsb_exists. exists row. split.
  - apply list_elem_of_In. exact Hrow.
  - apply existsb_exists. exists true. split; [apply list_elem_of_In; exact Hb | reflexivity].
Qed.

(** ** Infrared calibration *)

(** What calibration leaves at a pixel: the inverse Planck value at a
    strictly positive radiance, NaN elsewhere. *)
Lemma numba_bt_cell (radiance : ndarray (grid pixel)) (fk1 fk2 bc1 bc2 : R) (i j : nat)
    (p : pixel) :
  cell (data radiance) i j = Some p ->
  cell (numba_bt radiance fk1 fk2 bc1 bc2) i j =
  Some (match p with
        | Some r => if Rlt_dec 0 r then Some (planck_bt fk1 fk2 bc1 bc2 r) else None
        | None => None
        end).
Proof.
  intros Hp. unfold numba_bt. rewrite cell_grid_map, Hp. reflexivity.
Qed.

Lemma np_bt_numba_bt (radiance : ndarray (grid pixel)) (fk1 fk2 bc1 bc2 : R) (i j : nat) :
  cell (np_bt radiance fk1 fk2 bc1 bc2) i j = cell (numba_bt radiance fk1 fk2 bc1 bc2) i j.
Proof.
  unfold np_bt, numba_bt.
  destruct (np_any (grid_map positive_px (data radiance))) eqn:Hany.
  - rewrite cell_grid_zip_with, !cell_grid_map.
    destruct (cell (data radiance) i j) as [[r|]|]; simpl; try reflexivity.
    destruct (Rlt_dec 0 r); reflexivity.
  - rewrite !cell_grid_map.
    destruct (cell (data radiance) i j) as [p|] eqn:Hp; simpl; [|reflexivity].
    assert (Hpos : positive_px p = false).
    { apply (np_any_false _ i j _ Hany). rewrite cell_grid_map, Hp. reflexivity. }
    destruct p as [r|]; [|reflexivity].
    simpl in Hpos. destruct (Rlt_dec 0 r); [discriminate | reflexivity].
Qed.

Lemma dataset_constants_raised (d : mock_dataset) :
  (exists e, dataset_constants d = Raised e) <->
  planck_fk1 d = None \/ planck_fk2 d = None \/ planck_bc1 d = None \/ planck_bc2 d = None.
Proof.
  unfold dataset_constants.
  destruct (planck_fk1 d), (planck_fk2 d), (planck_bc1 d), (planck_bc2 d); simpl;
    split; intros Hx;
    try (destruct Hx as [e He]; discriminate);
    try (destruct Hx as [Hx|[Hx|[Hx|Hx]]]; discriminate);
    eauto 6.
Qed.

Section Calibration.

Context {img : Type}.
Variables upscale_2x upscale_4x : ndarray (grid pixel) -> shape_t -> grid pixel.
Variable bilinear : ndarray (grid pixel) -> shape_t -> Q -> Q -> grid pixel.
Variable zoom : ndarray (grid pixel) -> Q * Q -> outcome (ndarray (grid pixel)).
Variable enhance_ir : ndarray (grid pixel) -> string -> outcome (ndarray img).
Variable enhance_visible : ndarray (grid pixel) -> outcome (ndarray img).

Local Open Scope R_scope.

(** C3. Infrared calibration keeps the shape and returns, elementwise,
    (fk2 / ln(fk1/radiance + 1) - bc1) / bc2 at every pixel of strictly
    positive radiance and NaN at every other pixel, the kernel taking
    the four constants cast to float32; the module's numpy branch
    computes the same pixels from the same constants.  The constants are
    the channel record's when all four are present, else the table's row
    for the channel code, else the row of C13. *)
Theorem ir_calibration (radiance : ndarray (grid pixel)) (channel_code : string)
    (ds : option mock_dataset) :
  let backend :=
    numeric_backend upscale_2x upscale_4x bilinear zoom enhance_ir enhance_visible in
  let bt := @radiance_to_brightness_temp _ _ backend radiance channel_code ds in
  let '(fk1, fk2, bc1, bc2) := select_constants channel_code ds in
  shape bt = shape radiance /\
  (forall (i j : nat) (r : R),
     cell (data radiance) i j = Some (Some r) -> 0 < r ->
     cell (data bt) i j =
       Some (Some ((float32 fk2 / ln (float32 fk1 / r + 1) - float32 bc1) / float32 bc2))) /\
  (forall (i j : nat) (p : pixel),
     cell (data radiance) i j = Some p ->
     p = None \/ (exists r, p = Some r /\ r <= 0) ->
     cell (data bt) i j = Some None) /\
  (forall i j : nat,
     cell (@np_radiance_to_brightness_temp _ _ backend radiance
             (float32 fk1) (float32 fk2) (float32 bc1) (float32 bc2)) i j =
     cell (data bt) i j) /\
  (forall a b c d : R,
     ds = Some {| planck_fk1 := Some a; planck_fk2 := Some b;
                  planck_bc1 := Some c; planck_bc2 := Some d |} ->
     (fk1, fk2, bc1, bc2) = (a, b, c, d)) /\
  (ds = None \/
   (exists d, ds = Some d /\
      (planck_fk1 d = None \/ planck_fk2 d = None \/
       planck_bc1 d = None \/ planck_bc2 d = None)) ->
   (forall row, dict_get channel_code CHANNEL_CONSTANTS = Some row ->
      (fk1, fk2, bc1, bc2) = row_planck row) /\
   (dict_get channel_code CHANNEL_CONSTANTS = None ->
      (fk1, fk2, bc1, bc2) = row_planck C13_CONSTANTS)) /\
  dict_get "C13" CHANNEL_CONSTANTS = Some C13_CONSTANTS.
Proof.
  intros backend bt. subst bt backend. unfold radiance_to_brightness_temp.
  destruct (select_constants channel_code ds) as [[[fk1 fk2] bc1] bc2] eqn:Hsel.
  change NUMBA_AVAILABLE with true. cbv iota.
  cbn [shape data numeric_backend numba_radiance_to_brightness_temp
       np_radiance_to_brightness_temp].
  split; [reflexivity|]. split; [|split; [|split; [|split; [|split]]]].
  - intros i j r Hcell Hr. rewrite (numba_bt_cell _ _ _ _ _ _ _ _ Hcell).
    destruct (Rlt_dec 0 r); [reflexivity | contradiction].
  - intros i j p Hcell Hp. rewrite (numba_bt_cell _ _ _ _ _ _ _ _ Hcell).
    destruct Hp as [->|(r & -> & Hr)]; [reflexivity|].
    destruct (Rlt_dec 0 r); [lra | reflexivity].
  - intros i j. apply np_bt_numba_bt.
  - intros a b c d ->. simpl in Hsel. symmetry. exact Hsel.
  - intros Hds.
    assert (Htable : (fk1, fk2, bc1, bc2) =
      row_planck (default C13_CONSTANTS (dict_get channel_code CHANNEL_CONSTANTS))).
    { rewrite <- Hsel. unfold select_constants.
      destruct Hds as [->|(d & -> & Hnone)].
      - destruct (dict_get channel_code CHANNEL_CONSTANTS); reflexivity.
      - apply dataset_constants_raised in Hnone as [e He]. rewrite He. reflexivity. }
    split.
    + intros row Hrow. rewrite Htable, Hrow. reflexivity.
    + intros Hrow. rewrite Htable, Hrow. reflexivity.
  - reflexivity.
Qed.

End Calibration.

Lemma ir_calibration_witness :
  cell (data (@radiance_to_brightness_temp _ _ plain_backend
                (MkArray (1, 1)%nat [[Some 1%R]]) "C13" None)) 0 0 =
  Some (Some ((float32 8.68467e+02 / ln (float32 7.47300e+02 / 1 + 1) - float32 0.53083) /
              float32 0.99111)%R).
Proof.
  pose proof (ir_calibration
    (fun _ s => np_full s None) (fun _ s => np_full s None)
    (fun _ s _ _ => np_full s None) (fun a _ => Returned a)
    (fun a _ => Returned (MkArray (shape a) tt))
    (fun a => Returned (MkArray (shape a) tt))
    (MkArray (1, 1)%nat [[Some 1%R]]) "C13" None) as Hcal.
  cbv zeta in Hcal.
  change (select_constants "C13" None)
    with ((7.47300e+02, 8.68467e+02, 0.53083, 0.99111)%R) in Hcal.
  destruct Hcal as (_ & Hpositive & _).
  apply Hpositive; [reflexivity | lra].
Defined.

(** ** The coordinate validity mask *)

Section CoordinateMask.

Local Open Scope R_scope.

Lemma cell_const_rows {A B : Type} (row : list B) (l : list A) (i j : nat) :
  (i < length l)%nat -> cell (map (fun _ => row) l) i j = row !! j.
Proof.
  intros Hi. unfold cell. rewrite lookup_map.
  destruct (lookup_lt_is_Some_2 l i Hi) as [a Ha]. rewrite Ha. reflexivity.
Qed.

Lemma cell_const_cols {A B : Type} (xs : list A) (ys : list B) (i j : nat) (x : A) (y : B) :
  xs !! j = Some x -> ys !! i = Some y ->
  cell (map (fun y => map (fun _ => y) xs) ys) i j = Some y.
Proof.
  intros Hx Hy. unfold cell. rewrite lookup_map, Hy. simpl.
  rewrite lookup_map, Hx. reflexivity.
Qed.


Lemma le_float_arcsin (r2 c : R) :
  -1 <= c <= 1 ->
  le_float r2 (option_map (fun a => a ^ 2) (np_arcsin c)) = true <-> r2 <= asin c ^ 2.
Proof.
  intros [Hlo Hhi]. unfold np_arcsin.
  destruct (Rle_dec (-1) c); [|contradiction].
  destruct (Rle_dec c 1); [|contradiction].
  simpl. destruct (Rle_dec r2 (asin c * (asin c * 1))) as [Hle|Hgt].
  - split; [intros _; exact Hle | reflexivity].
  - split; [discriminate | intros Hle; contradiction].
Qed.


Lemma default_height_nonzero : DEFAULT_SAT_HEIGHT <> 0.
Proof. unfold DEFAULT_SAT_HEIGHT. lra. Qed.

Lemma default_ratio_bounds : 0.17 < earth_radius / DEFAULT_SAT_HEIGHT < 0.18.
Proof. unfold earth_radius, DEFAULT_SAT_HEIGHT. lra. Qed.

End CoordinateMask.


(** ** The solar-angle fallbacks *)

Section SolarFallback.

Local Open Scope R_scope.

Lemma np_clip_bounds (v lo hi : R) : lo <= hi -> lo <= np_clip v lo hi <= hi.
Proof.
  intros Hle. unfold np_clip, Rmin, Rmax.
  destruct (Rle_dec v lo); destruct (Rle_dec _ hi); lra.
Qed.

Lemma length_np_linspace01 (n : nat) : length (np_linspace01 n) = n.
Proof. unfold np_linspace01. rewrite List.length_map. apply List.length_seq. Qed.




Lemma nonempty_size {A B : Type} (xs : list A) (ys : list B) :
  xs <> [] -> ys <> [] -> (length ys * length xs =? 0)%nat = false.
Proof.
  intros Hx Hy. apply Nat.eqb_neq.
  destruct xs; [congruence|]. destruct ys; [congruence|]. simpl. lia.
Qed.

Lemma enhanced_fallback_cells (cd : coordinate_data_t) (scan_time : option datetime) :
  x_coords cd <> [] -> y_coords cd <> [] ->
  exists sza cos,
    enhanced_fallback cd scan_time = Returned (sza, cos) /\
    shape sza = (length (y_coords cd), length (x_coords cd)) /\
    forall (i j : nat) (x y : R),
      x_coords cd !! j = Some x -> y_coords cd !! i = Some y ->
      exists v, 10 <= v <= 120 /\
        cell (data sza) i j =
          Some (if le_float (x ^ 2 + y ^ 2)
                     (option_map (fun a => a ^ 2)
                        (np_arcsin (earth_radius / DEFAULT_SAT_HEIGHT)))
                then Some v else None).
Proof.
  intros Hxs Hys. unfold enhanced_fallback, create_valid_coordinate_mask.
  destruct (Req_dec_T DEFAULT_SAT_HEIGHT 0) as [Heq|_];
    [exfalso; exact (default_height_nonzero Heq)|].
  cbn [obind fst snd]. destruct scan_time as [t|].
  - unfold reduce_check. cbn [fst snd]. rewrite (nonempty_size _ _ Hxs Hys).
    cbn [obind]. eexists _, _. split; [reflexivity|]. split; [reflexivity|].
    intros i j x y Hx Hy. cbn [data]. unfold where_valid.
    pose proof (lookup_lt_Some _ _ _ Hx) as Hj.
    pose proof (lookup_lt_Some _ _ _ Hy) as Hi.
    rewrite cell_grid_zip_with, !cell_grid_map, cell_grid_zip_with.
    rewrite (cell_const_rows (x_coords cd) (y_coords cd) i j Hi), Hx.
    rewrite (cell_const_cols (x_coords cd) (y_coords cd) i j x y Hx Hy).
    rewrite cell_const_rows by (rewrite length_np_linspace01; exact Hi).
    destruct (lookup_lt_is_Some_2 (np_linspace01 (length (x_coords cd))) j) as [xi Hxi];
      [rewrite length_np_linspace01; exact Hj|].
    rewrite Hxi. cbn [option_map].
    eexists. split; [|reflexivity]. apply np_clip_bounds. lra.
  - eexists _, _. split; [reflexivity|]. split; [reflexivity|].
    intros i j x y Hx Hy. cbn [data].
    pose proof (lookup_lt_Some _ _ _ Hy) as Hi.
    rewrite !cell_grid_map, cell_grid_zip_with.
    rewrite (cell_const_rows (x_coords cd) (y_coords cd) i j Hi), Hx.
    rewrite (cell_const_cols (x_coords cd) (y_coords cd) i j x y Hx Hy).
    cbn [option_map]. exists 60. split; [lra | reflexivity].
Qed.


Lemma on_disk_le_float (x y : R) :
  le_float (x ^ 2 + y ^ 2)
    (option_map (fun a => a ^ 2) (np_arcsin (earth_radius / DEFAULT_SAT_HEIGHT))) = true
  <-> on_disk x y.
Proof.
  apply le_float_arcsin. pose proof default_ratio_bounds. lra.
Qed.

Variable scan_time_of : option string -> outcome datetime.
Variables enhanced_body simple_body : coordinate_data_t -> datetime -> outcome angle_grids.

Lemma enhanced_falls_back (cd : coordinate_data_t) (scan_time_str : option string)
    (scan_time : option datetime) :
  failed_attempt scan_time_of enhanced_body cd scan_time_str scan_time ->
  compute_solar_angles_enhanced scan_time_of enhanced_body (Some cd) scan_time_str =
  returned (enhanced_fallback cd scan_time).
Proof.
  unfold failed_attempt, raised, compute_solar_angles_enhanced, returned.
  destruct scan_time as [t|].
  - intros [-> [e ->]]. reflexivity.
  - intros [e ->]. reflexivity.
Qed.



End SolarFallback.

Lemma sin_one_fifth : (0.19 < sin 0.2)%R.
Proof.
  assert (Hlb : (sin_lb 0.2 <= sin 0.2)%R).
  { apply SIN; [lra|]. pose proof PI2_1. lra. }
  eapply Rlt_le_trans; [|exact Hlb].
  unfold sin_lb, sin_approx, sin_term. simpl sum_f_R0.
  change (INR (fact (2 * 0 + 1))) with (INR 1).
  replace (INR (fact (2 * 1 + 1))) with 6%R by (rewrite INR_IZR_INZ; reflexivity).
  replace (INR (fact (2 * 2 + 1))) with 120%R by (rewrite INR_IZR_INZ; reflexivity).
  replace (INR (fact (2 * 3 + 1))) with 5040%R by (rewrite INR_IZR_INZ; reflexivity).
  simpl. lra.
Qed.

(** The angular radius of the disk is below 0.2 rad. *)
Lemma disk_radius_bound : (0 <= asin (earth_radius / DEFAULT_SAT_HEIGHT) < 0.2)%R.
Proof.
  pose proof default_ratio_bounds as [Hlo Hhi].
  set (c := (earth_radius / DEFAULT_SAT_HEIGHT)%R) in *.
  pose proof (asin_bound c) as [Ha Hb].
  pose proof (sin_asin c ltac:(lra)) as Hsin.
  pose proof PI2_1.
  split.
  - destruct (Rle_lt_dec 0 (asin c)) as [H0|H0]; [exact H0|].
    assert (sin (asin c) <= sin 0)%R by (apply sin_incr_1; lra).
    rewrite sin_0 in *. lra.
  - destruct (Rlt_le_dec (asin c) 0.2) as [H0|H0]; [exact H0|].
    assert (sin 0.2 <= sin (asin c))%R by (apply sin_incr_1; lra).
    pose proof sin_one_fifth. lra.
Qed.

Lemma corner_off_disk : ~ on_disk 0.15 0.15.
Proof.
  unfold on_disk. pose proof disk_radius_bound as [Hlo Hhi]. nra.
Qed.



(** C4 as stated fails: on a scene whose pixel lies outside the Earth
    disk the fallback grid holds NaN, not an angle within [0, 180]. *)
Lemma solar_fallback_nan_off_disk :
  exists sza cos,
    compute_solar_angles_enhanced (fun _ => Returned six_pm) failing_body
      (Some corner_scene) None = Some (sza, cos) /\
    cell (data sza) 0 0 = Some None.
Proof.
  destruct (enhanced_fallback_cells corner_scene (Some six_pm))
    as (sza & cos & Hfb & _ & Hcells); [simpl; discriminate | simpl; discriminate |].
  exists sza, cos. split.
  - rewrite (enhanced_falls_back (fun _ => Returned six_pm) failing_body corner_scene
               None (Some six_pm)).
    + rewrite Hfb. reflexivity.
    + split; [reflexivity | exists ValueError; reflexivity].
  - destruct (Hcells 0%nat 0%nat 0.15%R 0.15%R eq_refl eq_refl) as (v & _ & Hcell).
    rewrite Hcell. destruct (le_float _ _) eqn:Hle; [|reflexivity].
    apply on_disk_le_float in Hle. exfalso. exact (corner_off_disk Hle).
Qed.

(** ** Order of the stages inside a worker *)

Section StageOrder.

Context {buf img : Type} `{Backend buf img}.

(** C1, as the code has it.  The standard worker, which the full-disk
    path reuses, resamples the raw radiance first, then calibrates, then
    enhances.  The Level 2 aware worker calibrates a Level 1b radiance
    first, then resamples, then enhances; it takes a Level 2 array as
    already calibrated and only resamples and enhances it. *)
Theorem worker_stage_order (cfg : config) (t : task buf) (processing_time : R) :
  stored_arrays (standard_conus_worker cfg t processing_time) =
    returned (resample_calibrate_enhance cfg t) /\
  (default "level1b"%string (data_level (task_raw_data t)) <> "level2"%string ->
   stored_arrays (level2_aware_worker cfg t processing_time) =
     returned (calibrate_resample_enhance cfg t)) /\
  (default "level1b"%string (data_level (task_raw_data t)) = "level2"%string ->
   stored_arrays (level2_aware_worker cfg t processing_time) =
     returned (resample_enhance cfg t)).
Proof.
  split; [|split].
  - unfold standard_conus_worker, standard_conus_body, resample_calibrate_enhance.
    destruct (subscript (radiance (task_raw_data t))) as [radiance|e]; [|reflexivity].
    cbn [obind].
    destruct (upscale_if_needed _ _ radiance) as [resampled|e]; [|reflexivity].
    cbn [obind].
    destruct (calibrate _ _ resampled) as [calibrated|e]; [|reflexivity].
    cbn [obind].
    destruct (enhance _ _ calibrated) as [enhanced|e]; [|reflexivity].
    cbn. destruct (compress cfg calibrated enhanced); reflexivity.
  - intros Hlevel.
    unfold level2_aware_worker, level2_aware_body, calibrate_resample_enhance.
    destruct (String.eqb_spec (default "level1b"%string (data_level (task_raw_data t)))
                "level2") as [Heq|_]; [contradiction|].
    destruct (subscript (radiance (task_raw_data t))) as [radiance|e]; [|reflexivity].
    cbn [obind].
    destruct (calibrate _ _ radiance) as [calibrated|e]; [|reflexivity].
    cbn [obind].
    destruct (upscale_if_needed _ _ calibrated) as [resampled|e]; [|reflexivity].
    cbn [obind].
    destruct (enhance _ _ resampled) as [enhanced|e]; [|reflexivity].
    cbn. destruct (compress cfg resampled enhanced); reflexivity.
  - intros Hlevel.
    unfold level2_aware_worker, level2_aware_body, resample_enhance.
    rewrite Hlevel, String.eqb_refl.
    destruct (subscript (calibrated_data (task_raw_data t))) as [calibrated|e];
      [|reflexivity].
    cbn [obind].
    destruct (upscale_if_needed _ _ calibrated) as [resampled|e]; [|reflexivity].
    cbn [obind].
    destruct (enhance _ _ resampled) as [enhanced|e]; [|reflexivity].
    cbn. destruct (compress cfg resampled enhanced); reflexivity.
Qed.

End StageOrder.

Lemma worker_stage_order_witness :
  stored_arrays
    (@level2_aware_worker stage stage symbolic_backend default_config
       (c13_task RawRadiance) 0%R) =
  returned
    (@calibrate_resample_enhance stage stage symbolic_backend default_config
       (c13_task RawRadiance)).
Proof.
  apply (proj1 (proj2 (@worker_stage_order stage stage symbolic_backend default_config
                         (c13_task RawRadiance) 0%R))).
  simpl. discriminate.
Defined.

(** C1 as stated fails on the standard path: for channel C13, upscaled
    four times, the stored array is the calibration of the resampled
    radiance, not the resampling of the calibrated radiance. *)
Lemma standard_worker_resamples_first :
  stored_arrays
    (@standard_conus_worker stage stage symbolic_backend default_config
       (c13_task RawRadiance) 0%R) =
    Some (MkArray (4, 4)%nat (Calibrated (Resampled RawRadiance)),
          MkArray (4, 4)%nat (EnhancedFrom (Calibrated (Resampled RawRadiance)))) /\
  returned
    (@calibrate_resample_enhance stage stage symbolic_backend default_config
       (c13_task RawRadiance)) =
    Some (MkArray (4, 4)%nat (Resampled (Calibrated RawRadiance)),
          MkArray (4, 4)%nat (EnhancedFrom (Resampled (Calibrated RawRadiance)))).
Proof. split; reflexivity. Qed.

(** ** Aggregation is independent of the merge order *)

Section Aggregation.

Context {buf img : Type}.

Lemma merge_result_summary (acc : @tally buf img) (result : worker_result buf img) :
  summary_of (merge_result acc result) = add_contribution (summary_of acc) (contribution result).
Proof.
  destruct result as [s|code e dt]; unfold summary_of; simpl; [|reflexivity].
  destruct (res_coordinate_data s); reflexivity.
Qed.

Lemma fold_merge_summary (results : list (worker_result buf img)) (acc : @tally buf img) :
  summary_of (fold_left merge_result results acc) =
  fold_left add_contribution (map contribution results) (summary_of acc).
Proof.
  revert acc. induction results as [|r results IH]; intros acc; simpl; [reflexivity|].
  rewrite IH, merge_result_summary. reflexivity.
Qed.

Lemma add_contribution_comm (s : @summary_t buf img)
    (c d : string * option (channel_entry buf img * metadata_t)) :
  fst c <> fst d ->
  add_contribution (add_contribution s c) d = add_contribution (add_contribution s d) c.
Proof.
  intros Hne. destruct s as [[[chans mds] ok] ko].
  destruct c as [k [[e1 m1]|]], d as [k' [[e2 m2]|]]; simpl in *; try reflexivity.
  rewrite (insert_insert_ne chans k' k) by congruence.
  rewrite (insert_insert_ne mds k' k) by congruence.
  reflexivity.
Qed.

Lemma fold_contributions_perm
    (l1 l2 : list (string * option (channel_entry buf img * metadata_t))) :
  l1 ≡ₚ l2 -> NoDup (map fst l1) ->
  forall s : summary_t, fold_left add_contribution l1 s = fold_left add_contribution l2 s.
Proof.
  induction 1 as [|x l l' Hperm IH|x y l|l l' l'' Hperm1 IH1 Hperm2 IH2];
    intros Hnodup s; simpl.
  - reflexivity.
  - apply IH. simpl in Hnodup. apply NoDup_cons_1_2 in Hnodup. exact Hnodup.
  - rewrite add_contribution_comm; [reflexivity|].
    simpl in Hnodup. apply NoDup_cons in Hnodup as [Hnotin _].
    intros Heq. apply Hnotin. rewrite Heq. apply list_elem_of_here.
  - rewrite IH1 by exact Hnodup. apply IH2.
    assert (Hkeys : map fst l ≡ₚ map fst l') by (apply Permutation_map; exact Hperm1).
    rewrite <- Hkeys. exact Hnodup.
Qed.

(** Two workers that contribute the same to the store for every task,
    whatever time each measures, leave the same summary after any two
    merge orders of the same tasks. *)
Lemma aggregate_order_independent
    (worker_a worker_b : task buf -> R -> worker_result buf img)
    (tasks : list (task buf)) (run_a run_b : @run buf) :
  (forall t dt dt', contribution (worker_a t dt) = contribution (worker_b t dt')) ->
  (forall t dt, fst (contribution (worker_a t dt)) = task_channel_code t) ->
  NoDup (map task_channel_code tasks) ->
  map fst run_a ≡ₚ tasks -> map fst run_b ≡ₚ tasks ->
  summary_of (aggregate worker_a run_a) = summary_of (aggregate worker_b run_b).
Proof.
  intros Hsame Hcode Hnodup Ha Hb. unfold aggregate.
  rewrite !fold_merge_summary, !map_map.
  set (entry := fun t : task buf => contribution (worker_a t 0%R)).
  assert (Hrun_a : map (fun tr => contribution (worker_a (fst tr) (snd tr))) run_a =
                   map entry (map fst run_a)).
  { rewrite map_map. apply map_ext. intros [t dt]. simpl. unfold entry.
    rewrite (Hsame t dt 0%R), <- (Hsame t 0%R 0%R). reflexivity. }
  assert (Hrun_b : map (fun tr => contribution (worker_b (fst tr) (snd tr))) run_b =
                   map entry (map fst run_b)).
  { rewrite map_map. apply map_ext. intros [t dt]. simpl. unfold entry.
    rewrite <- (Hsame t 0%R dt). reflexivity. }
  rewrite Hrun_a, Hrun_b.
  apply fold_contributions_perm.
  - apply Permutation_map. rewrite Ha, Hb. reflexivity.
  - rewrite map_map.
    assert (Hkeys : map (fun t => fst (entry t)) (map fst run_a) ≡ₚ
                    map (fun t => fst (entry t)) tasks)
      by (apply Permutation_map; exact Ha).
    rewrite Hkeys.
    erewrite map_ext; [exact Hnodup|].
    intros t. unfold entry. simpl. apply Hcode.
Qed.

Lemma merge_order_permutation (cfg : config) (tasks : list (task buf)) (r : @run buf) :
  merge_order cfg tasks r -> map fst r ≡ₚ tasks.
Proof.
  unfold merge_order.
  destruct (ENABLE_PARALLEL_PROCESSING cfg && (1 <? length tasks)); [auto|].
  intros ->. reflexivity.
Qed.

Lemma task_codes (domain_type : string) (raw_data_store : list (string * raw_record buf)) :
  map task_channel_code (level2_tasks domain_type raw_data_store) = dict_keys raw_data_store /\
  map task_channel_code (standard_tasks domain_type raw_data_store) = dict_keys raw_data_store /\
  map task_channel_code (full_disk_tasks domain_type raw_data_store) = dict_keys raw_data_store.
Proof.
  unfold level2_tasks, standard_tasks, full_disk_tasks, dict_keys.
  rewrite !map_map. repeat split; apply map_ext; reflexivity.
Qed.

Context `{Backend buf img}.

Lemma compress_flag (cfg_a cfg_b : config) (c : ndarray buf) (e : ndarray img) :
  COMPRESS_STORED_DATA cfg_a = COMPRESS_STORED_DATA cfg_b ->
  compress cfg_a c e = compress cfg_b c e.
Proof. unfold compress. intros ->. reflexivity. Qed.

Lemma standard_contribution (cfg_a cfg_b : config) (t : task buf) (dt dt' : R) :
  COMPRESS_STORED_DATA cfg_a = COMPRESS_STORED_DATA cfg_b ->
  contribution (standard_conus_worker cfg_a t dt) =
    contribution (standard_conus_worker cfg_b t dt') /\
  fst (contribution (standard_conus_worker cfg_a t dt)) = task_channel_code t.
Proof.
  intros Hflag. unfold standard_conus_worker, standard_conus_body.
  destruct (subscript (radiance (task_raw_data t))) as [radiance|e]; [|split; reflexivity].
  cbn [obind].
  destruct (upscale_if_needed _ _ radiance) as [resampled|e]; [|split; reflexivity].
  cbn [obind].
  destruct (calibrate _ _ resampled) as [calibrated|e]; [|split; reflexivity].
  cbn [obind].
  destruct (enhance _ _ calibrated) as [enhanced|e]; [|split; reflexivity].
  cbn. rewrite (compress_flag cfg_a cfg_b _ _ Hflag). split; reflexivity.
Qed.

(** C6. On the standard and the full-disk path, whose results go into a
    [ChannelDataStore]: for the same loaded channels and the same storage
    setting, the channel entries (calibrated and enhanced arrays, type,
    shape) and the metadata held under each channel code, and the
    success and failure counts, are the same whether the tasks are merged
    in task order by the sequential loop or in any completion order by
    the worker pool, whatever time each worker measures. *)
Theorem channel_store_order_independent (cfg_a cfg_b : config) (domain_type : string)
    (raw_data_store : list (string * raw_record buf)) (run_a run_b : @run buf) :
  NoDup (dict_keys raw_data_store) ->
  COMPRESS_STORED_DATA cfg_a = COMPRESS_STORED_DATA cfg_b ->
  (merge_order cfg_a (standard_tasks domain_type raw_data_store) run_a ->
   merge_order cfg_b (standard_tasks domain_type raw_data_store) run_b ->
   summary_of (aggregate (standard_conus_worker cfg_a) run_a) =
   summary_of (aggregate (standard_conus_worker cfg_b) run_b)) /\
  (merge_order cfg_a (full_disk_tasks domain_type raw_data_store) run_a ->
   merge_order cfg_b (full_disk_tasks domain_type raw_data_store) run_b ->
   summary_of (aggregate (standard_conus_worker cfg_a) run_a) =
   summary_of (aggregate (standard_conus_worker cfg_b) run_b)).
Proof.
  intros Hnodup Hflag.
  destruct (task_codes domain_type raw_data_store) as (Hl2 & Hstd & Hfd).
  split; intros Ha Hb;
    apply merge_order_permutation in Ha; apply merge_order_permutation in Hb.
  - apply (aggregate_order_independent _ _ (standard_tasks domain_type raw_data_store));
      try assumption.
    + intros t dt dt'. apply (standard_contribution cfg_a cfg_b t dt dt' Hflag).
    + intros t dt. apply (standard_contribution cfg_a cfg_b t dt dt Hflag).
    + rewrite Hstd. exact Hnodup.
  - apply (aggregate_order_independent _ _ (full_disk_tasks domain_type raw_data_store));
      try assumption.
    + intros t dt dt'. apply (standard_contribution cfg_a cfg_b t dt dt' Hflag).
    + intros t dt. apply (standard_contribution cfg_a cfg_b t dt dt Hflag).
    + rewrite Hfd. exact Hnodup.
Qed.

End Aggregation.

Lemma two_ir_store_keys : NoDup (dict_keys two_ir_store).
Proof.
  simpl. apply NoDup_cons. split; [|apply NoDup_singleton].
  intros Hin. apply list_elem_of_singleton in Hin. discriminate.
Qed.

Lemma channel_store_order_independent_witness :
  summary_of
    (aggregate (@standard_conus_worker stage stage symbolic_backend sequential_config)
       task_order_run) =
  summary_of
    (aggregate (@standard_conus_worker stage stage symbolic_backend default_config)
       completion_order_run).
Proof.
  apply (proj1 (@channel_store_order_independent stage stage symbolic_backend
                  sequential_config default_config "conus" two_ir_store
                  task_order_run completion_order_run
                  two_ir_store_keys eq_refl)).
  - reflexivity.
  - simpl. apply perm_swap.
Defined.

(** ** The RGB product loop *)

Section RGBLoop.

Context {img rgb : Type}.
Variable worker_impl : string -> @worker_fn img rgb.

Lemma catalog_workers_registered :
  Forall (fun kv : string * catalog_entry =>
            dict_get (cat_worker (snd kv)) (get_rgb_worker_registry worker_impl) =
            Some (worker_impl (cat_worker (snd kv))))
    RGB_CATALOG.
Proof. unfold RGB_CATALOG. repeat constructor. Qed.

Lemma catalog_worker_lookup (name : string) (entry : catalog_entry) :
  dict_get name RGB_CATALOG = Some entry ->
  dict_get (cat_worker entry) (get_rgb_worker_registry worker_impl) =
  Some (worker_impl (cat_worker entry)).
Proof.
  intros Hget. apply dict_get_elem_of in Hget.
  pose proof catalog_workers_registered as Hall.
  rewrite Forall_forall in Hall. exact (Hall _ Hget).
Qed.

Lemma select_fold (available : gset string) (requested : list string)
    (acc : list string * list report) :
  let out := fold_left (select_product available) requested acc in
  (forall name,
     name ∈ fst out <->
     name ∈ fst acc \/
     (name ∈ requested /\
      exists entry, dict_get name RGB_CATALOG = Some entry /\
                    missing_from (cat_channels entry) available = [])) /\
  (forall r, r ∈ snd acc -> r ∈ snd out) /\
  (forall name entry,
     name ∈ requested -> dict_get name RGB_CATALOG = Some entry ->
     missing_from (cat_channels entry) available <> [] ->
     MissingChannels name (missing_from (cat_channels entry) available) ∈ snd out).
Proof.
  revert acc. induction requested as [|p requested IH]; intros acc; cbn [fold_left].
  - split; [|split].
    + intros name. split; [auto|]. intros [Hin|[Hin _]]; [exact Hin|].
      apply elem_of_nil in Hin. contradiction.
    + auto.
    + intros name entry Hin. apply elem_of_nil in Hin. contradiction.
  - destruct (IH (select_product available acc p)) as (Hposs & Hlog & Hmiss).
    split; [|split].
    + intros name. rewrite Hposs. unfold select_product.
      destruct (dict_get p RGB_CATALOG) as [entry|] eqn:Hp.
      * destruct (missing_from (cat_channels entry) available) eqn:Hm; cbn [fst snd].
        -- rewrite elem_of_app, list_elem_of_singleton. split.
           ++ intros [[Hin| ->]|(Hin & Hex)].
              ** left. exact Hin.
              ** right. split; [apply list_elem_of_here|]. exists entry. auto.
              ** right. split; [apply list_elem_of_further; exact Hin | exact Hex].
           ++ intros [Hin|(Hin & Hex)]; [left; left; exact Hin|].
              apply elem_of_cons in Hin as [->|Hin]; [left; right; reflexivity|].
              right. auto.
        -- split.
           ++ intros [Hin|(Hin & Hex)]; [left; exact Hin|].
              right. split; [apply list_elem_of_further; exact Hin | exact Hex].
           ++ intros [Hin|(Hin & Hex)]; [left; exact Hin|].
              apply elem_of_cons in Hin as [->|Hin]; [|right; auto].
              destruct Hex as (entry' & Hentry' & Hnone).
              rewrite Hp in Hentry'. injection Hentry' as <-.
              rewrite Hm in Hnone. discriminate.
      * cbn [fst snd]. split.
        -- intros [Hin|(Hin & Hex)]; [left; exact Hin|].
           right. split; [apply list_elem_of_further; exact Hin | exact Hex].
        -- intros [Hin|(Hin & Hex)]; [left; exact Hin|].
           apply elem_of_cons in Hin as [->|Hin]; [|right; auto].
           destruct Hex as (entry' & Hentry' & _). rewrite Hp in Hentry'. discriminate.
    + intros r Hr. apply Hlog. unfold select_product.
      destruct (dict_get p RGB_CATALOG) as [entry|];
        [destruct (missing_from (cat_channels entry) available)|];
        cbn [fst snd]; apply elem_of_app; left; exact Hr.
    + intros name entry Hin Hentry Hne.
      apply elem_of_cons in Hin as [->|Hin]; [|eauto].
      apply Hlog. unfold select_product. rewrite Hentry.
      destruct (missing_from (cat_channels entry) available) eqn:Hm; [congruence|].
      cbn [fst snd]. apply elem_of_app. right. apply list_elem_of_here.
Qed.

Variable channels_data : @channels_data_t img.
Variable solar_angles_data : option solar_angles_t.

Lemma build_step_lookup (acc : UnifiedRGBDataStore rgb * list report) (p name : string) :
  rgb_products (fst (build_product worker_impl channels_data solar_angles_data acc p))
    !! name =
  if decide (p = name) then
    match built worker_impl channels_data solar_angles_data name with
    | Some rgb_data => Some rgb_data
    | None => rgb_products (fst acc) !! name
    end
  else rgb_products (fst acc) !! name.
Proof.
  unfold build_product, built.
  destruct (decide (p = name)) as [->|Hne].
  - destruct (dict_get name RGB_CATALOG) as [info|] eqn:Hinfo; [|reflexivity].
    rewrite (catalog_worker_lookup name info Hinfo).
    destruct (worker_impl (cat_worker info) channels_data solar_angles_data)
      as [[rgb_data method|error]|e]; simpl; try reflexivity.
    apply lookup_insert_eq.
  - destruct (dict_get p RGB_CATALOG) as [info|] eqn:Hinfo; [|reflexivity].
    rewrite (catalog_worker_lookup p info Hinfo).
    destruct (worker_impl (cat_worker info) channels_data solar_angles_data)
      as [[rgb_data method|error]|e]; simpl; try reflexivity.
    apply lookup_insert_ne. exact Hne.
Qed.

Lemma build_step_log (acc : UnifiedRGBDataStore rgb * list report) (p : string) :
  Creating p ∈ snd (build_product worker_impl channels_data solar_angles_data acc p) /\
  forall r, r ∈ snd acc ->
    r ∈ snd (build_product worker_impl channels_data solar_angles_data acc p).
Proof.
  unfold build_product.
  destruct (dict_get p RGB_CATALOG) as [info|]; [|simpl].
  - destruct (dict_get (cat_worker info) (get_rgb_worker_registry worker_impl))
      as [worker_func|]; [|simpl].
    + destruct (worker_func channels_data solar_angles_data)
        as [[rgb_data method|error]|e]; simpl;
        (split; [|intros r Hr]); rewrite !elem_of_app, ?list_elem_of_singleton; auto.
    + split; [|intros r Hr]; rewrite !elem_of_app, ?list_elem_of_singleton; auto.
  - split; [|intros r Hr]; rewrite !elem_of_app, ?list_elem_of_singleton; auto.
Qed.

Lemma build_fold_other (l : list string) (acc : UnifiedRGBDataStore rgb * list report)
    (name : string) :
  name ∉ l ->
  rgb_products
    (fst (fold_left (build_product worker_impl channels_data solar_angles_data) l acc))
    !! name = rgb_products (fst acc) !! name.
Proof.
  revert acc. induction l as [|p l IH]; intros acc Hnotin; simpl; [reflexivity|].
  apply not_elem_of_cons in Hnotin as [Hne Hnotin].
  rewrite (IH _ Hnotin), build_step_lookup.
  destruct (decide (p = name)); [congruence | reflexivity].
Qed.

Lemma build_fold_member (l : list string) (acc : UnifiedRGBDataStore rgb * list report)
    (name : string) :
  name ∈ l ->
  rgb_products
    (fst (fold_left (build_product worker_impl channels_data solar_angles_data) l acc))
    !! name =
  match built worker_impl channels_data solar_angles_data name with
  | Some rgb_data => Some rgb_data
  | None => rgb_products (fst acc) !! name
  end.
Proof.
  revert acc. induction l as [|p l IH]; intros acc Hin; simpl.
  - apply elem_of_nil in Hin. contradiction.
  - destruct (decide (name ∈ l)) as [Hl|Hl].
    + rewrite (IH _ Hl), build_step_lookup.
      destruct (built worker_impl channels_data solar_angles_data name); [reflexivity|].
      destruct (decide (p = name)); reflexivity.
    + apply elem_of_cons in Hin as [->|Hin]; [|contradiction].
      rewrite (build_fold_other _ _ _ Hl), build_step_lookup.
      destruct (decide (p = p)); [reflexivity | congruence].
Qed.

Lemma build_fold_log (l : list string) (acc : UnifiedRGBDataStore rgb * list report) :
  (forall r, r ∈ snd acc ->
     r ∈ snd (fold_left (build_product worker_impl channels_data solar_angles_data) l acc)) /\
  (forall name, name ∈ l ->
     Creating name ∈
       snd (fold_left (build_product worker_impl channels_data solar_angles_data) l acc)).
Proof.
  revert acc. induction l as [|p l IH]; intros acc; simpl.
  - split; [auto|]. intros name Hin. apply elem_of_nil in Hin. contradiction.
  - destruct (IH (build_product worker_impl channels_data solar_angles_data acc p))
      as [Hkeep Hcreated].
    destruct (build_step_log acc p) as [Hp Hstep].
    split; [auto|].
    intros name Hin. apply elem_of_cons in Hin as [->|Hin]; auto.
Qed.

End RGBLoop.

(** C5. For a requested product of the catalog: when some of its required
    channel codes are absent from the channel store, the loop reports the
    missing channels and the product is absent from the resulting store;
    when none is absent, the product is attempted, and whether it is in
    the resulting store depends on the outcome of its own worker only
    (stored when the worker succeeds, absent when it reports a failure or
    raises), whatever happens to the other products. *)
Theorem rgb_products_independent {img rgb : Type}
    (worker_impl : string -> @worker_fn img rgb)
    (RGB_PRODUCTS_TO_CREATE : option (list string))
    (memory_store : @memory_store_t img)
    (name : string) (entry : catalog_entry) :
  name ∈ requested_products_of RGB_PRODUCTS_TO_CREATE ->
  dict_get name RGB_CATALOG = Some entry ->
  let out := create_rgb_products_unified worker_impl RGB_PRODUCTS_TO_CREATE memory_store in
  let missing := missing_from (cat_channels entry) (dom (ms_channels memory_store)) in
  (missing <> [] ->
     rgb_products (fst out) !! name = None /\
     MissingChannels name missing ∈ snd out) /\
  (missing = [] ->
     Creating name ∈ snd out /\
     rgb_products (fst out) !! name =
       match worker_impl (cat_worker entry) (ms_channels memory_store)
               (ms_solar_angles memory_store) with
       | Returned (RGBSuccess rgb_data _) => Some rgb_data
       | _ => None
       end).
Proof.
  intros Hrequested Hentry out missing. subst out missing.
  unfold create_rgb_products_unified.
  set (available := dom (ms_channels memory_store)).
  set (requested := requested_products_of RGB_PRODUCTS_TO_CREATE) in *.
  destruct (select_fold available requested ([], [])) as (Hposs & Hlog & Hmiss).
  cbn zeta in Hposs, Hlog, Hmiss. cbn zeta.
  set (selected := fold_left (select_product available) requested ([], [])) in *.
  split.
  - intros Hne.
    assert (Hnot : name ∉ fst selected).
    { rewrite Hposs. intros [Hin|(_ & entry' & Hentry' & Hnone)].
      - apply elem_of_nil in Hin. contradiction.
      - rewrite Hentry in Hentry'. injection Hentry' as <-. contradiction. }
    pose proof (Hmiss name entry Hrequested Hentry Hne) as Hreported.
    destruct (fst selected) as [|p possible] eqn:Hpossible.
    + split; [apply lookup_empty|].
      cbn [snd]. apply elem_of_app. left. exact Hreported.
    + split.
      * rewrite (build_fold_other worker_impl _ _ _ _ _ Hnot). apply lookup_empty.
      * apply (proj1 (build_fold_log worker_impl _ _ _ _)). exact Hreported.
  - intros Hnone.
    assert (Hin : name ∈ fst selected).
    { rewrite Hposs. right. split; [exact Hrequested|]. exists entry. auto. }
    destruct (fst selected) as [|p possible] eqn:Hpossible.
    + apply elem_of_nil in Hin. contradiction.
    + split.
      * apply (proj2 (build_fold_log worker_impl _ _ _ _)). exact Hin.
      * rewrite (build_fold_member worker_impl _ _ _ _ _ Hin).
        unfold built. rewrite Hentry.
        destruct (worker_impl (cat_worker entry) (ms_channels memory_store)
                    (ms_solar_angles memory_store)) as [[rgb_data method|error]|e];
          try reflexivity; apply lookup_empty.
Qed.

Lemma rgb_products_independent_witness :
  let out := create_rgb_products_unified one_good_worker None water_vapour_store in
  Creating "differential_water_vapor" ∈ snd out /\
  rgb_products (fst out) !! "differential_water_vapor" = Some "differential"%string.
Proof.
  assert (Hrequested : "differential_water_vapor"%string ∈ requested_products_of None).
  { apply list_elem_of_In. simpl. tauto. }
  exact (proj2 (@rgb_products_independent string string one_good_worker None
                  water_vapour_store "differential_water_vapor" _
                  Hrequested eq_refl) eq_refl).
Defined.

(** ** Target shapes and the shape of what a worker stores *)

Lemma standard_requirement_values (channel_code requirement : string) :
  dict_get channel_code get_standard_channel_requirements = Some requirement ->
  requirement ∈ ["native"; "upscale_2x"; "upscale_4x"]%string.
Proof.
  intros Hget. apply dict_get_elem_of in Hget.
  assert (Hall : Forall (fun kv : string * string =>
                           snd kv ∈ ["native"; "upscale_2x"; "upscale_4x"]%string)
                   get_standard_channel_requirements).
  { unfold get_standard_channel_requirements. repeat constructor. }
  rewrite Forall_forall in Hall. exact (Hall _ Hget).
Qed.

Lemma full_disk_requirement_values (channel_code requirement : string) :
  dict_get channel_code (get_level2_channel_requirements "full_disk") = Some requirement ->
  requirement = "native"%string.
Proof.
  intros Hget. apply dict_get_elem_of in Hget.
  assert (Hall : Forall (fun kv : string * string => snd kv = "native"%string)
                   (get_level2_channel_requirements "full_disk")).
  { cbv. repeat constructor. }
  rewrite Forall_forall in Hall. exact (Hall _ Hget).
Qed.

Lemma shape_for_requirement_scale (requirement : string) (native_shape : shape_t)
    (reference_shape : option shape_t) :
  requirement ∈ ["native"; "upscale_2x"; "upscale_4x"]%string ->
  exists k : nat, k ∈ [1; 2; 4] /\
    shape_for_requirement requirement native_shape reference_shape =
      Some (fst native_shape * k, snd native_shape * k).
Proof.
  intros Hin. destruct native_shape as [r c].
  repeat (apply elem_of_cons in Hin as [->|Hin]).
  - exists 1. split; [repeat constructor|]. cbn. rewrite !Nat.mul_1_r. reflexivity.
  - exists 2. split; [repeat constructor|]. reflexivity.
  - exists 4. split; [repeat constructor|]. reflexivity.
  - apply elem_of_nil in Hin. contradiction.
Qed.

(** X5. Whatever the channel, the domain and the reference shape, the target
    shape is the native shape scaled by 1, 2 or 4: the reference shape is
    never the answer.  On the full-disk domain every channel stays
    native; on every other domain the Level 2 aware table is the standard
    one; a channel code outside the table stays native. *)
Theorem target_shape_scale (channel_code : string) (native_shape : shape_t)
    (reference_shape : option shape_t) (domain_type : string) :
  (exists k : nat, k ∈ [1; 2; 4] /\
     get_target_shape channel_code native_shape reference_shape domain_type =
       Some (fst native_shape * k, snd native_shape * k)) /\
  (domain_type = "full_disk"%string ->
   get_target_shape channel_code native_shape reference_shape domain_type =
     Some native_shape) /\
  (domain_type <> "full_disk"%string ->
   get_target_shape channel_code native_shape reference_shape domain_type =
     get_standard_target_shape channel_code native_shape reference_shape) /\
  (dict_get channel_code get_standard_channel_requirements = None ->
   get_standard_target_shape channel_code native_shape reference_shape =
     Some native_shape).
Proof.
  assert (Hfull : get_target_shape channel_code native_shape reference_shape "full_disk" =
                  Some native_shape).
  { unfold get_target_shape.
    destruct (dict_get channel_code (get_level2_channel_requirements "full_disk"))
      as [requirement|] eqn:Hget; [|reflexivity].
    rewrite (full_disk_requirement_values _ _ Hget). reflexivity. }
  assert (Hother : domain_type <> "full_disk"%string ->
    get_target_shape channel_code native_shape reference_shape domain_type =
      get_standard_target_shape channel_code native_shape reference_shape).
  { intros Hne. unfold get_target_shape, get_standard_target_shape,
      get_level2_channel_requirements.
    destruct (String.eqb_spec domain_type "full_disk"); [contradiction | reflexivity]. }
  assert (Hstandard : exists k : nat, k ∈ [1; 2; 4] /\
    get_standard_target_shape channel_code native_shape reference_shape =
      Some (fst native_shape * k, snd native_shape * k)).
  { unfold get_standard_target_shape. apply shape_for_requirement_scale.
    destruct (dict_get channel_code get_standard_channel_requirements)
      as [requirement|] eqn:Hget; [|repeat constructor].
    exact (standard_requirement_values _ _ Hget). }
  split; [|split; [|split]].
  - destruct (String.eqb_spec domain_type "full_disk") as [->|Hne].
    + exists 1. split; [repeat constructor|]. rewrite Hfull.
      destruct native_shape as [r c]. cbn. rewrite !Nat.mul_1_r. reflexivity.
    + rewrite (Hother Hne). exact Hstandard.
  - intros ->. exact Hfull.
  - exact Hother.
  - intros Hnone. unfold get_standard_target_shape. rewrite Hnone. reflexivity.
Qed.

Lemma zoom_is_integer (zoom_factor : Q * Q) (k m : Z) :
  (fst zoom_factor == inject_Z k)%Q -> (snd zoom_factor == inject_Z k)%Q ->
  zoom_is zoom_factor (inject_Z m) (inject_Z m) = (k =? m)%Z.
Proof.
  intros Ha Hb. unfold zoom_is.
  assert (Heq : forall q : Q, (q == inject_Z k)%Q -> Qeq_bool q (inject_Z m) = (k =? m)%Z).
  { intros q Hq. destruct (Z.eqb_spec k m) as [->|Hne].
    - apply Qeq_bool_iff. exact Hq.
    - destruct (Qeq_bool q (inject_Z m)) eqn:Hbool; [|reflexivity].
      apply Qeq_bool_iff in Hbool. rewrite Hq in Hbool.
      unfold Qeq in Hbool. simpl in Hbool. lia. }
  rewrite (Heq _ Ha), (Heq _ Hb). apply andb_diag.
Qed.

Lemma integer_zoom (n k : nat) :
  (0 < n)%nat ->
  (round_double (inject_Z (Z.of_nat (n * k)) / inject_Z (Z.of_nat n)) ==
   inject_Z (Z.of_nat k))%Q.
Proof.
  intros Hn. rewrite (round_double_integral _ (Z.of_nat k)); [reflexivity|].
  rewrite Nat2Z.inj_mul, inject_Z_mult. field.
  intros Hzero. unfold Qeq in Hzero. simpl in Hzero. lia.
Qed.

Section StoredShape.

Context {buf img : Type} `{Backend buf img}.

Lemma upscale_to_current (current_shape : shape_t) (arr : ndarray buf) :
  upscale_if_needed current_shape (Some current_shape) arr = Returned arr.
Proof. unfold upscale_if_needed. rewrite bool_decide_eq_true_2; reflexivity. Qed.

Lemma fast_upscale_integer (arr : ndarray buf) (zoom_factor : Q * Q) (k : nat) :
  (fst zoom_factor == inject_Z (Z.of_nat k))%Q ->
  (snd zoom_factor == inject_Z (Z.of_nat k))%Q ->
  k = 2%nat \/ k = 4%nat ->
  fast_upscale_array arr zoom_factor =
    Returned
      (MkArray (fst (shape arr) * k, snd (shape arr) * k)%nat
         (if (k =? 2)%nat
          then numba_fast_upscale_2x arr (fst (shape arr) * k, snd (shape arr) * k)%nat
          else numba_fast_upscale_4x arr (fst (shape arr) * k, snd (shape arr) * k)%nat)).
Proof.
  intros Ha Hb Hk. unfold fast_upscale_array.
  change 1%Q with (inject_Z 1). change 2%Q with (inject_Z 2). change 4%Q with (inject_Z 4).
  rewrite !(zoom_is_integer zoom_factor (Z.of_nat k)) by assumption.
  rewrite (py_int_integral _ _ (dim_times_integral (fst (shape arr)) _ _ Ha)).
  rewrite (py_int_integral _ _ (dim_times_integral (snd (shape arr)) _ _ Hb)).
  change NUMBA_AVAILABLE with true. cbv iota.
  assert (Hzeros : np_zeros_shape
                     ((Z.of_nat (fst (shape arr)) * Z.of_nat k)%Z,
                      (Z.of_nat (snd (shape arr)) * Z.of_nat k)%Z) =
                   Returned (fst (shape arr) * k, snd (shape arr) * k)%nat).
  { unfold np_zeros_shape. cbn [fst snd].
    rewrite <- !Nat2Z.inj_mul, !Nat2Z.id.
    destruct (Z.leb_spec 0 (Z.of_nat (fst (shape arr) * k))); [|lia].
    destruct (Z.leb_spec 0 (Z.of_nat (snd (shape arr) * k))); [|lia].
    reflexivity. }
  destruct Hk as [->| ->]; cbn [Z.of_nat Z.eqb Pos.of_succ_nat Pos.succ Pos.eqb Nat.eqb];
    rewrite Hzeros; reflexivity.
Qed.

(** Resampling towards the native shape scaled by 1, 2 or 4 returns, when
    it returns, an array of exactly that shape. *)
Lemma upscale_if_needed_shape (r c k : nat) (arr out : ndarray buf) :
  shape arr = (r, c) -> k ∈ [1; 2; 4]%nat ->
  upscale_if_needed (r, c) (Some (r * k, c * k)%nat) arr = Returned out ->
  shape out = (r * k, c * k)%nat.
Proof.
  intros Hshape Hk. unfold upscale_if_needed.
  case_bool_decide as Hne.
  - intros [= <-]. rewrite Hshape. congruence.
  - assert (Hk' : k = 2%nat \/ k = 4%nat).
    { repeat (apply elem_of_cons in Hk as [->|Hk]); auto.
      - exfalso. apply Hne. rewrite !Nat.mul_1_r. reflexivity.
      - apply elem_of_nil in Hk. contradiction. }
    cbn [obind fst snd]. unfold py_truediv.
    destruct (Z.eqb_spec (Z.of_nat r) 0) as [Hr|Hr]; [discriminate|].
    cbn [obind].
    destruct (Z.eqb_spec (Z.of_nat c) 0) as [Hc|Hc]; [discriminate|].
    cbn [obind].
    pose proof (integer_zoom r k ltac:(lia)) as Hz0.
    pose proof (integer_zoom c k ltac:(lia)) as Hz1.
    change 1%Q with (inject_Z 1).
    rewrite (zoom_is_integer _ (Z.of_nat k) 1) by assumption.
    destruct (Z.eqb_spec (Z.of_nat k) 1) as [Hone|_]; [lia|].
    rewrite (fast_upscale_integer arr
               (round_double (inject_Z (Z.of_nat (r * k)) / inject_Z (Z.of_nat r))%Q,
                round_double (inject_Z (Z.of_nat (c * k)) / inject_Z (Z.of_nat c))%Q)
               k Hz0 Hz1 Hk').
    intros [= <-]. rewrite Hshape. reflexivity.
Qed.

Lemma calibrate_shape (channel_code : string) (raw_data : raw_record buf)
    (radiance calibrated : ndarray buf) :
  calibrate channel_code raw_data radiance = Returned calibrated ->
  shape calibrated = shape radiance.
Proof.
  unfold calibrate, radiance_to_brightness_temp.
  destruct (String.eqb (channel_type raw_data) "ir").
  - destruct (select_constants _ _) as [[[fk1 fk2] bc1] bc2].
    change NUMBA_AVAILABLE with true. intros [= <-]. reflexivity.
  - destruct (kappa0 raw_data) as [kappa|].
    + change NUMBA_AVAILABLE with true. intros [= <-]. reflexivity.
    + intros Hcal. apply obind_returned in Hcal as (max_val & _ & Hcal).
      destruct (positive_max max_val); injection Hcal as <-; reflexivity.
Qed.

Lemma task_target_scale (domain_type : string)
    (raw_data_store : list (string * raw_record buf)) (t : task buf) :
  t ∈ standard_tasks domain_type raw_data_store \/
  t ∈ level2_tasks domain_type raw_data_store \/
  t ∈ full_disk_tasks domain_type raw_data_store ->
  exists k : nat, k ∈ [1; 2; 4]%nat /\
    task_target_shape t =
      Some (fst (native_shape (task_raw_data t)) * k,
            snd (native_shape (task_raw_data t)) * k)%nat.
Proof.
  unfold standard_tasks, level2_tasks, full_disk_tasks.
  intros [Hin|[Hin|Hin]]; apply list_elem_of_In, in_map_iff in Hin as ([code raw] & <- & _);
    cbn [task_target_shape task_raw_data fst snd].
  - pose proof (target_shape_scale code (native_shape raw)
                  (reference_shape_of raw_data_store) "conus") as (Hscale & _ & Hstd & _).
    rewrite <- Hstd by discriminate. exact Hscale.
  - apply target_shape_scale.
  - exists 1%nat. split; [repeat constructor|].
    destruct (native_shape raw) as [r c]. cbn. rewrite !Nat.mul_1_r. reflexivity.
Qed.

(** X6. A channel that one of the three paths processes successfully is
    stored at exactly its target shape, which is its native shape scaled
    by 1, 2 or 4; the metadata records the same shape.  The arrays of the
    raw record have the native shape, as the loaders write it. *)
Theorem stored_shape_is_target (cfg : config) (domain_type : string)
    (raw_data_store : list (string * raw_record buf)) (t : task buf) (dt : R)
    (s : success_t buf img) :
  (forall a : ndarray buf, shape (astype_float32 a) = shape a) ->
  (forall a : ndarray buf,
     radiance (task_raw_data t) = Some a \/ calibrated_data (task_raw_data t) = Some a ->
     shape a = native_shape (task_raw_data t)) ->
  t ∈ standard_tasks domain_type raw_data_store \/
  t ∈ level2_tasks domain_type raw_data_store \/
  t ∈ full_disk_tasks domain_type raw_data_store ->
  standard_conus_worker cfg t dt = Success s \/ level2_aware_worker cfg t dt = Success s ->
  Some (shape (res_calibrated_data s)) = task_target_shape t /\
  md_shape (res_metadata s) = task_target_shape t /\
  exists k : nat, k ∈ [1; 2; 4]%nat /\
    shape (res_calibrated_data s) =
      (fst (native_shape (task_raw_data t)) * k,
       snd (native_shape (task_raw_data t)) * k)%nat.
Proof.
  intros Hastype Harrays Htask Hsuccess.
  destruct (task_target_scale domain_type raw_data_store t Htask) as (k & Hk & Htarget).
  destruct (native_shape (task_raw_data t)) as [r c] eqn:Hnative. cbn [fst snd] in Htarget.
  assert (Hcompress : forall (calibrated : ndarray buf) (enhanced : ndarray img),
            shape (fst (compress cfg calibrated enhanced)) = shape calibrated).
  { intros calibrated enhanced. unfold compress.
    destruct (COMPRESS_STORED_DATA cfg); [apply Hastype | reflexivity]. }
  assert (Hgoal : shape (res_calibrated_data s) = (r * k, c * k)%nat /\
                  md_shape (res_metadata s) = task_target_shape t).
  { destruct Hsuccess as [Hworker|Hworker].
    - unfold standard_conus_worker in Hworker.
      destruct (standard_conus_body cfg t dt) as [result|e] eqn:Hbody; [|discriminate].
      subst result. unfold standard_conus_body in Hbody.
      apply obind_returned in Hbody as (rad & Hrad & Hbody).
      apply obind_returned in Hbody as (resampled & Hres & Hbody).
      apply obind_returned in Hbody as (calibrated & Hcal & Hbody).
      apply obind_returned in Hbody as (enhanced & _ & Hbody).
      injection Hbody as <-. cbn [res_calibrated_data res_metadata md_shape].
      split; [|reflexivity].
      rewrite Hcompress, (calibrate_shape _ _ _ _ Hcal).
      rewrite Hnative, Htarget in Hres.
      apply (upscale_if_needed_shape r c k rad); [|exact Hk | exact Hres].
      apply Harrays. left.
      destruct (radiance (task_raw_data t)); [injection Hrad as ->; reflexivity | discriminate].
    - unfold level2_aware_worker in Hworker.
      destruct (level2_aware_body cfg t dt) as [result|e] eqn:Hbody; [|discriminate].
      subst result. unfold level2_aware_body in Hbody.
      apply obind_returned in Hbody as (calibrated & Hcal & Hbody).
      apply obind_returned in Hbody as (resampled & Hres & Hbody).
      apply obind_returned in Hbody as (enhanced & _ & Hbody).
      injection Hbody as <-. cbn [res_calibrated_data res_metadata md_shape].
      split; [|reflexivity].
      rewrite Hcompress. rewrite Hnative, Htarget in Hres.
      apply (upscale_if_needed_shape r c k calibrated); [|exact Hk | exact Hres].
      destruct (String.eqb _ "level2").
      + apply Harrays. right.
        destruct (calibrated_data (task_raw_data t)); [injection Hcal as ->; reflexivity | discriminate].
      + apply obind_returned in Hcal as (rad & Hrad & Hcal).
        rewrite (calibrate_shape _ _ _ _ Hcal). apply Harrays. left.
        destruct (radiance (task_raw_data t)); [injection Hrad as ->; reflexivity | discriminate]. }
  destruct Hgoal as [Hshape Hmd].
  split; [rewrite Hshape, Htarget; reflexivity|].
  split; [exact Hmd|].
  exists k. split; [exact Hk | exact Hshape].
Qed.

End StoredShape.

Lemma stored_shape_is_target_witness :
  exists s : success_t stage stage,
    @standard_conus_worker stage stage symbolic_backend default_config
      (c13_task RawRadiance) 0%R = Success s /\
    Some (shape (res_calibrated_data s)) = Some (4, 4)%nat.
Proof.
  eexists. split; [reflexivity|].
  refine (proj1 (@stored_shape_is_target stage stage symbolic_backend default_config
                   "conus" c13_store (c13_task RawRadiance) 0%R _ _ _ _ _)).
  - intros a. reflexivity.
  - intros a [[= <-]|[=]]. reflexivity.
  - left. apply list_elem_of_here.
  - left. reflexivity.
Defined.

Section NativeTargets.

Context {buf img : Type} `{Backend buf img}.

Lemma native_target_standard (cfg : config) (t : task buf) (dt : R) :
  task_target_shape t = Some (native_shape (task_raw_data t)) ->
  stored_arrays (standard_conus_worker cfg t dt) = returned (calibrate_enhance cfg t).
Proof.
  intros Htarget.
  unfold standard_conus_worker, standard_conus_body, calibrate_enhance.
  destruct (subscript (radiance (task_raw_data t))) as [rad|e]; [|reflexivity].
  cbn [obind]. rewrite Htarget, upscale_to_current. cbn [obind].
  destruct (calibrate _ _ rad) as [calibrated|e]; [|reflexivity].
  cbn [obind].
  destruct (enhance _ _ calibrated) as [enhanced|e]; [|reflexivity].
  cbn. destruct (compress cfg calibrated enhanced); reflexivity.
Qed.

Lemma native_target_level2 (cfg : config) (t : task buf) (dt : R) :
  task_target_shape t = Some (native_shape (task_raw_data t)) ->
  default "level1b"%string (data_level (task_raw_data t)) <> "level2"%string ->
  stored_arrays (level2_aware_worker cfg t dt) = returned (calibrate_enhance cfg t).
Proof.
  intros Htarget Hlevel.
  unfold level2_aware_worker, level2_aware_body, calibrate_enhance.
  destruct (String.eqb_spec (default "level1b"%string (data_level (task_raw_data t)))
              "level2") as [Heq|_]; [contradiction|].
  destruct (subscript (radiance (task_raw_data t))) as [rad|e]; [|reflexivity].
  cbn [obind].
  destruct (calibrate _ _ rad) as [calibrated|e]; [|reflexivity].
  cbn [obind]. rewrite Htarget, upscale_to_current. cbn [obind].
  destruct (enhance _ _ calibrated) as [enhanced|e]; [|reflexivity].
  cbn. destruct (compress cfg calibrated enhanced); reflexivity.
Qed.

(** X7. On the full-disk domain no Level 1b channel is resampled: for every
    task of the full-disk path, and for every task the Level 2 aware path
    builds for the full-disk domain, either worker stores the calibration
    of the raw radiance and its enhancement, so the two workers store the
    same arrays. *)
Theorem full_disk_never_resamples (cfg : config) (domain_type : string)
    (raw_data_store : list (string * raw_record buf)) (t : task buf) (dt dt' : R) :
  t ∈ full_disk_tasks domain_type raw_data_store \/
  t ∈ level2_tasks "full_disk" raw_data_store ->
  default "level1b"%string (data_level (task_raw_data t)) <> "level2"%string ->
  stored_arrays (standard_conus_worker cfg t dt) = returned (calibrate_enhance cfg t) /\
  stored_arrays (level2_aware_worker cfg t dt') = returned (calibrate_enhance cfg t).
Proof.
  intros Htask Hlevel.
  assert (Htarget : task_target_shape t = Some (native_shape (task_raw_data t))).
  { unfold full_disk_tasks, level2_tasks in Htask.
    destruct Htask as [Hin|Hin];
      apply list_elem_of_In, in_map_iff in Hin as ([code raw] & <- & _);
      cbn [task_target_shape task_raw_data fst snd]; [reflexivity|].
    apply target_shape_scale. reflexivity. }
  split; [apply native_target_standard | apply native_target_level2]; assumption.
Qed.

(** X8. A scene with no rows or no columns whose target shape differs from
    its native shape cannot be resampled: the zoom factor divides by the
    empty dimension, and the standard worker reports the channel as
    failed with that error. *)
Theorem empty_scene_fails (cfg : config) (t : task buf) (dt : R) (arr : ndarray buf)
    (target : shape_t) :
  radiance (task_raw_data t) = Some arr ->
  task_target_shape t = Some target ->
  target <> native_shape (task_raw_data t) ->
  fst (native_shape (task_raw_data t)) = 0%nat \/
  snd (native_shape (task_raw_data t)) = 0%nat ->
  standard_conus_worker cfg t dt = Failure (task_channel_code t) ZeroDivisionError dt.
Proof.
  intros Hrad Htarget Hne Hempty.
  unfold standard_conus_worker, standard_conus_body.
  rewrite Hrad, Htarget. cbn [subscript obind]. unfold upscale_if_needed.
  rewrite bool_decide_eq_false_2 by congruence.
  cbn [obind]. unfold py_truediv.
  destruct Hempty as [Hrows|Hcols].
  - rewrite Hrows. reflexivity.
  - rewrite Hcols.
    destruct (Z.eqb_spec (Z.of_nat (fst (native_shape (task_raw_data t)))) 0);
      reflexivity.
Qed.

End NativeTargets.

Lemma full_disk_never_resamples_witness :
  stored_arrays
    (@standard_conus_worker stage stage symbolic_backend default_config
       {| task_channel_code := "C13";
          task_raw_data := ir_record RawRadiance (1, 1)%nat;
          task_target_shape := Some (1, 1)%nat;
          task_reference_shape := Some (1, 1)%nat;
          task_domain_type := "full_disk" |} 0%R) =
  Some (MkArray (1, 1)%nat (Calibrated RawRadiance),
        MkArray (1, 1)%nat (EnhancedFrom (Calibrated RawRadiance))).
Proof.
  refine (proj1 (@full_disk_never_resamples stage stage symbolic_backend default_config
                   "full_disk" c13_store _ 0%R 0%R _ _)).
  - left. apply list_elem_of_here.
  - simpl. discriminate.
Defined.

Lemma empty_scene_fails_witness :
  @standard_conus_worker stage stage symbolic_backend default_config empty_scene_task 0%R =
  Failure "C13" ZeroDivisionError 0%R.
Proof.
  apply (@empty_scene_fails stage stage symbolic_backend default_config empty_scene_task
           0%R (MkArray (0, 5)%nat RawRadiance) (0, 20)%nat).
  - reflexivity.
  - reflexivity.
  - discriminate.
  - left. reflexivity.
Defined.

(** ** What aggregation leaves in the store *)

Section Tally.

Context {buf img : Type}.

Lemma fold_merge_invariants (results : list (worker_result buf img)) (acc : @tally buf img) :
  let out := fold_left merge_result results acc in
  successful out = successful acc + length (success_codes results) /\
  failed out = failed acc + failure_count results /\
  dom (channels (data_store out)) =
    dom (channels (data_store acc)) ∪ list_to_set (success_codes results) /\
  dom (metadata (data_store out)) =
    dom (metadata (data_store acc)) ∪ list_to_set (success_codes results) /\
  solar_angles (data_store out) = solar_angles (data_store acc) /\
  (forall c, store_coordinates (data_store out) = Some c ->
     store_coordinates (data_store acc) = Some c \/
     exists s, Success s ∈ results /\ coordinates_from c s).
Proof.
  revert acc. induction results as [|result results IH]; intros acc; cbn [fold_left].
  - cbn. rewrite !Nat.add_0_r, !union_empty_r_L. repeat split; auto.
  - destruct (IH (merge_result acc result)) as (Hok & Hko & Hchan & Hmeta & Hsolar & Hcoord).
    cbv zeta. rewrite Hok, Hko, Hchan, Hmeta, Hsolar.
    destruct result as [s|code e dt].
    + cbn [success_codes failure_count length merge_result successful failed data_store].
      assert (Hstore : forall st : ChannelDataStore buf img,
        channels (match res_coordinate_data s with
                  | Some coord_data =>
                      store_coordinate_data st (x_coords coord_data) (y_coords coord_data)
                        (projection_info coord_data)
                  | None => st
                  end) = channels st /\
        metadata (match res_coordinate_data s with
                  | Some coord_data =>
                      store_coordinate_data st (x_coords coord_data) (y_coords coord_data)
                        (projection_info coord_data)
                  | None => st
                  end) = metadata st /\
        solar_angles (match res_coordinate_data s with
                      | Some coord_data =>
                          store_coordinate_data st (x_coords coord_data) (y_coords coord_data)
                            (projection_info coord_data)
                      | None => st
                      end) = solar_angles st).
      { intros st. destruct (res_coordinate_data s); repeat split; reflexivity. }
      destruct (Hstore (store_channel (data_store acc) (res_channel_code s)
                          (res_calibrated_data s) (res_enhanced_data s) (res_channel_type s)
                          (res_metadata s) (res_processing_time s))) as (-> & -> & ->).
      cbn [store_channel channels metadata solar_angles].
      rewrite !dom_insert_L, list_to_set_cons.
      split; [lia|]. split; [reflexivity|].
      assert (Hunion : forall X Y : gset string,
                {[res_channel_code s]} ∪ X ∪ Y = X ∪ ({[res_channel_code s]} ∪ Y)).
      { intros X Y. rewrite (union_comm_L {[res_channel_code s]} X).
        symmetry. apply union_assoc_L. }
      split; [apply Hunion|]. split; [apply Hunion|]. split; [reflexivity|].
      intros c Hc. destruct (Hcoord c Hc) as [Hmerged|(s' & Hin & Hfrom)].
      * cbn [merge_result data_store] in Hmerged.
        destruct (res_coordinate_data s) as [c'|] eqn:Hs.
        -- right. exists s. split; [apply list_elem_of_here|].
           exists c'. split; [exact Hs|].
           cbn [store_coordinate_data store_coordinates] in Hmerged. congruence.
        -- left. exact Hmerged.
      * right. exists s'. split; [apply list_elem_of_further; exact Hin | exact Hfrom].
    + cbn [success_codes failure_count merge_result successful failed data_store].
      split; [reflexivity|]. split; [lia|].
      split; [reflexivity|]. split; [reflexivity|]. split; [reflexivity|].
      intros c Hc. destruct (Hcoord c Hc) as [Hmerged|(s' & Hin & Hfrom)].
      * left. exact Hmerged.
      * right. exists s'. split; [apply list_elem_of_further; exact Hin | exact Hfrom].
Qed.

(** X9. After aggregation every task is counted once, as a success or as a
    failure; the store holds an entry and a metadata record for exactly
    the channel codes of the successful results; any coordinates in the
    store come from a successful result and are filed under the primary
    channel C02, whichever channel supplied them; no solar angles are
    stored yet. *)
Theorem aggregate_tally (worker : task buf -> R -> worker_result buf img) (r : @run buf) :
  let results := map (fun tr => worker (fst tr) (snd tr)) r in
  let acc := aggregate worker r in
  successful acc = length (success_codes results) /\
  failed acc = failure_count results /\
  successful acc + failed acc = length r /\
  dom (channels (data_store acc)) = list_to_set (success_codes results) /\
  dom (metadata (data_store acc)) = list_to_set (success_codes results) /\
  solar_angles (data_store acc) = None /\
  (forall c, store_coordinates (data_store acc) = Some c ->
     primary_channel c = "C02"%string /\
     exists s, Success s ∈ results /\ coordinates_from c s).
Proof.
  intros results acc. subst acc. unfold aggregate. fold results.
  destruct (fold_merge_invariants results new_tally)
    as (Hok & Hko & Hchan & Hmeta & Hsolar & Hcoord).
  cbv zeta in *. cbn [new_tally successful failed data_store new_store channels metadata
                       solar_angles store_coordinates] in *.
  rewrite dom_empty_L, union_empty_l_L in Hchan.
  rewrite dom_empty_L, union_empty_l_L in Hmeta.
  split; [exact Hok|]. split; [exact Hko|]. split.
  - rewrite Hok, Hko. cbn. subst results.
    clear. induction r as [|[t dt] r IH]; cbn [map success_codes failure_count length];
      [reflexivity|].
    cbn [fst snd]. destruct (worker t dt); cbn [success_codes failure_count length]; lia.
  - split; [exact Hchan|]. split; [exact Hmeta|]. split; [exact Hsolar|].
    intros c Hc. destruct (Hcoord c Hc) as [Hnone|(s & Hin & Hfrom)]; [discriminate|].
    split; [|exists s; split; assumption].
    destruct Hfrom as (c' & _ & ->). reflexivity.
Qed.

End Tally.

(** ** What the RGB loop reports and stores *)

Lemma elem_of_concat_map {A B : Type} (f : A -> list B) (l : list A) (b : B) :
  b ∈ concat (map f l) <-> exists a, a ∈ l /\ b ∈ f a.
Proof.
  rewrite list_elem_of_In, <- flat_map_concat_map, in_flat_map. split.
  - intros (a & Ha & Hb). exists a. split; apply list_elem_of_In; assumption.
  - intros (a & Ha & Hb). exists a. split; apply list_elem_of_In; assumption.
Qed.

Section RGBReports.

Context {img rgb : Type}.
Variable worker_impl : string -> @worker_fn img rgb.

Lemma select_fold_log (available : gset string) (requested : list string)
    (acc : list string * list report) :
  snd (fold_left (select_product available) requested acc) =
  snd acc ++ map (selection_report available) requested.
Proof.
  revert acc. induction requested as [|p requested IH]; intros acc; cbn [fold_left map].
  - symmetry. apply app_nil_r.
  - rewrite IH. unfold select_product, selection_report.
    destruct (dict_get p RGB_CATALOG) as [entry|];
      [destruct (missing_from (cat_channels entry) available)|];
      cbn [snd]; rewrite <- app_assoc; reflexivity.
Qed.

Lemma build_fold_reports (channels_data : @channels_data_t img)
    (solar_angles_data : option solar_angles_t) (l : list string)
    (acc : UnifiedRGBDataStore rgb * list report) :
  snd (fold_left (build_product worker_impl channels_data solar_angles_data) l acc) =
  snd acc ++ concat (map (build_reports worker_impl channels_data solar_angles_data) l).
Proof.
  revert acc. induction l as [|p l IH]; intros acc; cbn [fold_left map concat].
  - symmetry. apply app_nil_r.
  - rewrite IH. unfold build_product, build_reports.
    destruct (dict_get p RGB_CATALOG) as [info|] eqn:Hinfo.
    + rewrite (catalog_worker_lookup worker_impl p info Hinfo).
      destruct (worker_impl (cat_worker info) channels_data solar_angles_data)
        as [[rgb_data method|error]|e]; cbn [snd app]; rewrite <- !app_assoc; reflexivity.
    + cbn [snd app]. rewrite <- !app_assoc. reflexivity.
Qed.

Lemma selection_report_cases (available : gset string) (name : string) (r : report) :
  selection_report available name = r ->
  match r with
  | AllChannelsAvailable n =>
      n = name /\ exists entry, dict_get name RGB_CATALOG = Some entry /\
                                missing_from (cat_channels entry) available = []
  | MissingChannels n m =>
      n = name /\ m <> [] /\
      exists entry, dict_get name RGB_CATALOG = Some entry /\
                    missing_from (cat_channels entry) available = m
  | UnknownProduct n => n = name /\ dict_get name RGB_CATALOG = None
  | _ => False
  end.
Proof.
  unfold selection_report. intros <-.
  destruct (dict_get name RGB_CATALOG) as [entry|]; [|auto].
  destruct (missing_from (cat_channels entry) available) eqn:Hm.
  - split; [reflexivity|]. eauto.
  - split; [reflexivity|]. split; [discriminate|]. eauto.
Qed.

Lemma build_reports_cases (channels_data : @channels_data_t img)
    (solar_angles_data : option solar_angles_t) (p : string) (r : report) :
  r ∈ build_reports worker_impl channels_data solar_angles_data p ->
  match r with
  | Creating n | Created n | ProductFailed n _ | ProductException n _ => n = p
  | _ => False
  end.
Proof.
  unfold build_reports. intros Hin.
  apply elem_of_cons in Hin as [->|Hin]; [reflexivity|].
  destruct (dict_get p RGB_CATALOG) as [info|].
  - destruct (worker_impl (cat_worker info) channels_data solar_angles_data)
      as [[rgb_data method|error]|e];
      apply list_elem_of_singleton in Hin as ->; reflexivity.
  - apply elem_of_nil in Hin. contradiction.
Qed.

(** X10. What the product loop prints and stores, for any request and any
    store.  It never reports a missing worker: every worker the catalog
    names is registered.  A name is reported as unknown exactly when it
    is requested and not in the catalog.  A product is attempted exactly
    when it is requested, in the catalog and has all its channels.  A
    stored product was attempted and is the array its own worker
    returned.  The loop says that nothing can be created exactly when no
    requested name can be attempted, and then the store is empty. *)
Theorem rgb_loop_reports (RGB_PRODUCTS_TO_CREATE : option (list string))
    (memory_store : @memory_store_t img) :
  let out := create_rgb_products_unified worker_impl RGB_PRODUCTS_TO_CREATE memory_store in
  let requested := requested_products_of RGB_PRODUCTS_TO_CREATE in
  let available := dom (ms_channels memory_store) in
  (forall worker_name, WorkerNotFound worker_name ∈ snd out -> False) /\
  (forall name,
     UnknownProduct name ∈ snd out <->
     name ∈ requested /\ dict_get name RGB_CATALOG = None) /\
  (forall name, Creating name ∈ snd out <-> selectable available requested name) /\
  (forall name rgb_data,
     rgb_products (fst out) !! name = Some rgb_data ->
     Creating name ∈ snd out /\
     exists entry method,
       dict_get name RGB_CATALOG = Some entry /\
       worker_impl (cat_worker entry) (ms_channels memory_store)
         (ms_solar_angles memory_store) = Returned (RGBSuccess rgb_data method)) /\
  (NoProductsPossible ∈ snd out <->
   forall name, selectable available requested name -> False) /\
  (NoProductsPossible ∈ snd out -> rgb_products (fst out) = ∅).
Proof.
  intros out requested available. subst out.
  unfold create_rgb_products_unified. fold available requested.
  destruct (select_fold available requested ([], [])) as (Hposs & _ & _).
  cbn zeta in Hposs. cbn zeta.
  pose proof (select_fold_log available requested ([], [])) as Hlog.
  cbn [snd app] in Hlog.
  set (selected := fold_left (select_product available) requested ([], [])) in *.
  assert (Hposs' : forall name, name ∈ fst selected <-> selectable available requested name).
  { intros name. rewrite Hposs. unfold selectable. split; [|auto].
    intros [Hin|Hsel]; [apply elem_of_nil in Hin; contradiction | exact Hsel]. }
  assert (Hselection : forall r, r ∈ snd selected ->
            exists name, name ∈ requested /\ selection_report available name = r).
  { intros r Hr. rewrite Hlog in Hr. apply list_elem_of_fmap in Hr as (name & -> & Hname).
    eauto. }
  destruct (fst selected) as [|p possible] eqn:Hpossible.
  - cbn [fst snd].
    assert (Hnone : forall name, selectable available requested name -> False).
    { intros name Hsel. apply Hposs' in Hsel. apply elem_of_nil in Hsel. contradiction. }
    split; [|split; [|split; [|split; [|split]]]].
    + intros w Hin. apply elem_of_app in Hin as [Hin|Hin].
      * destruct (Hselection _ Hin) as (name & _ & Hrep).
        apply selection_report_cases in Hrep. contradiction.
      * apply list_elem_of_singleton in Hin. discriminate.
    + intros name. split.
      * intros Hin. apply elem_of_app in Hin as [Hin|Hin].
        -- destruct (Hselection _ Hin) as (name' & Hreq & Hrep).
           apply selection_report_cases in Hrep as [-> Hcat]. auto.
        -- apply list_elem_of_singleton in Hin. discriminate.
      * intros [Hreq Hcat]. apply elem_of_app. left. rewrite Hlog.
        apply list_elem_of_fmap. exists name. split; [|exact Hreq].
        unfold selection_report. rewrite Hcat. reflexivity.
    + intros name. split; [|intros Hsel; destruct (Hnone name Hsel)].
      intros Hin. apply elem_of_app in Hin as [Hin|Hin].
      * destruct (Hselection _ Hin) as (name' & _ & Hrep).
        apply selection_report_cases in Hrep. contradiction.
      * apply list_elem_of_singleton in Hin. discriminate.
    + intros name rgb_data Hlookup. cbn [new_rgb_store rgb_products] in Hlookup.
      rewrite lookup_empty in Hlookup. discriminate.
    + split; [intros _; exact Hnone|].
      intros _. apply elem_of_app. right. apply list_elem_of_here.
    + reflexivity.
  - rewrite build_fold_reports. cbn [fst snd].
    set (channels_data := ms_channels memory_store).
    set (solar_angles_data := ms_solar_angles memory_store).
    assert (Hbuilt : forall r,
              r ∈ concat (map (build_reports worker_impl channels_data solar_angles_data)
                            (p :: possible)) ->
              exists name, name ∈ p :: possible /\
                r ∈ build_reports worker_impl channels_data solar_angles_data name).
    { intros r Hr. apply elem_of_concat_map in Hr. exact Hr. }
    split; [|split; [|split; [|split; [|split]]]].
    + intros w Hin. apply elem_of_app in Hin as [Hin|Hin].
      * destruct (Hselection _ Hin) as (name & _ & Hrep).
        apply selection_report_cases in Hrep. contradiction.
      * destruct (Hbuilt _ Hin) as (name & _ & Hrep).
        apply build_reports_cases in Hrep. contradiction.
    + intros name. split.
      * intros Hin. apply elem_of_app in Hin as [Hin|Hin].
        -- destruct (Hselection _ Hin) as (name' & Hreq & Hrep).
           apply selection_report_cases in Hrep as [-> Hcat]. auto.
        -- destruct (Hbuilt _ Hin) as (name' & _ & Hrep).
           apply build_reports_cases in Hrep. contradiction.
      * intros [Hreq Hcat]. apply elem_of_app. left. rewrite Hlog.
        apply list_elem_of_fmap. exists name. split; [|exact Hreq].
        unfold selection_report. rewrite Hcat. reflexivity.
    + intros name. rewrite <- Hposs'. split.
      * intros Hin. apply elem_of_app in Hin as [Hin|Hin].
        -- destruct (Hselection _ Hin) as (name' & _ & Hrep).
           apply selection_report_cases in Hrep. contradiction.
        -- destruct (Hbuilt _ Hin) as (name' & Hname & Hrep).
           apply build_reports_cases in Hrep as ->. exact Hname.
      * intros Hin. apply elem_of_app. right. apply elem_of_concat_map.
        exists name. split; [exact Hin | apply list_elem_of_here].
    + intros name rgb_data Hlookup.
      destruct (decide (name ∈ p :: possible)) as [Hin|Hnot].
      * rewrite (build_fold_member worker_impl _ _ _ _ _ Hin) in Hlookup.
        cbn [fst new_rgb_store rgb_products] in Hlookup. rewrite lookup_empty in Hlookup.
        split.
        -- apply elem_of_app. right. apply elem_of_concat_map.
           exists name. split; [exact Hin | apply list_elem_of_here].
        -- unfold built in Hlookup.
           destruct (dict_get name RGB_CATALOG) as [entry|]; [|discriminate].
           destruct (worker_impl (cat_worker entry) channels_data solar_angles_data)
             as [[rgb_data' method|error]|e] eqn:Hworker; try discriminate.
           injection Hlookup as ->.
           exists entry, method. split; [reflexivity | exact Hworker].
      * rewrite (build_fold_other worker_impl _ _ _ _ _ Hnot) in Hlookup.
        cbn [fst new_rgb_store rgb_products] in Hlookup. rewrite lookup_empty in Hlookup.
        discriminate.
    + split.
      * intros Hin. exfalso. apply elem_of_app in Hin as [Hin|Hin].
        -- destruct (Hselection _ Hin) as (name' & _ & Hrep).
           apply selection_report_cases in Hrep. contradiction.
        -- destruct (Hbuilt _ Hin) as (name' & _ & Hrep).
           apply build_reports_cases in Hrep. contradiction.
      * intros Hnone. exfalso. apply (Hnone p), Hposs'. apply list_elem_of_here.
    + intros Hin. exfalso. apply elem_of_app in Hin as [Hin|Hin].
      * destruct (Hselection _ Hin) as (name' & _ & Hrep).
        apply selection_report_cases in Hrep. contradiction.
      * destruct (Hbuilt _ Hin) as (name' & _ & Hrep).
        apply build_reports_cases in Hrep. contradiction.
Qed.

End RGBReports.

(** ** The products on offer are the products attempted *)

Lemma missing_from_nil (required : list string) (available : gset string) :
  missing_from required available = [] <->
  forallb (fun ch => bool_decide (ch ∈ available)) required = true.
Proof.
  unfold missing_from. induction required as [|ch required IH]; [tauto|].
  rewrite filter_cons. cbn [forallb].
  destruct (decide (ch ∉ available)) as [Hnot|Hin].
  - rewrite bool_decide_eq_false_2 by exact Hnot. split; discriminate.
  - rewrite bool_decide_eq_true_2 by (destruct (decide (ch ∈ available)); tauto).
    exact IH.
Qed.

Lemma catalog_self_lookup :
  Forall (fun kv : string * catalog_entry => dict_get (fst kv) RGB_CATALOG = Some (snd kv))
    RGB_CATALOG.
Proof.
  unfold RGB_CATALOG. repeat (constructor; [vm_compute; reflexivity|]). constructor.
Qed.

Lemma select_catalog_fold (available : gset string) (l : list (string * catalog_entry))
    (acc : list string * list report) :
  Forall (fun kv : string * catalog_entry => dict_get (fst kv) RGB_CATALOG = Some (snd kv)) l ->
  fst (fold_left (select_product available) (map fst l) acc) =
  fold_left
    (fun (products : list string) (item : string * catalog_entry) =>
       if forallb (fun ch => bool_decide (ch ∈ available)) (cat_channels (snd item))
       then products ++ [fst item]
       else products)
    l (fst acc).
Proof.
  revert acc. induction l as [|[name entry] l IH]; intros acc Hall; [reflexivity|].
  apply Forall_cons in Hall as [Hname Hall]. cbn [map fold_left fst snd] in *.
  rewrite (IH _ Hall). f_equal. unfold select_product. rewrite Hname.
  pose proof (missing_from_nil (cat_channels entry) available) as Hnil.
  destruct (missing_from (cat_channels entry) available) as [|ch rest].
  - rewrite (proj1 Hnil eq_refl). reflexivity.
  - destruct (forallb _ (cat_channels entry)); [|reflexivity].
    destruct Hnil as [_ Hnil]. discriminate (Hnil eq_refl).
Qed.

Lemma attempted_app (l1 l2 : list report) : attempted (l1 ++ l2) = attempted l1 ++ attempted l2.
Proof.
  induction l1 as [|r l1 IH]; [reflexivity|].
  destruct r; cbn [app attempted]; rewrite IH; reflexivity.
Qed.

Section Offer.

Context {img rgb : Type}.
Variable worker_impl : string -> @worker_fn img rgb.

Lemma attempted_selection (available : gset string) (requested : list string) :
  attempted (map (selection_report available) requested) = [].
Proof.
  induction requested as [|name requested IH]; [reflexivity|].
  cbn [map]. unfold selection_report at 1.
  destruct (dict_get name RGB_CATALOG) as [entry|];
    [destruct (missing_from (cat_channels entry) available)|]; exact IH.
Qed.

Lemma attempted_built (channels_data : @channels_data_t img)
    (solar_angles_data : option solar_angles_t) (l : list string) :
  attempted (concat (map (build_reports worker_impl channels_data solar_angles_data) l)) = l.
Proof.
  induction l as [|p l IH]; [reflexivity|].
  cbn [map concat]. rewrite attempted_app, IH. unfold build_reports.
  destruct (dict_get p RGB_CATALOG) as [info|]; [|reflexivity].
  destruct (worker_impl (cat_worker info) channels_data solar_angles_data)
    as [[rgb_data method|error]|e]; reflexivity.
Qed.


Lemma create_log (RGB_PRODUCTS_TO_CREATE : option (list string))
    (memory_store : @memory_store_t img) :
  let available := dom (ms_channels memory_store) in
  let requested := requested_products_of RGB_PRODUCTS_TO_CREATE in
  let possible := fst (fold_left (select_product available) requested ([], [])) in
  snd (create_rgb_products_unified worker_impl RGB_PRODUCTS_TO_CREATE memory_store) =
  map (selection_report available) requested ++
  match possible with
  | [] => [NoProductsPossible]
  | _ =>
      concat (map (build_reports worker_impl (ms_channels memory_store)
                     (ms_solar_angles memory_store)) possible)
  end.
Proof.
  intros available requested possible. unfold create_rgb_products_unified.
  fold available requested. cbv zeta. fold possible.
  pose proof (select_fold_log available requested ([], [])) as Hlog.
  cbn [snd app] in Hlog.
  destruct possible as [|p possible'].
  - cbn [snd]. rewrite Hlog. reflexivity.
  - rewrite build_fold_reports. cbn [snd]. rewrite Hlog. reflexivity.
Qed.

Lemma attempted_create (RGB_PRODUCTS_TO_CREATE : option (list string))
    (memory_store : @memory_store_t img) :
  attempted (snd (create_rgb_products_unified worker_impl RGB_PRODUCTS_TO_CREATE
                    memory_store)) =
  fst (fold_left (select_product (dom (ms_channels memory_store)))
         (requested_products_of RGB_PRODUCTS_TO_CREATE) ([], [])).
Proof.
  rewrite create_log. cbv zeta. rewrite attempted_app, attempted_selection.
  destruct (fst (fold_left _ _ _)) as [|p possible]; [reflexivity|].
  apply attempted_built.
Qed.

Lemma available_selection (memory_store : @memory_store_t img) :
  fst (fold_left (select_product (dom (ms_channels memory_store)))
         (dict_keys RGB_CATALOG) ([], [])) =
  get_available_products memory_store.
Proof.
  exact (select_catalog_fold (dom (ms_channels memory_store)) RGB_CATALOG ([], [])
           catalog_self_lookup).
Qed.

(** X11. When no particular product is requested ([RGB_PRODUCTS_TO_CREATE] is
    [None] or the empty list), the products the loop attempts are, in
    order, the ones [get_available_products] offers. *)
Theorem attempted_are_available (memory_store : @memory_store_t img) :
  attempted (snd (create_rgb_products_unified worker_impl None memory_store)) =
    get_available_products memory_store /\
  attempted (snd (create_rgb_products_unified worker_impl (Some []) memory_store)) =
    get_available_products memory_store.
Proof.
  split; rewrite attempted_create; apply available_selection.
Qed.

End Offer.

(** ** The workers behind the registry *)

Section RegisteredWorkers.

Context {img land_mask : Type} `{Compositing land_mask}.

(** The frame of a worker: the missing required channels are reported, in
    the order of the worker's list, before anything is computed; with all
    of them present the result is the array of the body, or the exception
    the body raised, as a failure. *)
Lemma rgb_worker_frame (required : list string) (method : string)
    (channels_data : @channels_data_t img) (body : outcome rgb_image) :
  (missing_in required channels_data <> [] ->
   rgb_worker required method channels_data body =
     RGBFailure (MissingChannelsError (missing_in required channels_data))) /\
  (missing_in required channels_data = [] ->
   rgb_worker required method channels_data body =
     match body with
     | Returned output => RGBSuccess output method
     | Raised e => RGBFailure (WorkerException e)
     end).
Proof.
  unfold rgb_worker. destruct (missing_in required channels_data) as [|ch rest].
  - split; [congruence|]. intros _. destruct body; reflexivity.
  - split; [reflexivity | discriminate].
Qed.

Lemma missing_in_subset (required catalog_channels : list string)
    (channels_data : @channels_data_t img) :
  required ⊆ catalog_channels ->
  missing_from catalog_channels (dom channels_data) = [] ->
  missing_in required channels_data = [].
Proof.
  intros Hsub Hnone. unfold missing_in, missing_from in *.
  induction required as [|ch required IH]; [reflexivity|].
  rewrite filter_cons.
  destruct (decide (ch ∉ dom channels_data)) as [Hmissing|_].
  - exfalso. apply (filter_nil_not_elem_of _ _ ch Hnone Hmissing).
    apply Hsub. apply list_elem_of_here.
  - apply IH. intros x Hx. apply Hsub. apply list_elem_of_further. exact Hx.
Qed.

Ltac solve_sublist :=
  let x := fresh "x" in
  let Hx := fresh "Hx" in
  intros x Hx;
  repeat (apply elem_of_cons in Hx as [->|Hx]; [repeat constructor|]);
  apply elem_of_nil in Hx; contradiction.

Ltac run_worker :=
  unfold try_worker;
  repeat match goal with
         | |- context [obind ?m _] => destruct m; cbn [obind]
         | |- context [match ?m with Returned _ => _ | Raised _ => _ end] => destruct m
         end.

(** A worker the registry names, called on channels that include all the
    channels the catalog lists for the product, returns; what it returns
    is never a missing-channels failure. *)
Lemma catalog_channels_suffice :
  Forall (fun kv : string * catalog_entry =>
            forall (channels_data : @channels_data_t img)
                   (solar_angles_data : option solar_angles_t),
              missing_from (cat_channels (snd kv)) (dom channels_data) = [] ->
              exists result,
                registered_worker (cat_worker (snd kv)) channels_data solar_angles_data =
                  Returned result /\
                forall missing, result <> RGBFailure (MissingChannelsError missing))
    RGB_CATALOG.
Proof.
  unfold RGB_CATALOG.
  repeat (constructor;
    [intros channels_data solar_angles_data Hcatalog; cbn [snd cat_channels cat_worker] in *;
     eexists; split; [reflexivity|]; intros missing|]); [..|constructor].
  all: unfold rgb_worker_geocolor, rgb_worker_cloud_microphysics,
         rgb_worker_sandwich_optimized, rgb_worker_true_color, rgb_worker_day_cloud_phase,
         rgb_worker_split_window_optimized, rgb_worker_day_snow_fog_night_fog_core,
         rgb_worker_airmass, rgb_worker_dust, rgb_worker_fire_temperature,
         rgb_worker_night_microphysics, rgb_worker_ash, rgb_worker_day_snow_fog,
         rgb_worker_differential_water_vapor, rgb_worker_split_window_difference,
         rgb_worker_simple_water_vapor, rgb_worker_day_land_cloud_fire, rgb_worker.
  all: match goal with
       | Hc : missing_from _ _ = [] |- context [missing_in ?required ?cd] =>
           rewrite (missing_in_subset required _ cd ltac:(solve_sublist) Hc)
       end.
  all: run_worker; discriminate.
Qed.

Lemma registered_build_reports (channels_data : @channels_data_t img)
    (solar_angles_data : option solar_angles_t) (p : string) (entry : catalog_entry) :
  dict_get p RGB_CATALOG = Some entry ->
  missing_from (cat_channels entry) (dom channels_data) = [] ->
  build_reports registered_worker channels_data solar_angles_data p =
    [Creating p; Created p] \/
  exists e,
    build_reports registered_worker channels_data solar_angles_data p =
      [Creating p; ProductFailed p (WorkerException e)].
Proof.
  intros Hentry Hnone.
  pose proof catalog_channels_suffice as Hall. rewrite Forall_forall in Hall.
  destruct (Hall _ (dict_get_elem_of _ _ _ Hentry) channels_data solar_angles_data Hnone)
    as (result & Hresult & Hnot_missing).
  unfold build_reports. rewrite Hentry. cbn [snd] in Hresult. rewrite Hresult.
  destruct result as [rgb_data method|[missing|e]].
  - left. reflexivity.
  - destruct (Hnot_missing missing eq_refl).
  - right. exists e. reflexivity.
Qed.

(** X12. With the workers of the registry, the loop never reaches its own
    exception handler, since every worker catches what it raises; and a
    product the loop attempts never fails for missing channels, since the
    channels a worker requires are among those the catalog lists for its
    product.  An attempted product is created, or fails with the
    exception its worker caught. *)
Theorem loop_failures_are_worker_exceptions (RGB_PRODUCTS_TO_CREATE : option (list string))
    (memory_store : @memory_store_t img) :
  let out :=
    create_rgb_products_unified registered_worker RGB_PRODUCTS_TO_CREATE memory_store in
  (forall name e, ProductException name e ∈ snd out -> False) /\
  (forall name error,
     ProductFailed name error ∈ snd out -> exists e, error = WorkerException e) /\
  (forall name,
     Creating name ∈ snd out ->
     Created name ∈ snd out \/
     exists e, ProductFailed name (WorkerException e) ∈ snd out).
Proof.
  cbv zeta. rewrite create_log. cbv zeta.
  set (available := dom (ms_channels memory_store)).
  set (requested := requested_products_of RGB_PRODUCTS_TO_CREATE).
  destruct (select_fold available requested ([], [])) as (Hposs & _ & _).
  cbn zeta in Hposs.
  set (possible := fst (fold_left (select_product available) requested ([], []))) in *.
  set (built_log :=
         match possible with
         | [] => [NoProductsPossible]
         | _ :: _ =>
             concat (map (build_reports registered_worker (ms_channels memory_store)
                            (ms_solar_angles memory_store)) possible)
         end).
  assert (Hselection : forall r, r ∈ map (selection_report available) requested ->
            match r with
            | AllChannelsAvailable _ | MissingChannels _ _ | UnknownProduct _ => True
            | _ => False
            end).
  { intros r Hr. apply list_elem_of_fmap in Hr as (name & -> & _).
    unfold selection_report.
    destruct (dict_get name RGB_CATALOG) as [entry|];
      [destruct (missing_from (cat_channels entry) available)|]; exact I. }
  assert (Hbuilt : forall r, r ∈ built_log ->
            r = NoProductsPossible \/
            exists p, p ∈ possible /\
              (r ∈ [Creating p; Created p] /\
               build_reports registered_worker (ms_channels memory_store)
                 (ms_solar_angles memory_store) p = [Creating p; Created p] \/
               exists e,
                 r ∈ [Creating p; ProductFailed p (WorkerException e)] /\
                 build_reports registered_worker (ms_channels memory_store)
                   (ms_solar_angles memory_store) p =
                   [Creating p; ProductFailed p (WorkerException e)])).
  { intros r Hr. subst built_log. destruct possible as [|p0 possible0] eqn:Hpossible.
    - left. apply list_elem_of_singleton in Hr. exact Hr.
    - right. apply elem_of_concat_map in Hr as (p & Hp & Hr). exists p.
      split; [exact Hp|].
      apply Hposs in Hp as [Hnil|(_ & entry & Hentry & Hnone)];
        [apply elem_of_nil in Hnil; contradiction|].
      destruct (registered_build_reports (ms_channels memory_store)
                  (ms_solar_angles memory_store) p entry Hentry Hnone) as [Hok|(e & Hko)].
      + left. rewrite <- Hok. auto.
      + right. exists e. rewrite <- Hko. auto. }
  assert (Hback : forall p r,
            p ∈ possible ->
            r ∈ build_reports registered_worker (ms_channels memory_store)
                  (ms_solar_angles memory_store) p ->
            r ∈ built_log).
  { intros p r Hp Hr. subst built_log. destruct possible as [|p0 possible0] eqn:Hpossible.
    - apply elem_of_nil in Hp. contradiction.
    - apply elem_of_concat_map. exists p. auto. }
  split; [|split].
  - intros name e Hin. apply elem_of_app in Hin as [Hin|Hin].
    + exact (Hselection _ Hin).
    + destruct (Hbuilt _ Hin) as [Hr|(p & _ & [[Hr _]|(e' & Hr & _)])]; [discriminate| |].
      * repeat (apply elem_of_cons in Hr as [Hr|Hr]; [discriminate|]).
        apply elem_of_nil in Hr. contradiction.
      * repeat (apply elem_of_cons in Hr as [Hr|Hr]; [discriminate|]).
        apply elem_of_nil in Hr. contradiction.
  - intros name error Hin. apply elem_of_app in Hin as [Hin|Hin].
    + destruct (Hselection _ Hin).
    + destruct (Hbuilt _ Hin) as [Hr|(p & _ & [[Hr _]|(e' & Hr & _)])]; [discriminate| |].
      * repeat (apply elem_of_cons in Hr as [Hr|Hr]; [discriminate|]).
        apply elem_of_nil in Hr. contradiction.
      * apply elem_of_cons in Hr as [Hr|Hr]; [discriminate|].
        apply list_elem_of_singleton in Hr. injection Hr as _ ->. eauto.
  - intros name Hin. apply elem_of_app in Hin as [Hin|Hin].
    + destruct (Hselection _ Hin).
    + destruct (Hbuilt _ Hin) as [Hr|(p & Hp & [[Hr Hreports]|(e' & Hr & Hreports)])];
        [discriminate| |].
      * apply elem_of_cons in Hr as [Hr|Hr];
          [|apply list_elem_of_singleton in Hr; discriminate].
        injection Hr as ->. left. apply elem_of_app. right.
        apply (Hback p _ Hp). rewrite Hreports. repeat constructor.
      * apply elem_of_cons in Hr as [Hr|Hr];
          [|apply list_elem_of_singleton in Hr; discriminate].
        injection Hr as ->. right. exists e'. apply elem_of_app. right.
        apply (Hback p _ Hp). rewrite Hreports. repeat constructor.
Qed.

End RegisteredWorkers.

(** ** The workers' own channel check and defaults *)

Section WorkerChecks.

Context {img land_mask : Type} `{Compositing land_mask}.

Local Open Scope R_scope.

(** Called on a store that lacks some of the channels the catalog lists
    for its product, a worker of the registry computes nothing and
    reports exactly those channels, in the catalog's order: the worker's
    own list of required channels is the catalog's. *)
Lemma workers_report_catalog_channels :
  Forall (fun kv : string * catalog_entry =>
            forall (channels_data : @channels_data_t img)
                   (solar_angles_data : option solar_angles_t),
              missing_from (cat_channels (snd kv)) (dom channels_data) <> [] ->
              registered_worker (cat_worker (snd kv)) channels_data solar_angles_data =
                Returned
                  (RGBFailure
                     (MissingChannelsError
                        (missing_from (cat_channels (snd kv)) (dom channels_data)))))
    RGB_CATALOG.
Proof.
  unfold RGB_CATALOG.
  repeat (constructor;
    [intros channels_data solar_angles_data Hcatalog; cbn [snd cat_channels cat_worker] in *;
     unfold registered_worker; cbn [dict_get String.eqb Ascii.eqb Bool.eqb]|]);
    [..|constructor].
  all: f_equal.
  all: unfold rgb_worker_geocolor, rgb_worker_cloud_microphysics,
         rgb_worker_sandwich_optimized, rgb_worker_true_color, rgb_worker_day_cloud_phase,
         rgb_worker_split_window_optimized, rgb_worker_day_snow_fog_night_fog_core,
         rgb_worker_airmass, rgb_worker_dust, rgb_worker_fire_temperature,
         rgb_worker_night_microphysics, rgb_worker_ash, rgb_worker_day_snow_fog,
         rgb_worker_differential_water_vapor, rgb_worker_split_window_difference,
         rgb_worker_simple_water_vapor, rgb_worker_day_land_cloud_fire, rgb_worker.
  all: match goal with
       | Hc : missing_from ?required (dom ?cd) <> [] |- _ =>
           change (missing_in required cd) with (missing_from required (dom cd));
           destruct (missing_from required (dom cd)); [congruence | reflexivity]
       end.
Qed.

(** X13. The channel check of a registered worker agrees with the catalog,
    for every product: called on a store that lacks some of the channels
    the catalog lists, the worker computes nothing and reports exactly
    those channels, in the catalog's order; called on a store that has
    them all, it returns a result that is not a missing-channels
    failure. *)
Theorem worker_channel_check (name : string) (entry : catalog_entry)
    (channels_data : @channels_data_t img) (solar_angles_data : option solar_angles_t) :
  dict_get name RGB_CATALOG = Some entry ->
  let missing := missing_from (cat_channels entry) (dom channels_data) in
  (missing <> [] ->
   registered_worker (cat_worker entry) channels_data solar_angles_data =
     Returned (RGBFailure (MissingChannelsError missing))) /\
  (missing = [] ->
   exists result,
     registered_worker (cat_worker entry) channels_data solar_angles_data =
       Returned result /\
     forall missing', result <> RGBFailure (MissingChannelsError missing')).
Proof.
  intros Hentry missing. apply dict_get_elem_of in Hentry.
  pose proof workers_report_catalog_channels as Hreport.
  pose proof (@catalog_channels_suffice img land_mask _) as Hsuffice.
  rewrite Forall_forall in Hreport, Hsuffice.
  split.
  - exact (Hreport _ Hentry channels_data solar_angles_data).
  - exact (Hsuffice _ Hentry channels_data solar_angles_data).
Qed.

Lemma calibrated_of_present (channels_data : @channels_data_t img) (ch : string)
    (e : channel_entry (grid pixel) img) :
  channels_data !! ch = Some e -> calibrated_of channels_data ch = Returned (calibrated e).
Proof. intros He. unfold calibrated_of. rewrite He. reflexivity. Qed.

Lemma missing_in_present (channels_data : @channels_data_t img) (ch : string)
    (required : list string) (e : channel_entry (grid pixel) img) :
  channels_data !! ch = Some e ->
  missing_in (ch :: required) channels_data = missing_in required channels_data.
Proof.
  intros He. unfold missing_in. rewrite filter_cons.
  destruct (decide (ch ∉ dom channels_data)) as [Hnot|_]; [|reflexivity].
  exfalso. apply Hnot. exact (elem_of_dom_2 _ _ _ He).
Qed.

Lemma missing_in_absent (channels_data : @channels_data_t img) (ch : string)
    (required : list string) :
  channels_data !! ch = None ->
  missing_in (ch :: required) channels_data = ch :: missing_in required channels_data.
Proof.
  intros He. unfold missing_in. rewrite filter_cons.
  destruct (decide (ch ∉ dom channels_data)) as [_|Hin]; [reflexivity|].
  exfalso. apply Hin. exact (not_elem_of_dom_2 _ _ He).
Qed.





End WorkerChecks.

Lemma all_channels_lookup (ch : string) :
  ch ∈ ALL_CHANNELS -> all_channels_store !! ch = Some water_vapour_entry.
Proof.
  intros Hin. unfold ALL_CHANNELS in Hin.
  repeat (apply elem_of_cons in Hin as [->|Hin]; [reflexivity|]).
  apply elem_of_nil in Hin. contradiction.
Qed.

Lemma worker_channel_check_witness :
  @registered_worker string unit plain_compositing "rgb_worker_differential_water_vapor"
    (ms_channels water_vapour_store) None =
  Returned (RGBSuccess blank_image "differential_water_vapor_numba") /\
  @registered_worker string unit plain_compositing "rgb_worker_airmass"
    (ms_channels water_vapour_store) None =
  Returned (RGBFailure (MissingChannelsError ["C12"; "C13"]%string)).
Proof.
  split.
  - reflexivity.
  - exact (proj1 (@worker_channel_check string unit plain_compositing "airmass" _
                    (ms_channels water_vapour_store) None eq_refl)
             ltac:(vm_compute; discriminate)).
Defined.




(** ** The ash product, pixel by pixel *)

Lemma cell_tabulate {A : Type} (s : shape_t) (f : nat -> nat -> A) (i j : nat) :
  (i < fst s)%nat -> (j < snd s)%nat -> cell (tabulate s f) i j = Some (f i j).
Proof.
  intros Hi Hj. unfold cell, tabulate.
  rewrite lookup_map, (lookup_seq_lt _ _ _ Hi). cbn [option_map].
  rewrite lookup_map, (lookup_seq_lt _ _ _ Hj). reflexivity.
Qed.

Lemma np_broadcast_same (s : shape_t) : np_broadcast_shape s s = Returned s.
Proof.
  unfold np_broadcast_shape, broadcast_dim. rewrite !Nat.eqb_refl.
  destruct s; reflexivity.
Qed.

Lemma at_broadcast_cell (a : ndarray (grid pixel)) (i j : nat) (p : pixel) :
  (i < fst (shape a))%nat -> (j < snd (shape a))%nat ->
  cell (data a) i j = Some p -> at_broadcast a i j = p.
Proof.
  intros Hi Hj Hcell. unfold at_broadcast.
  destruct (Nat.eqb_spec (fst (shape a)) 1) as [Hrows|_];
    destruct (Nat.eqb_spec (snd (shape a)) 1) as [Hcols|_].
  - replace i with 0%nat in Hcell by lia. replace j with 0%nat in Hcell by lia.
    rewrite Hcell. reflexivity.
  - replace i with 0%nat in Hcell by lia. rewrite Hcell. reflexivity.
  - replace j with 0%nat in Hcell by lia. rewrite Hcell. reflexivity.
  - rewrite Hcell. reflexivity.
Qed.

Lemma py_trunc_byte (x : R) :
  (0 <= x <= 255)%R -> (0 <= py_trunc x <= 255)%Z /\ (py_trunc x mod 256 = py_trunc x)%Z.
Proof.
  intros [Hlo Hhi]. unfold py_trunc. destruct (Rle_dec 0 x) as [_|Hneg]; [|contradiction].
  destruct (base_Int_part x) as [Hfloor Hfrac].
  assert (Hrange : (0 <= Int_part x <= 255)%Z).
  { split.
    - assert (Hgt : (IZR (-1) < IZR (Int_part x))%R) by lra.
      apply lt_IZR in Hgt. lia.
    - apply le_IZR. lra. }
  split; [exact Hrange|]. apply Z.mod_small. lia.
Qed.

Section Float32.

Local Open Scope R_scope.

Lemma py_trunc_IZR (z : Z) : (0 <= z)%Z -> py_trunc (IZR z) = z.
Proof.
  intros Hz. unfold py_trunc.
  destruct (Rle_dec 0 (IZR z)) as [_|Hn]; [|exfalso; apply Hn, IZR_le; exact Hz].
  destruct (base_Int_part (IZR z)) as [Hlo Hhi].
  assert (H1 : (Int_part (IZR z) <= z)%Z) by (apply le_IZR; exact Hlo).
  assert (H2 : IZR (z - 1) < IZR (Int_part (IZR z))) by (rewrite minus_IZR; lra).
  apply lt_IZR in H2. lia.
Qed.

Lemma Int_part_between (r : R) (k : Z) : IZR k <= r < IZR k + 1 -> Int_part r = k.
Proof.
  intros [Hlo Hhi]. symmetry. apply Int_part_spec. lra.
Qed.

Lemma log2_between (x : R) (k : Z) :
  powerRZ 2 k <= x < powerRZ 2 (k + 1) -> Int_part (ln x / ln 2) = k.
Proof.
  intros [Hlo Hhi].
  assert (H2 : 0 < 2) by lra.
  assert (Hln2 : 0 < ln 2) by (rewrite <- ln_1; apply ln_increasing; lra).
  assert (Hpos : 0 < x).
  { apply Rlt_le_trans with (powerRZ 2 k); [apply powerRZ_lt; lra | exact Hlo]. }
  rewrite !powerRZ_Rpower in Hlo, Hhi by lra.
  apply Int_part_between. split.
  - apply Rmult_le_reg_r with (ln 2); [exact Hln2|].
    unfold Rdiv. rewrite Rmult_assoc, Rinv_l, Rmult_1_r by lra.
    destruct Hlo as [Hlo|Hlo].
    + left. apply ln_increasing in Hlo; [|apply exp_pos].
      unfold Rpower in Hlo. rewrite ln_exp in Hlo. exact Hlo.
    + right. rewrite <- Hlo. unfold Rpower. rewrite ln_exp. reflexivity.
  - apply Rmult_lt_reg_r with (ln 2); [exact Hln2|].
    unfold Rdiv. rewrite Rmult_assoc, Rinv_l, Rmult_1_r by lra.
    apply ln_increasing in Hhi; [|exact Hpos].
    unfold Rpower in Hhi. rewrite ln_exp, plus_IZR in Hhi. exact Hhi.
Qed.

Lemma round_half_even_near (y : R) (m : Z) :
  IZR m - 1 / 2 < y < IZR m + 1 / 2 -> round_half_even y = m.
Proof.
  intros [Hlo Hhi]. unfold round_half_even.
  destruct (Rlt_dec y (IZR m)) as [Hlt|Hge].
  - assert (Hn : Int_part y = (m - 1)%Z).
    { apply Int_part_between. rewrite minus_IZR. lra. }
    rewrite Hn, minus_IZR.
    destruct (Rlt_dec _ _) as [Hf|_]; [lra|].
    destruct (Rlt_dec _ _) as [_|Hf]; [lia | lra].
  - assert (Hn : Int_part y = m) by (apply Int_part_between; lra).
    rewrite Hn. destruct (Rlt_dec _ _) as [_|Hf]; [reflexivity | lra].
Qed.

(** The float32 of a real in the normal range, from its binade and the
    nearest multiple of the spacing there. *)
Lemma float32_near (x : R) (k m : Z) :
  (-126 <= k)%Z ->
  powerRZ 2 k <= Rabs x < powerRZ 2 (k + 1) ->
  IZR m - 1 / 2 < x / powerRZ 2 (k - 23) < IZR m + 1 / 2 ->
  float32 x = IZR m * powerRZ 2 (k - 23).
Proof.
  intros Hk Hbinade Hnear. unfold float32, round_binary.
  change (24 - 1)%Z with 23%Z.
  destruct (Req_dec_T x 0) as [->|_].
  - exfalso. rewrite Rabs_R0 in Hbinade.
    pose proof (powerRZ_lt 2 k ltac:(lra)). lra.
  - rewrite (log2_between _ k Hbinade), Z.max_l by lia.
    rewrite (round_half_even_near _ m Hnear). reflexivity.
Qed.

Lemma pow2_nat (n : nat) (v : Z) : (2 ^ Z.of_nat n)%Z = v -> 2 ^ n = IZR v.
Proof.
  intros <-. rewrite <- (pow_IZR 2 n). reflexivity.
Qed.

Lemma powerRZ2_pos (k v : Z) : (0 <= k)%Z -> (2 ^ k)%Z = v -> powerRZ 2 k = IZR v.
Proof.
  intros Hk <-. rewrite <- (Z2Nat.id k Hk) at 1. rewrite <- pow_powerRZ.
  apply pow2_nat. rewrite Z2Nat.id by exact Hk. reflexivity.
Qed.

Lemma powerRZ2_neg (k v : Z) : (k <= 0)%Z -> (2 ^ (- k))%Z = v -> powerRZ 2 k = / IZR v.
Proof.
  intros Hk Hv. replace k with (- - k)%Z by lia.
  rewrite powerRZ_neg'. f_equal. apply powerRZ2_pos; [lia | exact Hv].
Qed.

Ltac pow2 :=
  repeat match goal with
  | |- context [powerRZ 2 ?k] =>
      let k' := eval vm_compute in k in
      let v := eval vm_compute in (2 ^ Z.abs k')%Z in
      first [ rewrite (powerRZ2_pos k v ltac:(vm_compute; discriminate) eq_refl)
            | rewrite (powerRZ2_neg k v ltac:(vm_compute; discriminate) eq_refl) ]
  end.

Lemma float32_273_15 : float32 273.15 = 8950579 / 32768.
Proof.
  rewrite (float32_near 273.15 8 8950579).
  - pow2. lra.
  - lia.
  - rewrite Rabs_pos_eq by lra. pow2. lra.
  - pow2. lra.
Qed.

Lemma float32_271_15 : float32 271.15 = 8885043 / 32768.
Proof.
  rewrite (float32_near 271.15 8 8885043).
  - pow2. lra.
  - lia.
  - rewrite Rabs_pos_eq by lra. pow2. lra.
  - pow2. lra.
Qed.

Lemma float32_minus_2 : float32 (-2) = -2.
Proof.
  rewrite (float32_near (-2) 1 (-8388608)).
  - pow2. lra.
  - lia.
  - rewrite Rabs_left by lra. pow2. lra.
  - pow2. lra.
Qed.

Lemma float32_28 : float32 28 = 28.
Proof.
  rewrite (float32_near 28 4 14680064).
  - pow2. lra.
  - lia.
  - rewrite Rabs_pos_eq by lra. pow2. lra.
  - pow2. lra.
Qed.

Lemma float32_fifth : float32 (28 / 140) = 13421773 / 67108864.
Proof.
  rewrite (float32_near (28 / 140) (-3) 13421773).
  - pow2. lra.
  - lia.
  - rewrite Rabs_pos_eq by lra. pow2. lra.
  - pow2. lra.
Qed.

Lemma float32_51 : float32 (13421773 / 67108864 * 255) = 51.
Proof.
  rewrite (float32_near (13421773 / 67108864 * 255) 5 13369344).
  - pow2. lra.
  - lia.
  - rewrite Rabs_pos_eq by lra. pow2. lra.
  - pow2. lra.
Qed.

(** The blue byte of a pixel whose C11 temperature is the float32
    nearest 271.15: the float32 arithmetic of the source gives 51. *)
Lemma ash_blue_byte_271_15 :
  let c11 := float32 (float32 271.15 - float32 273.15) in
  let blue_plane := np_clip (float32 (float32 (c11 + 30) / 140)) 0 1 in
  py_trunc (np_clip (float32 (blue_plane * 255)) 0 255) = 51%Z.
Proof.
  cbv zeta. rewrite float32_271_15, float32_273_15.
  replace (8885043 / 32768 - 8950579 / 32768) with (-2) by lra.
  rewrite float32_minus_2. replace (-2 + 30) with 28 by lra.
  rewrite float32_28, float32_fifth.
  replace (np_clip (13421773 / 67108864) 0 1) with (13421773 / 67108864).
  2:{ unfold np_clip, Rmax, Rmin.
      repeat (destruct (Rle_dec _ _); try lra). }
  rewrite float32_51.
  replace (np_clip 51 0 255) with 51.
  2:{ unfold np_clip, Rmax, Rmin.
      repeat (destruct (Rle_dec _ _); try lra). }
  apply py_trunc_IZR. lia.
Qed.

Lemma round_half_even_bounds (y : R) :
  (Int_part y <= round_half_even y <= Int_part y + 1)%Z.
Proof.
  unfold round_half_even.
  destruct (Rlt_dec _ _); [lia|]. destruct (Rlt_dec _ _); [lia|].
  destruct (Z.even _); lia.
Qed.

Lemma Int_part_monotone (a b : R) : a <= b -> (Int_part a <= Int_part b)%Z.
Proof.
  intros Hle. destruct (base_Int_part a) as [Ha _]. destruct (base_Int_part b) as [_ Hb].
  assert (Hlt : IZR (Int_part a) < IZR (Int_part b + 1)) by (rewrite plus_IZR; lra).
  apply lt_IZR in Hlt. lia.
Qed.

Lemma round_half_even_monotone (a b : R) :
  a <= b -> (round_half_even a <= round_half_even b)%Z.
Proof.
  intros Hle. pose proof (Int_part_monotone a b Hle) as Hfloor.
  destruct (Z.eq_dec (Int_part a) (Int_part b)) as [Heq|Hne].
  - unfold round_half_even. rewrite Heq.
    repeat match goal with
           | |- context [Rlt_dec ?u ?v] => destruct (Rlt_dec u v)
           end;
      try (exfalso; lra); try lia; destruct (Z.even _); lia.
  - pose proof (round_half_even_bounds a). pose proof (round_half_even_bounds b). lia.
Qed.

Lemma round_half_even_IZR (m : Z) : round_half_even (IZR m) = m.
Proof. apply round_half_even_near. lra. Qed.

Lemma log2_bounds (x : R) :
  0 < x ->
  powerRZ 2 (Int_part (ln x / ln 2)) <= x < powerRZ 2 (Int_part (ln x / ln 2) + 1).
Proof.
  intros Hpos. set (k := Int_part (ln x / ln 2)).
  assert (Hln2 : 0 < ln 2) by (rewrite <- ln_1; apply ln_increasing; lra).
  destruct (base_Int_part (ln x / ln 2)) as [Hlo Hhi]. fold k in Hlo, Hhi.
  assert (Hlo' : IZR k * ln 2 <= ln x).
  { apply Rmult_le_compat_r with (r := ln 2) in Hlo; [|lra].
    unfold Rdiv in Hlo. rewrite Rmult_assoc, Rinv_l, Rmult_1_r in Hlo by lra. exact Hlo. }
  assert (Hhi' : ln x < IZR (k + 1) * ln 2).
  { rewrite plus_IZR.
    assert (Hlt : ln x / ln 2 < IZR k + 1) by lra.
    apply Rmult_lt_compat_r with (r := ln 2) in Hlt; [|lra].
    unfold Rdiv in Hlt. rewrite Rmult_assoc, Rinv_l, Rmult_1_r in Hlt by lra. exact Hlt. }
  rewrite !powerRZ_Rpower by lra. unfold Rpower.
  rewrite <- (exp_ln x Hpos) at 1 2. split.
  - destruct Hlo' as [Hlt|Heq].
    + left. apply exp_increasing. exact Hlt.
    + right. rewrite Heq. reflexivity.
  - apply exp_increasing. exact Hhi'.
Qed.

Lemma powerRZ2_pos' (k : Z) : 0 < powerRZ 2 k.
Proof. apply powerRZ_lt. lra. Qed.

Lemma powerRZ2_IZR (n : Z) : (0 <= n)%Z -> powerRZ 2 n = IZR (2 ^ n).
Proof. intros Hn. apply powerRZ2_pos; [exact Hn | reflexivity]. Qed.

Lemma powerRZ2_le (a b : Z) : (a <= b)%Z -> powerRZ 2 a <= powerRZ 2 b.
Proof.
  intros Hle. replace b with (a + (b - a))%Z by lia.
  rewrite powerRZ_add by lra. rewrite (powerRZ2_IZR (b - a)) by lia.
  assert (Hone : 1 <= IZR (2 ^ (b - a))).
  { apply IZR_le. pose proof (Z.pow_pos_nonneg 2 (b - a) ltac:(lia) ltac:(lia)). lia. }
  pose proof (powerRZ2_pos' a). nra.
Qed.

Lemma powerRZ2_div (a b : Z) : powerRZ 2 a / powerRZ 2 b = powerRZ 2 (a - b).
Proof.
  unfold Z.sub. rewrite powerRZ_add by lra. rewrite powerRZ_neg' . reflexivity.
Qed.

Lemma round_binary_nonneg (prec emin : Z) (x : R) : 0 <= x -> 0 <= round_binary prec emin x.
Proof.
  intros Hx. unfold round_binary. destruct (Req_dec_T x 0) as [_|Hne]; [lra|].
  cbv zeta. set (e := Z.max _ _).
  apply Rmult_le_pos; [|left; apply powerRZ2_pos'].
  apply IZR_le. rewrite <- (round_half_even_IZR 0).
  apply round_half_even_monotone.
  apply Rmult_le_pos; [exact Hx|]. left. apply Rinv_0_lt_compat, powerRZ2_pos'.
Qed.

Lemma round_binary_monotone (prec emin : Z) (x y : R) :
  (1 <= prec)%Z -> 0 <= x <= y -> round_binary prec emin x <= round_binary prec emin y.
Proof.
  intros Hprec [Hx Hxy].
  destruct (Req_dec_T x 0) as [->|Hx0].
  { unfold round_binary at 1. destruct (Req_dec_T 0 0) as [_|Hne]; [|contradiction].
    apply round_binary_nonneg. exact Hxy. }
  assert (Hxpos : 0 < x) by lra. assert (Hypos : 0 < y) by lra.
  unfold round_binary.
  destruct (Req_dec_T x 0) as [|_]; [contradiction|].
  destruct (Req_dec_T y 0) as [|_]; [lra|].
  rewrite !Rabs_pos_eq by lra. cbv zeta.
  destruct (log2_bounds x Hxpos) as [Hxlo Hxhi].
  destruct (log2_bounds y Hypos) as [Hylo Hyhi].
  set (kx := Int_part (ln x / ln 2)) in *. set (ky := Int_part (ln y / ln 2)) in *.
  assert (Hk : (kx <= ky)%Z).
  { destruct (Z_le_gt_dec kx ky) as [Hle|Hgt]; [exact Hle|].
    pose proof (powerRZ2_le (ky + 1) kx ltac:(lia)). lra. }
  set (ex := Z.max (kx - (prec - 1)) emin). set (ey := Z.max (ky - (prec - 1)) emin).
  pose proof (powerRZ2_pos' ex) as Hpex. pose proof (powerRZ2_pos' ey) as Hpey.
  destruct (Z.eq_dec ex ey) as [Heq|Hne].
  - rewrite <- Heq. apply Rmult_le_compat_r; [lra|].
    apply IZR_le, round_half_even_monotone.
    apply Rmult_le_compat_r; [|exact Hxy]. left. apply Rinv_0_lt_compat. exact Hpex.
  - assert (Hlt : (ex < ey)%Z) by lia.
    assert (Hey : ey = (ky - (prec - 1))%Z) by lia.
    assert (Hkxy : (kx < ky)%Z) by lia.
    apply Rle_trans with (powerRZ 2 ky).
    + set (n := Z.max (kx + 1 - ex) 0).
      apply Rle_trans with (IZR (2 ^ n) * powerRZ 2 ex).
      * apply Rmult_le_compat_r; [lra|]. apply IZR_le.
        rewrite <- (round_half_even_IZR (2 ^ n)). apply round_half_even_monotone.
        rewrite <- powerRZ2_IZR by lia.
        apply Rle_trans with (powerRZ 2 (kx + 1 - ex)); [|apply powerRZ2_le; lia].
        rewrite <- powerRZ2_div. left.
        apply Rmult_lt_compat_r; [apply Rinv_0_lt_compat; exact Hpex | exact Hxhi].
      * rewrite <- powerRZ2_IZR by lia. rewrite <- powerRZ_add by lra.
        apply powerRZ2_le. lia.
    + apply Rle_trans with (IZR (2 ^ (prec - 1)) * powerRZ 2 ey).
      * rewrite <- powerRZ2_IZR by lia. rewrite <- powerRZ_add by lra.
        apply powerRZ2_le. lia.
      * apply Rmult_le_compat_r; [lra|]. apply IZR_le.
        rewrite <- (round_half_even_IZR (2 ^ (prec - 1))) at 1.
        apply round_half_even_monotone.
        rewrite <- powerRZ2_IZR by lia.
        replace (prec - 1)%Z with (ky - ey)%Z by lia.
        rewrite <- powerRZ2_div.
        apply Rmult_le_compat_r; [left; apply Rinv_0_lt_compat; exact Hpey | exact Hylo].
Qed.

Lemma float64_nonneg (x : R) : 0 <= x -> 0 <= float64 x.
Proof. apply round_binary_nonneg. Qed.

Lemma float64_monotone (x y : R) : 0 <= x <= y -> float64 x <= float64 y.
Proof. apply round_binary_monotone. lia. Qed.

End Float32.

Section Ash.

Context {img land_mask : Type} `{Compositing land_mask}.

Local Open Scope R_scope.

(** One byte of the ash product from the value of its plane. *)
Lemma ash_byte_cell (plane : ndarray (grid pixel)) (i j : nat) (v : R) :
  cell (data plane) i j = Some (Some v) ->
  cell (data (ash_byte_plane plane)) i j =
    Some (py_trunc (np_clip (float32 (v * 255)) 0 255)) /\
  (0 <= py_trunc (np_clip (float32 (v * 255)) 0 255) <= 255)%Z.
Proof.
  intros Hcell. unfold ash_byte_plane, np_astype_uint8, np_clip_array, np_scalar.
  cbn [data shape]. unfold pixel in *. rewrite !cell_grid_map, Hcell. cbn [option_map uint8_of].
  pose proof (np_clip_bounds (float32 (v * 255)) 0 255 ltac:(lra)) as Hclip.
  destruct (py_trunc_byte _ Hclip) as [Hrange Hmod].
  rewrite Hmod. split; [reflexivity | exact Hrange].
Qed.

Lemma ash_celsius_cell (a : ndarray (grid pixel)) (i j : nat) (t : R) :
  (i < fst (shape a))%nat -> (j < snd (shape a))%nat ->
  cell (data a) i j = Some (Some t) ->
  at_broadcast (ash_celsius a) i j = Some (float32 (t - float32 273.15)).
Proof.
  intros Hi Hj Hcell. apply at_broadcast_cell; [exact Hi | exact Hj |].
  unfold ash_celsius, np_scalar. cbn [data]. unfold pixel in *.
  rewrite cell_grid_map, Hcell. reflexivity.
Qed.

(** The difference of two channels of one shape, scaled and clipped. *)
Lemma ash_difference_cell (a b : ndarray (grid pixel)) (f : R -> R) (i j : nat) (ta tb : R) :
  shape a = shape b ->
  (i < fst (shape a))%nat -> (j < snd (shape a))%nat ->
  cell (data a) i j = Some (Some ta) -> cell (data b) i j = Some (Some tb) ->
  exists d,
    np_binary (fun x y => float32 (x - y)) (ash_celsius a) (ash_celsius b) = Returned d /\
    shape d = shape a /\
    cell (data (np_clip_array (np_scalar f d) 0 1)) i j =
      Some (Some (np_clip
                    (f (float32 (float32 (ta - float32 273.15) -
                                 float32 (tb - float32 273.15)))) 0 1)).
Proof.
  intros Hshape Hi Hj Ha Hb. unfold np_binary.
  change (shape (ash_celsius a)) with (shape a).
  change (shape (ash_celsius b)) with (shape b).
  rewrite <- Hshape, np_broadcast_same. cbn [obind].
  eexists. split; [reflexivity|]. split; [reflexivity|].
  unfold np_clip_array, np_scalar. cbn [data shape].
  rewrite !cell_grid_map, (cell_tabulate _ _ _ _ Hi Hj).
  rewrite (ash_celsius_cell a i j ta Hi Hj Ha).
  rewrite (ash_celsius_cell b i j tb) by (rewrite <- ?Hshape; assumption).
  reflexivity.
Qed.

(** X16. With the three channels in the store, all of one shape, the ash
    worker succeeds with an image of that shape and the method
    "ash_python".  At a pixel where the three brightness temperatures are
    numbers, the bytes are those of the source's float32 arithmetic,
    every operation rounded to float32 and 273.15 entering as the
    float32 nearest to it: with the Celsius values c11, c13 and c15,
    int(clip(255 clip((c15 - c13 + 4) / 8, 0, 1), 0, 255)),
    int(clip(255 clip((c13 - c11 + 2) / 12, 0, 1), 0, 255)) and
    int(clip(255 clip((c11 + 30) / 140, 0, 1), 0, 255)), each within
    0..255. *)
Theorem ash_product (channels_data : @channels_data_t img)
    (solar_angles_data : option solar_angles_t)
    (e11 e13 e15 : channel_entry (grid pixel) img) (s : shape_t) :
  channels_data !! "C11"%string = Some e11 ->
  channels_data !! "C13"%string = Some e13 ->
  channels_data !! "C15"%string = Some e15 ->
  shape (calibrated e11) = s -> shape (calibrated e13) = s -> shape (calibrated e15) = s ->
  exists image : rgb_image,
    rgb_worker_ash channels_data solar_angles_data = RGBSuccess image "ash_python" /\
    shape image = s /\
    forall (i j : nat) (t11 t13 t15 : R),
      (i < fst s)%nat -> (j < snd s)%nat ->
      cell (data (calibrated e11)) i j = Some (Some t11) ->
      cell (data (calibrated e13)) i j = Some (Some t13) ->
      cell (data (calibrated e15)) i j = Some (Some t15) ->
      let c11 := float32 (t11 - float32 273.15) in
      let c13 := float32 (t13 - float32 273.15) in
      let c15 := float32 (t15 - float32 273.15) in
      let red_plane := np_clip (float32 (float32 (float32 (c15 - c13) + 4) / 8)) 0 1 in
      let green_plane := np_clip (float32 (float32 (float32 (c13 - c11) + 2) / 12)) 0 1 in
      let blue_plane := np_clip (float32 (float32 (c11 + 30) / 140)) 0 1 in
      let red := py_trunc (np_clip (float32 (red_plane * 255)) 0 255) in
      let green := py_trunc (np_clip (float32 (green_plane * 255)) 0 255) in
      let blue := py_trunc (np_clip (float32 (blue_plane * 255)) 0 255) in
      cell (data image) i j = Some (red, green, blue) /\
      (0 <= red <= 255)%Z /\ (0 <= green <= 255)%Z /\ (0 <= blue <= 255)%Z.
Proof.
  intros H11 H13 H15 Hs11 Hs13 Hs15.
  unfold rgb_worker_ash, rgb_worker.
  rewrite (missing_in_present _ _ _ _ H11), (missing_in_present _ _ _ _ H13),
    (missing_in_present _ _ _ _ H15).
  rewrite (calibrated_of_present _ _ _ H11), (calibrated_of_present _ _ _ H13),
    (calibrated_of_present _ _ _ H15).
  cbn [missing_in filter list_filter obind].
  set (a11 := calibrated e11) in *. set (a13 := calibrated e13) in *.
  set (a15 := calibrated e15) in *.
  unfold ash_planes.
  assert (Hred : exists d,
             np_binary (fun x y => float32 (x - y)) (ash_celsius a15) (ash_celsius a13) =
               Returned d /\ shape d = s).
  { unfold np_binary. change (shape (ash_celsius a15)) with (shape a15).
    change (shape (ash_celsius a13)) with (shape a13).
    rewrite Hs15, Hs13, np_broadcast_same. eexists. split; reflexivity. }
  assert (Hgreen : exists d,
             np_binary (fun x y => float32 (x - y)) (ash_celsius a13) (ash_celsius a11) =
               Returned d /\ shape d = s).
  { unfold np_binary. change (shape (ash_celsius a13)) with (shape a13).
    change (shape (ash_celsius a11)) with (shape a11).
    rewrite Hs13, Hs11, np_broadcast_same. eexists. split; reflexivity. }
  destruct Hred as (d_red & Hred & Hsred). destruct Hgreen as (d_green & Hgreen & Hsgreen).
  rewrite Hred, Hgreen. cbn [obind]. unfold np_stack3, try_worker.
  rewrite !bool_decide_eq_true_2
    by (cbn [shape ash_byte_plane np_astype_uint8 np_clip_array np_scalar ash_celsius];
        congruence).
  cbn [andb obind].
  eexists. split; [reflexivity|].
  split; [cbn [shape ash_byte_plane np_astype_uint8 np_clip_array np_scalar]; exact Hsred|].
  intros i j t11 t13 t15 Hi Hj Hc11 Hc13 Hc15.
  cbn [data].
  destruct (ash_difference_cell a15 a13 (fun v => float32 (float32 (v + 4) / 8)) i j t15 t13)
    as (d & Hd & _ & Hcell_red); try congruence.
  rewrite Hred in Hd. injection Hd as <-.
  destruct (ash_difference_cell a13 a11 (fun v => float32 (float32 (v + 2) / 12)) i j t13 t11)
    as (d & Hd & _ & Hcell_green); try congruence.
  rewrite Hgreen in Hd. injection Hd as <-.
  assert (Hcell_blue :
    cell (data (np_clip_array
                  (np_scalar (fun v => float32 (float32 (v + 30) / 140)) (ash_celsius a11))
                  0 1)) i j =
    Some (Some (np_clip (float32 (float32 (float32 (t11 - float32 273.15) + 30) / 140)) 0 1))).
  { unfold ash_celsius, np_clip_array, np_scalar. cbn [data]. unfold pixel in *.
    rewrite !cell_grid_map, Hc11. reflexivity. }
  destruct (ash_byte_cell _ i j _ Hcell_red) as [Hbyte_red Hrange_red].
  destruct (ash_byte_cell _ i j _ Hcell_green) as [Hbyte_green Hrange_green].
  destruct (ash_byte_cell _ i j _ Hcell_blue) as [Hbyte_blue Hrange_blue].
  rewrite !cell_grid_zip_with, Hbyte_red, Hbyte_green, Hbyte_blue.
  split; [reflexivity|]. auto.
Qed.

End Ash.

Lemma ash_product_witness :
  exists image : rgb_image,
    @rgb_worker_ash string unit plain_compositing all_channels_store None =
      RGBSuccess image "ash_python" /\
    shape image = (1, 1)%nat.
Proof.
  destruct (@ash_product string unit plain_compositing all_channels_store None
              water_vapour_entry water_vapour_entry water_vapour_entry (1, 1)%nat
              (all_channels_lookup "C11" ltac:(repeat constructor))
              (all_channels_lookup "C13" ltac:(repeat constructor))
              (all_channels_lookup "C15" ltac:(repeat constructor))
              eq_refl eq_refl eq_refl)
    as (image & Hworker & Hshape & _).
  exists image. split; assumption.
Defined.

(** ** What the Level 1b loader stores *)

Lemma dict_get_set {A : Type} (k k' : string) (v : A) (d : list (string * A)) :
  dict_get k' (dict_set k v d) = if String.eqb k' k then Some v else dict_get k' d.
Proof.
  induction d as [|[k0 v0] d IH]; cbn [dict_set dict_get].
  - destruct (String.eqb k' k); reflexivity.
  - destruct (String.eqb_spec k k0) as [->|Hne]; cbn [dict_get].
    + destruct (String.eqb k' k0); reflexivity.
    + rewrite IH. destruct (String.eqb_spec k' k0) as [->|Hne'].
      * destruct (String.eqb_spec k0 k); [congruence | reflexivity].
      * reflexivity.
Qed.

Lemma elem_of_dict_set {A : Type} (k : string) (v : A) (d : list (string * A))
    (k' : string) (v' : A) :
  (k', v') ∈ dict_set k v d -> (k' = k /\ v' = v) \/ (k', v') ∈ d.
Proof.
  induction d as [|[k0 v0] d IH]; cbn [dict_set].
  - intros Hin. apply list_elem_of_singleton in Hin. injection Hin as -> ->. auto.
  - destruct (String.eqb_spec k k0) as [->|Hne]; intros Hin;
      apply elem_of_cons in Hin as [Hin|Hin].
    + injection Hin as -> ->. auto.
    + right. apply list_elem_of_further. exact Hin.
    + injection Hin as -> ->. right. apply list_elem_of_here.
    + destruct (IH Hin) as [Hnew|Hold]; [auto|].
      right. apply list_elem_of_further. exact Hold.
Qed.

Lemma dict_keys_set {A : Type} (k : string) (v : A) (d : list (string * A)) :
  dict_keys (dict_set k v d) =
  if bool_decide (k ∈ dict_keys d) then dict_keys d else dict_keys d ++ [k].
Proof.
  unfold dict_keys. induction d as [|[k0 v0] d IH]; cbn [dict_set map fst].
  - rewrite bool_decide_eq_false_2 by apply not_elem_of_nil. reflexivity.
  - destruct (String.eqb_spec k k0) as [->|Hne]; cbn [map fst].
    + rewrite bool_decide_eq_true_2 by apply list_elem_of_here. reflexivity.
    + rewrite IH. case_bool_decide as Hin.
      * rewrite bool_decide_eq_true_2 by (apply list_elem_of_further; exact Hin).
        reflexivity.
      * rewrite bool_decide_eq_false_2; [reflexivity|].
        intros Hin'. apply elem_of_cons in Hin' as [Heq|Hin']; [congruence | contradiction].
Qed.

Lemma dict_set_nodup {A : Type} (k : string) (v : A) (d : list (string * A)) :
  NoDup (dict_keys d) -> NoDup (dict_keys (dict_set k v d)).
Proof.
  intros Hnodup. rewrite dict_keys_set. case_bool_decide as Hin; [exact Hnodup|].
  apply NoDup_app. split; [exact Hnodup|]. split; [|apply NoDup_singleton].
  intros x Hx Hx'. apply list_elem_of_singleton in Hx'. subst x. contradiction.
Qed.

Lemma dict_get_Some_elem {A : Type} (k : string) (d : list (string * A)) :
  k ∈ dict_keys d <-> exists v, dict_get k d = Some v.
Proof.
  unfold dict_keys. induction d as [|[k0 v0] d IH]; cbn [map fst dict_get].
  - split; [intros Hin; apply elem_of_nil in Hin; contradiction|].
    intros [v Hv]. discriminate.
  - destruct (String.eqb_spec k k0) as [->|Hne].
    + split; [eauto | intros _; apply list_elem_of_here].
    + rewrite elem_of_cons, IH. split; [intros [Heq|Hex]; [congruence | exact Hex] | auto].
Qed.

Lemma dict_get_unique {A : Type} (k : string) (v : A) (d : list (string * A)) :
  NoDup (dict_keys d) -> (k, v) ∈ d -> dict_get k d = Some v.
Proof.
  unfold dict_keys. induction d as [|[k0 v0] d IH]; cbn [map fst dict_get]; intros Hnodup Hin.
  - apply elem_of_nil in Hin. contradiction.
  - apply NoDup_cons in Hnodup as [Hnotin Hnodup].
    apply elem_of_cons in Hin as [Hin|Hin].
    + injection Hin as -> ->. rewrite String.eqb_refl. reflexivity.
    + destruct (String.eqb_spec k k0) as [->|Hne]; [|auto].
      exfalso. apply Hnotin. apply list_elem_of_fmap. exists (k0, v). auto.
Qed.

Section Level1b.

Context {buf : Type}.
Variable open_dataset : string -> option (l1b_dataset buf).
Variable DOWNLOAD_RESULTS : list (string * string).
Variable satellite : string.

Lemma carries_designated (channels_to_process : list string) (channel : string) :
  channel ∈ channels_to_process ->
  carries_coordinates channels_to_process channel = true ->
  designated channels_to_process = Some channel.
Proof.
  intros Hin. unfold carries_coordinates, designated.
  destruct (String.eqb_spec channel "C02") as [->|Hne]; cbn [orb].
  - intros _. rewrite bool_decide_eq_true_2 by exact Hin. reflexivity.
  - intros Hc. apply andb_prop in Hc as [Hhead Hnot].
    apply bool_decide_eq_true in Hhead, Hnot.
    rewrite bool_decide_eq_false_2 by exact Hnot. exact Hhead.
Qed.

Lemma level1b_record_loaded (channels_to_process : list string) (channel path : string)
    (ds : l1b_dataset buf) (record : raw_record buf) :
  channel ∈ channels_to_process ->
  dict_get channel DOWNLOAD_RESULTS = Some path ->
  open_dataset path = Some ds ->
  level1b_record satellite path ds = Some record ->
  level1b_loaded open_dataset DOWNLOAD_RESULTS channels_to_process channel record /\
  forall c,
    carries_coordinates channels_to_process channel = true ->
    level1b_coordinates channel ds = Some c ->
    level1b_loaded open_dataset DOWNLOAD_RESULTS channels_to_process channel
      (with_coordinates record c).
Proof.
  intros Hin Hpath Hopen Hrecord. unfold level1b_record in Hrecord.
  destruct (ds_Rad ds) as [rad|] eqn:Hrad; [|discriminate].
  destruct (ds_band_id ds) as [band|] eqn:Hband; [|discriminate].
  destruct (ds_time_coverage_start ds) as [start|]; [|discriminate].
  destruct (ds_time_coverage_end ds) as [stop|]; [|discriminate].
  cbn in Hrecord. injection Hrecord as <-.
  split.
  - split; [exact Hin|]. exists path, ds, rad, band. cbn.
    repeat (split; [first [assumption | reflexivity]|]). intros c Hc. discriminate.
  - intros c Hcarries Hcoords. split; [exact Hin|]. exists path, ds, rad, band. cbn.
    repeat (split; [first [assumption | reflexivity]|]).
    intros c' [= <-]. split; [apply carries_designated; assumption|].
    unfold level1b_coordinates in Hcoords.
    destruct (ds_x ds) as [x|]; [|discriminate].
    destruct (ds_y ds) as [y|]; [|discriminate].
    destruct (ds_goes_imager_projection ds) as [proj|]; [|discriminate].
    cbn in Hcoords. injection Hcoords as <-. cbn. auto.
Qed.

(** The invariant of the loading loop. *)
Lemma load_level1b_fold (channels_to_process l : list string)
    (state : list (string * raw_record buf) * option authority) :
  (forall ch, ch ∈ l -> ch ∈ channels_to_process) ->
  NoDup (dict_keys (fst state)) ->
  (forall ch r, (ch, r) ∈ fst state ->
     level1b_loaded open_dataset DOWNLOAD_RESULTS channels_to_process ch r) ->
  (fst state <> [] -> snd state <> None) ->
  let out :=
    fold_left (load_level1b_channel open_dataset DOWNLOAD_RESULTS satellite
                 channels_to_process) l state in
  NoDup (dict_keys (fst out)) /\
  (forall ch r, (ch, r) ∈ fst out ->
     level1b_loaded open_dataset DOWNLOAD_RESULTS channels_to_process ch r) /\
  (fst out <> [] -> snd out <> None) /\
  (forall a, snd state = Some a -> snd out = Some a).
Proof.
  revert state. induction l as [|channel l IH]; intros state Hsub Hnodup Hall Hauth;
    cbn [fold_left].
  - cbv zeta. auto.
  - assert (Hstep :
      let next := load_level1b_channel open_dataset DOWNLOAD_RESULTS satellite
                    channels_to_process state channel in
      NoDup (dict_keys (fst next)) /\
      (forall ch r, (ch, r) ∈ fst next ->
         level1b_loaded open_dataset DOWNLOAD_RESULTS channels_to_process ch r) /\
      (fst next <> [] -> snd next <> None) /\
      (forall a, snd state = Some a -> snd next = Some a)).
    { cbv zeta. unfold load_level1b_channel. destruct state as [store auth].
      cbn [fst snd] in *.
      destruct (dict_get channel DOWNLOAD_RESULTS) as [path|] eqn:Hpath; [|auto].
      destruct (open_dataset path) as [ds|] eqn:Hopen; [|auto].
      assert (Hchannel : channel ∈ channels_to_process)
        by (apply Hsub; apply list_elem_of_here).
      destruct (match auth with
                | Some a => Some (Some a)
                | None => option_map Some (GOESProjectionAuthority ds)
                end) as [auth'|] eqn:Hinit; [|auto].
      assert (Hkept : forall a, auth = Some a -> auth' = Some a).
      { intros a ->. injection Hinit as <-. reflexivity. }
      assert (Hset : auth' <> None).
      { destruct auth as [a|]; [injection Hinit as <-; discriminate|].
        destruct (GOESProjectionAuthority ds); [|discriminate].
        injection Hinit as <-. discriminate. }
      destruct (level1b_record satellite path ds) as [record|] eqn:Hrecord.
      - destruct (level1b_record_loaded channels_to_process channel path ds record
                    Hchannel Hpath Hopen Hrecord) as [Hplain Hcoords].
        assert (Hstored : forall record',
                  level1b_loaded open_dataset DOWNLOAD_RESULTS channels_to_process
                    channel record' ->
                  NoDup (dict_keys (dict_set channel record' store)) /\
                  (forall ch r, (ch, r) ∈ dict_set channel record' store ->
                     level1b_loaded open_dataset DOWNLOAD_RESULTS channels_to_process ch r)).
        { intros record' Hrecord'. split; [apply dict_set_nodup; exact Hnodup|].
          intros ch r Hin. apply elem_of_dict_set in Hin as [[-> ->]|Hold]; auto. }
        destruct (carries_coordinates channels_to_process channel) eqn:Hcarries;
          [destruct (level1b_coordinates channel ds) as [c|] eqn:Hc|]; cbn [fst snd].
        + destruct (Hstored _ (Hcoords c eq_refl eq_refl)). auto.
        + destruct (Hstored _ Hplain). auto.
        + destruct (Hstored _ Hplain). auto.
      - cbn [fst snd]. auto. }
    cbv zeta in Hstep. destruct Hstep as (Hnodup' & Hall' & Hauth' & Hkept).
    destruct (IH _ (fun ch Hch => Hsub ch (list_elem_of_further _ _ _ Hch))
                Hnodup' Hall' Hauth') as (H1 & H2 & H3 & H4).
    cbv zeta in *. split; [exact H1|]. split; [exact H2|]. split; [exact H3|].
    intros a Ha. apply H4, Hkept. exact Ha.
Qed.

(** X17. The Level 1b loader stores at most one record per channel code, and
    only for channels that were to be processed, have a download and
    whose file opened.  A stored record holds the radiance of its file
    with its shape as native shape, a band identifier, the type "ir"
    exactly for bands 7 and above, and the data level "level1b".
    Coordinates are attached to no record but that of the designated
    channel (C02 when it is to be processed, else the first channel to
    process), so when that channel fails to load no record carries
    coordinates.  The projection authority is initialised once: one that
    is already set is kept, and a store that is not empty comes with an
    authority. *)
Theorem level1b_store (projection_authority : option authority)
    (channels_to_process : list string) :
  let out :=
    load_level1b_data open_dataset DOWNLOAD_RESULTS satellite projection_authority
      channels_to_process in
  NoDup (dict_keys (fst out)) /\
  (forall ch r, (ch, r) ∈ fst out ->
     level1b_loaded open_dataset DOWNLOAD_RESULTS channels_to_process ch r) /\
  (forall ch r c d,
     (ch, r) ∈ fst out -> coordinate_data r = Some c ->
     designated channels_to_process = Some d ->
     ch = d /\ dict_get d (fst out) = Some r) /\
  (forall d,
     designated channels_to_process = Some d -> dict_get d (fst out) = None ->
     forall ch r, (ch, r) ∈ fst out -> coordinate_data r = None) /\
  (fst out <> [] -> snd out <> None) /\
  (forall a, projection_authority = Some a -> snd out = Some a).
Proof.
  intros out. subst out. unfold load_level1b_data.
  destruct (load_level1b_fold channels_to_process channels_to_process
              ([], projection_authority)) as (Hnodup & Hall & Hauth & Hkept); cbn [fst snd].
  - auto.
  - apply NoDup_nil_2.
  - intros ch r Hin. apply elem_of_nil in Hin. contradiction.
  - congruence.
  - cbv zeta in *.
    set (out := fold_left _ channels_to_process ([], projection_authority)) in *.
    assert (Hunique : forall ch r, (ch, r) ∈ fst out -> dict_get ch (fst out) = Some r)
      by (intros ch r Hin; apply dict_get_unique; assumption).
    assert (Hcoords : forall ch r c d,
              (ch, r) ∈ fst out -> coordinate_data r = Some c ->
              designated channels_to_process = Some d ->
              ch = d /\ dict_get d (fst out) = Some r).
    { intros ch r c d Hin Hc Hd.
      destruct (Hall ch r Hin) as (_ & path & ds & rad & band & Hloaded).
      destruct Hloaded as (_ & _ & _ & _ & _ & _ & _ & _ & _ & _ & _ & Hdesignated).
      destruct (Hdesignated c Hc) as (Hdes & _).
      assert (ch = d) by congruence. subst d. split; [reflexivity|].
      apply Hunique. exact Hin. }
    split; [exact Hnodup|]. split; [exact Hall|]. split; [exact Hcoords|].
    split; [|split; [exact Hauth | exact Hkept]].
    intros d Hd Hnone ch r Hin.
    destruct (coordinate_data r) as [c|] eqn:Hc; [|reflexivity].
    destruct (Hcoords ch r c d Hin Hc Hd) as [_ Hget]. congruence.
Qed.

End Level1b.
(** ** The projection authority *)

Section AuthorityFacts.

Local Open Scope R_scope.

Lemma fold_min_le (l : list R) (v : R) : fold_left Rmin l v <= v.
Proof.
  revert v. induction l as [|x l IH]; intros v; cbn [fold_left]; [lra|].
  eapply Rle_trans; [apply IH | apply Rmin_l].
Qed.

Lemma fold_max_ge (l : list R) (v : R) : v <= fold_left Rmax l v.
Proof.
  revert v. induction l as [|x l IH]; intros v; cbn [fold_left]; [lra|].
  eapply Rle_trans; [apply Rmax_l | apply IH].
Qed.

Lemma np_min_le_max (a : list R) (lo hi : R) :
  np_min a = Some lo -> np_max a = Some hi -> lo <= hi.
Proof.
  destruct a as [|v rest]; [discriminate|]. cbn. intros [= <-] [= <-].
  eapply Rle_trans; [apply fold_min_le | apply fold_max_ge].
Qed.

Lemma resolution_of_values (p : R) :
  resolution_of p = 0.5 \/ resolution_of p = 1.0 \/ resolution_of p = 2.0.
Proof.
  unfold resolution_of. destruct (Rlt_dec p (float64 0.000021)); [auto|].
  destruct (Rlt_dec p (float64 0.000042)); auto.
Qed.

Lemma resolution_of_monotone (p q : R) : p <= q -> resolution_of p <= resolution_of q.
Proof.
  intros Hle. unfold resolution_of.
  assert (Hthresholds : float64 0.000021 <= float64 0.000042)
    by (apply float64_monotone; lra).
  destruct (Rlt_dec p (float64 0.000021)), (Rlt_dec q (float64 0.000021)),
    (Rlt_dec p (float64 0.000042)), (Rlt_dec q (float64 0.000042)); lra.
Qed.

Lemma authority_extent {buf : Type} (ds : l1b_dataset buf) (a : authority) :
  GOESProjectionAuthority ds = Some a ->
  x_extent_rad a = float64 (x_max a - x_min a) /\
  y_extent_rad a = float64 (y_max a - y_min a) /\
  x_min a <= x_max a /\ y_min a <= y_max a.
Proof.
  unfold GOESProjectionAuthority.
  destruct (ds_goes_imager_projection ds) as [proj|]; [|discriminate].
  destruct (ds_ellipsoid ds) as [ell|]; [|discriminate].
  destruct (ds_x ds) as [x|]; [|discriminate].
  destruct (ds_y ds) as [y|]; [|discriminate]. cbn [mbind option_bind].
  destruct (np_min x) as [xlo|] eqn:Hxlo; [|discriminate].
  destruct (np_max x) as [xhi|] eqn:Hxhi; [|discriminate].
  destruct (np_min y) as [ylo|] eqn:Hylo; [|discriminate].
  destruct (np_max y) as [yhi|] eqn:Hyhi; [|discriminate]. cbn [mbind option_bind].
  destruct (x !! 1%nat) as [x1|]; [|discriminate].
  destruct (x !! 0%nat) as [x0|]; [|discriminate]. cbn [mbind option_bind].
  intros [= <-]. cbn.
  pose proof (np_min_le_max x xlo xhi Hxlo Hxhi).
  pose proof (np_min_le_max y ylo yhi Hylo Hyhi). auto.
Qed.

(** X18. The geotransform of an authority read from a file, in the
    double arithmetic of the source.  A width or a height of zero raises
    [ZeroDivisionError].  For any other data size the transform is
    north-up (both rotation terms are 0) and starts at the upper left
    corner (x_min h, y_max h) of the extent, with h the satellite
    height; the pixel width is the x extent divided by the width, times
    h, and is not negative for h >= 0; the last term is minus the
    absolute value of the y extent divided by the height, times h, and
    is never positive; every product and quotient is rounded to a
    double, and the extents, which are not negative, are the rounded
    differences of the greatest and the least coordinate.  The detected
    resolution is 0.5, 1 or 2 km and never grows when the data gets
    wider. *)
Theorem authority_geotransform {buf : Type} (ds : l1b_dataset buf) (a : authority)
    (data_width data_height : nat) :
  GOESProjectionAuthority ds = Some a ->
  (data_width = 0%nat \/ data_height = 0%nat ->
   get_geotransform a data_width data_height = Raised ZeroDivisionError) /\
  x_extent_rad a = float64 (x_max a - x_min a) /\
  y_extent_rad a = float64 (y_max a - y_min a) /\
  0 <= x_extent_rad a /\ 0 <= y_extent_rad a /\
  (data_width <> 0%nat -> data_height <> 0%nat ->
   exists detected_km pixel_size_x pixel_size_y,
     detect_resolution_from_dimensions a data_width data_height =
       Returned (detected_km, float64 (x_extent_rad a / INR data_width),
                 float64 (y_extent_rad a / INR data_height)) /\
     get_geotransform a data_width data_height =
       Returned [float64 (x_min a * sat_height a); pixel_size_x; 0.0;
                 float64 (y_max a * sat_height a); 0.0; - pixel_size_y] /\
     pixel_size_x = float64 (float64 (x_extent_rad a / INR data_width) * sat_height a) /\
     pixel_size_y =
       Rabs (float64 (float64 (y_extent_rad a / INR data_height) * sat_height a)) /\
     (detected_km = 0.5 \/ detected_km = 1.0 \/ detected_km = 2.0) /\
     0 <= pixel_size_y /\
     (0 <= sat_height a -> 0 <= pixel_size_x) /\
     forall wider : nat,
       (data_width <= wider)%nat ->
       exists detected_km' dx dy,
         detect_resolution_from_dimensions a wider data_height =
           Returned (detected_km', dx, dy) /\
         detected_km' <= detected_km).
Proof.
  intros Hinit. destruct (authority_extent ds a Hinit) as (Hx & Hy & Hxle & Hyle).
  assert (Hxext : 0 <= x_extent_rad a) by (rewrite Hx; apply float64_nonneg; lra).
  assert (Hyext : 0 <= y_extent_rad a) by (rewrite Hy; apply float64_nonneg; lra).
  unfold get_geotransform, detect_resolution_from_dimensions, float_div_int. split.
  { intros [-> | ->]; [reflexivity|].
    destruct (data_width =? 0)%nat; reflexivity. }
  split; [exact Hx|]. split; [exact Hy|]. split; [exact Hxext|]. split; [exact Hyext|].
  intros Hw Hh.
  apply Nat.eqb_neq in Hw as Hw', Hh as Hh'. rewrite Hw', Hh'. cbn [obind].
  assert (Hwpos : 0 < INR data_width) by (apply lt_0_INR; lia).
  assert (Hhpos : 0 < INR data_height) by (apply lt_0_INR; lia).
  assert (Hquot : forall n : nat, 0 < INR n -> 0 <= x_extent_rad a / INR n).
  { intros n Hn. apply Rmult_le_pos; [exact Hxext|].
    apply Rlt_le, Rinv_0_lt_compat. exact Hn. }
  assert (Hdx : forall n : nat, 0 < INR n -> 0 <= float64 (x_extent_rad a / INR n)).
  { intros n Hn. apply float64_nonneg, Hquot. exact Hn. }
  eexists _, _, _. split; [reflexivity|]. split; [reflexivity|].
  split; [reflexivity|]. split; [reflexivity|].
  split; [apply resolution_of_values|]. split; [apply Rabs_pos|]. split.
  - intros Hheight. apply float64_nonneg. apply Rmult_le_pos; [apply Hdx|]; assumption.
  - intros wider Hwider.
    assert (Hwider' : (wider =? 0)%nat = false) by (apply Nat.eqb_neq; lia).
    rewrite Hwider'. cbn [obind]. eexists _, _, _. split; [reflexivity|].
    apply resolution_of_monotone.
    assert (Hwiderpos : 0 < INR wider) by (apply lt_0_INR; lia).
    rewrite !Rabs_right by (apply Rle_ge, Hdx; assumption).
    apply float64_monotone. split; [apply Hquot; exact Hwiderpos|].
    apply Rmult_le_compat_l; [exact Hxext|].
    apply Rinv_le_contravar; [exact Hwpos|]. apply le_INR. exact Hwider.
Qed.

End AuthorityFacts.
(** ** What the Level 2 loader stores *)

Section Level2.

Context {buf : Type}.
Variable open_level2 : string -> option (l2_dataset buf).
Variable DOWNLOAD_RESULTS : list (string * string).
Variable satellite : string.
Variable py_int_of_string : string -> option Z.

Lemma load_level2_loop_invariant (level2_file : string) (ds : l2_dataset buf)
    (channels_to_process remaining : list string)
    (store0 store : list (string * raw_record buf)) :
  open_level2 level2_file = Some ds ->
  (forall ch, ch ∈ remaining -> ch ∈ channels_to_process) ->
  NoDup (dict_keys store0) ->
  (forall ch r, (ch, r) ∈ store0 ->
     level2_loaded open_level2 level2_file channels_to_process ch r) ->
  load_level2_loop satellite py_int_of_string level2_file ds channels_to_process
    remaining store0 = Some store ->
  NoDup (dict_keys store) /\
  (forall ch r, (ch, r) ∈ store ->
     level2_loaded open_level2 level2_file channels_to_process ch r) /\
  (forall ch, ch ∈ dict_keys store0 -> ch ∈ dict_keys store) /\
  (forall ch calibrated,
     ch ∈ remaining -> l2_CMI ds ch = Some calibrated -> ch ∈ dict_keys store).
Proof.
  intros Hopen. revert store0.
  induction remaining as [|channel rest IH]; intros store0 Hsub Hnodup Hall;
    cbn [load_level2_loop].
  - intros [= <-]. split; [exact Hnodup|]. split; [exact Hall|]. split; [auto|].
    intros ch calibrated Hin. apply elem_of_nil in Hin. contradiction.
  - destruct (load_level2_channel satellite py_int_of_string level2_file ds
                channels_to_process store0 channel) as [store1|] eqn:Hstep;
      [|discriminate].
    cbn [mbind option_bind]. intros Hloop.
    assert (Hchannel : channel ∈ channels_to_process)
      by (apply Hsub; apply list_elem_of_here).
    assert (Hstep' :
      NoDup (dict_keys store1) /\
      (forall ch r, (ch, r) ∈ store1 ->
         level2_loaded open_level2 level2_file channels_to_process ch r) /\
      (forall ch, ch ∈ dict_keys store0 -> ch ∈ dict_keys store1) /\
      (forall calibrated, l2_CMI ds channel = Some calibrated ->
         channel ∈ dict_keys store1)).
    { unfold load_level2_channel in Hstep.
      destruct (l2_CMI ds channel) as [calibrated|] eqn:Hcmi.
      - destruct (match l2_band_id ds channel with
                  | Some b => Some b
                  | None => py_int_of_string (drop_first channel)
                  end) as [band|]; [|discriminate].
        cbn [mbind option_bind] in Hstep.
        assert (Hset : forall record,
                  level2_loaded open_level2 level2_file channels_to_process channel
                    record ->
                  NoDup (dict_keys (dict_set channel record store0)) /\
                  (forall ch r, (ch, r) ∈ dict_set channel record store0 ->
                     level2_loaded open_level2 level2_file channels_to_process ch r) /\
                  (forall ch, ch ∈ dict_keys store0 ->
                     ch ∈ dict_keys (dict_set channel record store0)) /\
                  (forall calibrated' : ndarray buf,
                     Some calibrated = Some calibrated' ->
                     channel ∈ dict_keys (dict_set channel record store0))).
        { intros record Hrecord. split; [apply dict_set_nodup; exact Hnodup|].
          split.
          - intros ch r Hin. apply elem_of_dict_set in Hin as [[-> ->]|Hold]; auto.
          - rewrite dict_keys_set.
            destruct (decide (channel ∈ dict_keys store0)) as [Hin|Hnot].
            + rewrite bool_decide_eq_true_2 by exact Hin.
              split; [auto|]. intros calibrated' _. exact Hin.
            + rewrite bool_decide_eq_false_2 by exact Hnot. split.
              * intros ch Hch. apply elem_of_app. left. exact Hch.
              * intros calibrated' _. apply elem_of_app. right. apply list_elem_of_here. }
        destruct (decide (head channels_to_process = Some channel)) as [Hhead|Hhead];
          [rewrite bool_decide_eq_true_2 in Hstep by exact Hhead
          |rewrite bool_decide_eq_false_2 in Hstep by exact Hhead].
        + destruct (l2_x ds) as [x|]; [|discriminate].
          destruct (l2_y ds) as [y|]; [|discriminate].
          destruct (l2_goes_imager_projection ds) as [proj|]; [|discriminate].
          cbn [mbind option_bind] in Hstep. injection Hstep as <-.
          apply Hset. split; [exact Hchannel|]. exists ds, calibrated. cbn.
          do 8 (split; [first [assumption | reflexivity]|]).
          intros c [= <-]. auto.
        + injection Hstep as <-.
          apply Hset. split; [exact Hchannel|]. exists ds, calibrated. cbn.
          do 8 (split; [first [assumption | reflexivity]|]).
          intros c Hc. discriminate.
      - injection Hstep as <-. split; [exact Hnodup|]. split; [exact Hall|].
        split; [auto|]. intros calibrated Hc. discriminate. }
    destruct Hstep' as (Hnodup1 & Hall1 & Hkeep1 & Hnew1).
    destruct (IH store1 (fun ch Hch => Hsub ch (list_elem_of_further _ _ _ Hch))
                Hnodup1 Hall1 Hloop) as (Hnodup2 & Hall2 & Hkeep2 & Hnew2).
    split; [exact Hnodup2|]. split; [exact Hall2|]. split; [auto|].
    intros ch calibrated Hin Hcmi. apply elem_of_cons in Hin as [->|Hin].
    + apply Hkeep2. eapply Hnew1. exact Hcmi.
    + eapply Hnew2; eassumption.
Qed.

Lemma load_level2_channel_returns (level2_file : string) (ds : l2_dataset buf)
    (channels_to_process : list string) (store : list (string * raw_record buf))
    (channel : string) :
  is_Some (load_level2_channel satellite py_int_of_string level2_file ds
             channels_to_process store channel) <->
  level2_channel_readable py_int_of_string ds channels_to_process channel.
Proof.
  unfold load_level2_channel, level2_channel_readable.
  destruct (l2_CMI ds channel) as [calibrated|].
  - destruct (l2_band_id ds channel) as [b|]; cbn [mbind option_bind].
    + case_bool_decide as Hhead.
      * destruct (l2_x ds) as [x|]; cbn [mbind option_bind].
        -- destruct (l2_y ds) as [y|]; cbn [mbind option_bind].
           ++ destruct (l2_goes_imager_projection ds) as [proj|]; cbn [mbind option_bind].
              ** split; [|eauto]. intros _ _. split; [left; eauto|]. intros _. eauto.
              ** split; [intros [? [=]]|]. intros Hread.
                 destruct (Hread ltac:(eauto)) as [_ Hcoords].
                 destruct (Hcoords Hhead) as (_ & _ & [? [=]]).
           ++ split; [intros [? [=]]|]. intros Hread.
              destruct (Hread ltac:(eauto)) as [_ Hcoords].
              destruct (Hcoords Hhead) as (_ & [? [=]] & _).
        -- split; [intros [? [=]]|]. intros Hread.
           destruct (Hread ltac:(eauto)) as [_ Hcoords].
           destruct (Hcoords Hhead) as ([? [=]] & _).
      * split; [|eauto]. intros _ _. split; [left; eauto|]. intros Hh. contradiction.
    + destruct (py_int_of_string (drop_first channel)) as [b|]; cbn [mbind option_bind].
      * case_bool_decide as Hhead.
        -- destruct (l2_x ds) as [x|]; cbn [mbind option_bind].
           ++ destruct (l2_y ds) as [y|]; cbn [mbind option_bind].
              ** destruct (l2_goes_imager_projection ds) as [proj|];
                   cbn [mbind option_bind].
                 --- split; [|eauto]. intros _ _. split; [right; eauto|]. intros _. eauto.
                 --- split; [intros [? [=]]|]. intros Hread.
                     destruct (Hread ltac:(eauto)) as [_ Hcoords].
                     destruct (Hcoords Hhead) as (_ & _ & [? [=]]).
              ** split; [intros [? [=]]|]. intros Hread.
                 destruct (Hread ltac:(eauto)) as [_ Hcoords].
                 destruct (Hcoords Hhead) as (_ & [? [=]] & _).
           ++ split; [intros [? [=]]|]. intros Hread.
              destruct (Hread ltac:(eauto)) as [_ Hcoords].
              destruct (Hcoords Hhead) as ([? [=]] & _).
        -- split; [|eauto]. intros _ _. split; [right; eauto|]. intros Hh. contradiction.
      * split; [intros [? [=]]|]. intros Hread.
        destruct (Hread ltac:(eauto)) as [[[? [=]]|[? [=]]] _].
  - split; [|eauto]. intros _ [? [=]].
Qed.

Lemma load_level2_loop_returns (level2_file : string) (ds : l2_dataset buf)
    (channels_to_process remaining : list string)
    (store : list (string * raw_record buf)) :
  is_Some (load_level2_loop satellite py_int_of_string level2_file ds channels_to_process
             remaining store) <->
  forall channel, channel ∈ remaining ->
    level2_channel_readable py_int_of_string ds channels_to_process channel.
Proof.
  revert store. induction remaining as [|channel rest IH]; intros store;
    cbn [load_level2_loop].
  - split; [|eauto]. intros _ ch Hin. apply elem_of_nil in Hin. contradiction.
  - pose proof (load_level2_channel_returns level2_file ds channels_to_process store
                  channel) as Hturn.
    destruct (load_level2_channel satellite py_int_of_string level2_file ds
                channels_to_process store channel) as [store1|];
      cbn [mbind option_bind].
    + rewrite IH. split.
      * intros Hrest ch Hin. apply elem_of_cons in Hin as [->|Hin]; [|auto].
        apply Hturn. eauto.
      * intros Hall ch Hin. apply Hall. apply list_elem_of_further. exact Hin.
    + split; [intros [? [=]]|]. intros Hall. apply Hturn.
      apply Hall. apply list_elem_of_here.
Qed.

(** X19. The Level 2 loader reads every channel from one file, the one of the
    first download, whatever the channels to process.  It raises only
    when there is no download at all.  Otherwise it returns a store.
    When the file opens, has its two dimensions and every turn of the
    loop reads without an exception, the store holds a record for every
    channel to process whose variable is in the file; in every other
    case the store is empty.  A record holds the calibrated array of the
    file with its shape as native shape, no radiance, the data level
    "level2" and the type "ir" exactly for the unit K.  Coordinates are
    attached to no record but that of the first channel to process. *)
Theorem level2_store (channels_to_process : list string) :
  (DOWNLOAD_RESULTS = [] ->
   load_level2_data open_level2 DOWNLOAD_RESULTS satellite py_int_of_string
     channels_to_process = None) /\
  (forall first rest,
     DOWNLOAD_RESULTS = first :: rest ->
     exists store,
       load_level2_data open_level2 DOWNLOAD_RESULTS satellite py_int_of_string
         channels_to_process = Some store /\
       NoDup (dict_keys store) /\
       (forall ch r, (ch, r) ∈ store ->
          level2_loaded open_level2 (snd first) channels_to_process ch r) /\
       (level2_readable open_level2 py_int_of_string (snd first) channels_to_process ->
        exists ds,
          open_level2 (snd first) = Some ds /\
          forall ch calibrated,
            ch ∈ channels_to_process -> l2_CMI ds ch = Some calibrated ->
            ch ∈ dict_keys store) /\
       (~ level2_readable open_level2 py_int_of_string (snd first) channels_to_process ->
        store = [])).
Proof.
  unfold load_level2_data. split; [intros ->; reflexivity|].
  intros first rest ->. cbn [head mbind option_bind].
  assert (Hempty :
    ~ level2_readable open_level2 py_int_of_string (snd first) channels_to_process ->
    exists store : list (string * raw_record buf),
      Some (@nil (string * raw_record buf)) = Some store /\
      NoDup (dict_keys store) /\
      (forall ch r, (ch, r) ∈ store ->
         level2_loaded open_level2 (snd first) channels_to_process ch r) /\
      (level2_readable open_level2 py_int_of_string (snd first) channels_to_process ->
       exists ds,
         open_level2 (snd first) = Some ds /\
         forall ch calibrated,
           ch ∈ channels_to_process -> l2_CMI ds ch = Some calibrated ->
           ch ∈ dict_keys store) /\
      (~ level2_readable open_level2 py_int_of_string (snd first) channels_to_process ->
       store = [])).
  { intros Hnot. exists []. split; [reflexivity|]. split; [apply NoDup_nil_2|].
    split; [|split; [intros Hread; contradiction | reflexivity]].
    intros ch r Hin. apply elem_of_nil in Hin. contradiction. }
  destruct (open_level2 (snd first)) as [ds|] eqn:Hopen.
  2:{ apply Hempty. intros (ds & Hds & _). rewrite Hopen in Hds. discriminate Hds. }
  cbn [mbind option_bind].
  destruct (l2_dims ds) as [dims|] eqn:Hdims.
  2:{ apply Hempty. intros (ds' & Hds & [? Hsome] & _).
      rewrite Hopen in Hds. injection Hds as <-. rewrite Hdims in Hsome.
      discriminate Hsome. }
  cbn [mbind option_bind].
  pose proof (load_level2_loop_returns (snd first) ds channels_to_process
                channels_to_process []) as Hreturns.
  destruct (load_level2_loop satellite py_int_of_string (snd first) ds channels_to_process
              channels_to_process []) as [store|] eqn:Hloop.
  2:{ apply Hempty. intros (ds' & Hds & _ & Hall).
      rewrite Hopen in Hds. injection Hds as <-.
      apply Hreturns in Hall. destruct Hall as [? [=]]. }
  destruct (load_level2_loop_invariant (snd first) ds channels_to_process
              channels_to_process [] store Hopen) as (Hnodup & Hall & _ & Hnew); auto.
  - apply NoDup_nil_2.
  - intros ch r Hin. apply elem_of_nil in Hin. contradiction.
  - exists store. split; [reflexivity|]. split; [exact Hnodup|]. split; [exact Hall|].
    split.
    + intros _. exists ds. split; [reflexivity|]. exact Hnew.
    + intros Hnot. exfalso. apply Hnot. exists ds. split; [exact Hopen|].
      split; [rewrite Hdims; eauto|]. apply Hreturns. eauto.
Qed.

End Level2.

Lemma level1b_store_witness :
  exists r c,
    dict_get "C13"
      (fst (load_level1b_data (fun _ => Some c13_file) c13_download "16" None ["C13"%string])) =
      Some r /\
    coordinate_data r = Some c /\ primary_channel c = "C13"%string.
Proof.
  pose proof (level1b_store (fun _ => Some c13_file) c13_download "16" None ["C13"%string])
    as (_ & Hall & Hcoords & _).
  cbv zeta in Hall, Hcoords.
  set (store := fst (load_level1b_data (fun _ => Some c13_file) c13_download "16" None
                       ["C13"%string])) in *.
  assert (Hstore : exists r c, ("C13"%string, r) ∈ store /\ coordinate_data r = Some c).
  { eexists _, _. split; [apply list_elem_of_here | reflexivity]. }
  destruct Hstore as (r & c & Hin & Hc).
  exists r, c.
  destruct (Hcoords "C13"%string r c "C13"%string Hin Hc eq_refl) as [_ Hget].
  split; [exact Hget|]. split; [exact Hc|].
  destruct (Hall _ _ Hin) as (_ & path & ds & rad & band & Hloaded).
  destruct Hloaded as (_ & _ & _ & _ & _ & _ & _ & _ & _ & _ & _ & Hdesignated).
  exact (proj1 (proj2 (Hdesignated c Hc))).
Defined.

Lemma authority_geotransform_witness :
  exists a pixel_size_x pixel_size_y,
    GOESProjectionAuthority c13_file = Some a /\
    get_geotransform a 0 2 = Raised ZeroDivisionError /\
    get_geotransform a 2 2 =
      Returned [float64 (x_min a * sat_height a); pixel_size_x; 0.0%R;
                float64 (y_max a * sat_height a); 0.0%R; (- pixel_size_y)%R] /\
    (0 <= pixel_size_y)%R.
Proof.
  destruct (authority_geotransform c13_file _ 0 2 eq_refl) as [Hraise _].
  destruct (authority_geotransform c13_file _ 2 2 eq_refl)
    as (_ & _ & _ & _ & _ & Hsized).
  destruct (Hsized ltac:(discriminate) ltac:(discriminate))
    as (detected_km & pixel_size_x & pixel_size_y & _ & Hgeo & _ & _ & _ & Hy & _).
  eexists _, pixel_size_x, pixel_size_y. split; [reflexivity|].
  split; [apply Hraise; left; reflexivity|]. split; [exact Hgeo | exact Hy].
Defined.

Lemma c13_level2_readable :
  level2_readable (fun _ : string => Some c13_level2_file) (fun _ => Some 13%Z)
    "OR_ABI-L1b-RadC-M6C13.nc" ["C13"; "C14"]%string.
Proof.
  exists c13_level2_file. split; [reflexivity|]. split; [eexists; reflexivity|].
  intros channel _ _. split; [right; eexists; reflexivity|].
  intros _. repeat split; eexists; reflexivity.
Defined.

Lemma level2_store_witness :
  exists store,
    load_level2_data (fun _ => Some c13_level2_file) c13_download "16" (fun _ => Some 13%Z)
      ["C13"; "C14"]%string = Some store /\
    "C13"%string ∈ dict_keys store.
Proof.
  destruct (proj2 (level2_store (fun _ => Some c13_level2_file) c13_download "16"
                     (fun _ => Some 13%Z) ["C13"; "C14"]%string) _ _ eq_refl)
    as (store & Hload & _ & _ & Hcomplete & _).
  exists store. split; [exact Hload|].
  destruct (Hcomplete c13_level2_readable) as (ds & Hopen & Hall).
  injection Hopen as <-.
  apply (Hall "C13"%string (MkArray (1, 2)%nat RawRadiance)); [|reflexivity].
  apply list_elem_of_here.
Defined.

(** ** The Planck constants a worker calibrates with *)

Section WorkerConstants.

Context {buf img : Type} `{Backend buf img}.

Lemma dataset_constants_returned (d : mock_dataset) (a b c e : R) :
  planck_fk1 d = Some a -> planck_fk2 d = Some b ->
  planck_bc1 d = Some c -> planck_bc2 d = Some e ->
  dataset_constants d = Returned (a, b, c, e).
Proof.
  intros Ha Hb Hc He. unfold dataset_constants. rewrite Ha, Hb, Hc, He. reflexivity.
Qed.

Lemma select_constants_table (channel_code : string) (ds : option mock_dataset) :
  ds = None \/
  (exists d, ds = Some d /\
     (planck_fk1 d = None \/ planck_fk2 d = None \/
      planck_bc1 d = None \/ planck_bc2 d = None)) ->
  select_constants channel_code ds =
  row_planck (default C13_CONSTANTS (dict_get channel_code CHANNEL_CONSTANTS)).
Proof.
  intros [->|(d & -> & Hnone)]; unfold select_constants.
  - destruct (dict_get channel_code CHANNEL_CONSTANTS); reflexivity.
  - apply dataset_constants_raised in Hnone as [e He]. rewrite He. reflexivity.
Qed.

Variable open_dataset : string -> option (l1b_dataset buf).
Variable DOWNLOAD_RESULTS : list (string * string).
Variable satellite : string.

(** A stored record is the dictionary built from its channel's file, with
    or without the coordinates. *)
Lemma load_level1b_built (channels_to_process l : list string)
    (state : list (string * raw_record buf) * option authority) :
  (forall ch r, (ch, r) ∈ fst state ->
     exists path ds record0,
       dict_get ch DOWNLOAD_RESULTS = Some path /\ open_dataset path = Some ds /\
       level1b_record satellite path ds = Some record0 /\
       (r = record0 \/ exists c, r = with_coordinates record0 c)) ->
  forall ch r,
    (ch, r) ∈ fst (fold_left (load_level1b_channel open_dataset DOWNLOAD_RESULTS satellite
                                channels_to_process) l state) ->
    exists path ds record0,
      dict_get ch DOWNLOAD_RESULTS = Some path /\ open_dataset path = Some ds /\
      level1b_record satellite path ds = Some record0 /\
      (r = record0 \/ exists c, r = with_coordinates record0 c).
Proof.
  revert state. induction l as [|channel l IH]; intros state Hall; cbn [fold_left];
    [exact Hall|].
  apply IH. unfold load_level1b_channel. destruct state as [store auth].
  cbn [fst snd] in *.
  destruct (dict_get channel DOWNLOAD_RESULTS) as [path|] eqn:Hpath; [|exact Hall].
  destruct (open_dataset path) as [ds|] eqn:Hopen; [|exact Hall].
  destruct (match auth with
            | Some a => Some (Some a)
            | None => option_map Some (GOESProjectionAuthority ds)
            end) as [auth'|]; [|exact Hall].
  destruct (level1b_record satellite path ds) as [record|] eqn:Hrecord; [|exact Hall].
  assert (Hstored : forall record',
            record' = record \/ (exists c, record' = with_coordinates record c) ->
            forall ch r, (ch, r) ∈ dict_set channel record' store ->
              exists path ds record0,
                dict_get ch DOWNLOAD_RESULTS = Some path /\ open_dataset path = Some ds /\
                level1b_record satellite path ds = Some record0 /\
                (r = record0 \/ exists c, r = with_coordinates record0 c)).
  { intros record' Hrecord' ch r Hin.
    apply elem_of_dict_set in Hin as [[-> ->]|Hold]; [|apply Hall; exact Hold].
    exists path, ds, record. auto. }
  destruct (carries_coordinates channels_to_process channel);
    [destruct (level1b_coordinates channel ds) as [c|]|]; cbn [fst snd];
    apply Hstored; eauto.
Qed.

(** X20. In a worker, an infrared channel that the Level 1b loader stored
    is calibrated by the brightness temperature kernel on the radiance
    cast to float32, with four Planck constants cast to float32: those
    of the channel's file when the file has all four, and otherwise all
    four of the table's row for the channel code, the file's remaining
    constants being dropped; a channel code that is not in the table
    (anything but C07 to C16) takes the row of C13.  The result has the
    radiance's shape. *)
Theorem worker_planck_constants (projection_authority : option authority)
    (channels_to_process : list string) (channel : string) (raw_data : raw_record buf)
    (rad : ndarray buf) :
  (channel, raw_data) ∈
    fst (load_level1b_data open_dataset DOWNLOAD_RESULTS satellite projection_authority
           channels_to_process) ->
  channel_type raw_data = "ir"%string ->
  exists (path : string) (ds : l1b_dataset buf) (fk1 fk2 bc1 bc2 : R),
    dict_get channel DOWNLOAD_RESULTS = Some path /\
    open_dataset path = Some ds /\
    calibrate channel raw_data rad =
      Returned (MkArray (shape rad)
                  (numba_radiance_to_brightness_temp (astype_float32 rad)
                     (float32 fk1) (float32 fk2) (float32 bc1) (float32 bc2))) /\
    (forall a b c e : R,
       ds_planck_fk1 ds = Some a -> ds_planck_fk2 ds = Some b ->
       ds_planck_bc1 ds = Some c -> ds_planck_bc2 ds = Some e ->
       (fk1, fk2, bc1, bc2) = (a, b, c, e)) /\
    (ds_planck_fk1 ds = None \/ ds_planck_fk2 ds = None \/
     ds_planck_bc1 ds = None \/ ds_planck_bc2 ds = None ->
     (forall row, dict_get channel CHANNEL_CONSTANTS = Some row ->
        (fk1, fk2, bc1, bc2) = row_planck row) /\
     (channel ∉ dict_keys CHANNEL_CONSTANTS ->
        (fk1, fk2, bc1, bc2) = (7.47300e+02, 8.68467e+02, 0.53083, 0.99111)%R)).
Proof.
  intros Hin Hir. unfold load_level1b_data in Hin.
  apply load_level1b_built in Hin as (path & ds & record0 & Hpath & Hopen & Hrecord & Hform).
  2:{ intros ch r Hnil. apply elem_of_nil in Hnil. contradiction. }
  assert (Hplanck :
    raw_planck_fk1 raw_data = ds_planck_fk1 ds /\
    raw_planck_fk2 raw_data = ds_planck_fk2 ds /\
    raw_planck_bc1 raw_data = ds_planck_bc1 ds /\
    raw_planck_bc2 raw_data = ds_planck_bc2 ds).
  { unfold level1b_record in Hrecord.
    destruct (ds_Rad ds) as [rad0|]; [|discriminate].
    destruct (ds_band_id ds) as [band|]; [|discriminate].
    destruct (ds_time_coverage_start ds) as [start|]; [|discriminate].
    destruct (ds_time_coverage_end ds) as [stop|]; [|discriminate].
    cbn in Hrecord. injection Hrecord as <-.
    destruct Hform as [->|[c ->]]; cbn in Hir |- *;
      (destruct (7 <=? band)%Z; [auto | discriminate Hir]). }
  destruct Hplanck as (Hfk1 & Hfk2 & Hbc1 & Hbc2).
  destruct (select_constants channel (simple_mock_ds raw_data))
    as [[[fk1 fk2] bc1] bc2] eqn:Hsel.
  exists path, ds, fk1, fk2, bc1, bc2.
  split; [exact Hpath|]. split; [exact Hopen|]. split; [|split].
  - unfold calibrate. rewrite Hir. cbn [String.eqb Ascii.eqb Bool.eqb].
    unfold radiance_to_brightness_temp. rewrite Hsel. reflexivity.
  - intros a b c e Ha Hb Hc He. rewrite <- Hsel.
    unfold simple_mock_ds. rewrite Hfk1, Ha. unfold select_constants.
    rewrite (dataset_constants_returned _ a b c e); [reflexivity|cbn; congruence..].
  - intros Hnone.
    assert (Htable : (fk1, fk2, bc1, bc2) =
      row_planck (default C13_CONSTANTS (dict_get channel CHANNEL_CONSTANTS))).
    { rewrite <- Hsel. apply select_constants_table.
      unfold simple_mock_ds.
      destruct (raw_planck_fk1 raw_data) as [a|] eqn:Ha; [right|left; reflexivity].
      eexists. split; [reflexivity|]. cbn.
      destruct Hnone as [Hn|[Hn|[Hn|Hn]]]; [congruence|right..].
      - left. congruence.
      - right. left. congruence.
      - right. right. congruence. }
    split.
    + intros row Hrow. rewrite Htable, Hrow. reflexivity.
    + intros Hout. rewrite Htable.
      destruct (dict_get channel CHANNEL_CONSTANTS) as [row|] eqn:Hrow; [|reflexivity].
      exfalso. apply Hout. apply dict_get_Some_elem. exists row. exact Hrow.
Qed.

End WorkerConstants.

Lemma worker_planck_constants_witness :
  exists raw_data,
    ("C13"%string, raw_data) ∈
      fst (load_level1b_data (fun _ => Some c13_file) c13_download "16" None
             ["C13"%string]) /\
    calibrate (H := symbolic_backend) "C13" raw_data (MkArray (1, 1)%nat RawRadiance) =
    Returned (MkArray (1, 1)%nat
                (numba_radiance_to_brightness_temp (Backend := symbolic_backend)
                   (astype_float32 (Backend := symbolic_backend)
                      (MkArray (1, 1)%nat RawRadiance))
                   (float32 7.47300e+02) (float32 8.68467e+02)
                   (float32 0.53083) (float32 0.99111))).
Proof.
  eexists. split; [apply list_elem_of_here|].
  destruct (worker_planck_constants (H := symbolic_backend) (fun _ => Some c13_file)
              c13_download "16" None ["C13"%string] "C13" _
              (MkArray (1, 1)%nat RawRadiance) (list_elem_of_here _ _) eq_refl)
    as (path & ds & fk1 & fk2 & bc1 & bc2 & _ & Hopen & Hcal & _ & Htable).
  injection Hopen as <-.
  destruct (Htable (or_introl eq_refl)) as [Hrow _].
  specialize (Hrow C13_CONSTANTS eq_refl). injection Hrow as -> -> -> ->. exact Hcal.
Defined.
(** ** Grid sampling *)

Section Sampling.

Lemma slice_from_lookup {A : Type} (step : nat) (l : list A) (wait i : nat) :
  (0 < step)%nat -> slice_from step wait l !! i = l !! (wait + i * step)%nat.
Proof.
  intros Hstep. revert wait i.
  induction l as [|x l IH]; intros wait i; cbn [slice_from].
  - rewrite !lookup_nil. reflexivity.
  - destruct wait as [|w].
    + destruct i as [|i]; [reflexivity|].
      cbn [lookup list_lookup]. rewrite IH.
      replace (0 + S i * step)%nat with (S (step - 1 + i * step)) by lia.
      reflexivity.
    + rewrite IH. reflexivity.
Qed.

Lemma slice_from_length {A : Type} (step : nat) (l : list A) (wait : nat) :
  (0 < step)%nat ->
  length (slice_from step wait l) = slice_length (length l - wait) step.
Proof.
  intros Hstep. unfold slice_length. revert wait.
  induction l as [|x l IH]; intros wait; cbn [slice_from length].
  - cbn [Nat.sub]. rewrite Nat.div_small by lia. reflexivity.
  - destruct wait as [|w].
    + cbn [length]. rewrite IH.
      replace (S (length l) - 0 + step - 1)%nat with (length l + 1 * step)%nat by lia.
      rewrite Nat.div_add by lia.
      destruct (le_lt_dec (step - 1) (length l)) as [Hle|Hlt].
      * replace (length l - (step - 1) + step - 1)%nat with (length l) by lia. lia.
      * replace (length l - (step - 1) + step - 1)%nat with (step - 1)%nat by lia.
        rewrite !Nat.div_small by lia. reflexivity.
    + rewrite IH. reflexivity.
Qed.

Lemma slice_from_map {A B : Type} (f : A -> B) (step : nat) (l : list A) (wait : nat) :
  slice_from step wait (map f l) = map f (slice_from step wait l).
Proof.
  revert wait. induction l as [|x l IH]; intros wait; cbn [slice_from map]; [reflexivity|].
  destruct wait; cbn [map]; rewrite IH; reflexivity.
Qed.

Lemma slice_from_compose {A : Type} (m n : nat) (l : list A) :
  (0 < m)%nat -> (0 < n)%nat ->
  slice_from n 0 (slice_from m 0 l) = slice_from (m * n) 0 l.
Proof.
  intros Hm Hn. apply list_eq. intros i.
  rewrite !slice_from_lookup by lia. f_equal. lia.
Qed.

Lemma slice_from_one {A : Type} (l : list A) : slice_from 1 0 l = l.
Proof.
  apply list_eq. intros i. rewrite slice_from_lookup by lia. f_equal. lia.
Qed.

Lemma slice_length_compose (len m n : nat) :
  (0 < m)%nat -> (0 < n)%nat ->
  slice_length (slice_length len m) n = slice_length len (m * n).
Proof.
  intros Hm Hn.
  pose proof (f_equal (@length unit) (slice_from_compose m n (repeat tt len) Hm Hn)) as Hlen.
  rewrite !slice_from_length in Hlen by lia.
  rewrite repeat_length, !Nat.sub_0_r in Hlen. exact Hlen.
Qed.

Lemma slice_length_one (len : nat) : slice_length len 1 = len.
Proof. unfold slice_length. rewrite Nat.div_1_r. lia. Qed.

Lemma slice_axis_positive {A : Type} (n : Z) (l : list A) :
  (0 < n)%Z -> slice_axis n l = slice_from (Z.to_nat n) 0 l.
Proof.
  intros Hn. unfold slice_axis.
  destruct (Z.ltb_spec 0 n) as [_|Hle]; [reflexivity | lia].
Qed.

Lemma slice_two_axes_positive {B : Type} (n : Z) (a : ndarray (grid B)) :
  (0 < n)%Z ->
  slice_two_axes n a =
  Returned
    (MkArray (slice_length (fst (shape a)) (Z.to_nat n),
              slice_length (snd (shape a)) (Z.to_nat n))
       (map (fun row => slice_from (Z.to_nat n) 0 row)
          (slice_from (Z.to_nat n) 0 (data a)))).
Proof.
  intros Hn. unfold slice_two_axes.
  destruct (Z.eqb_spec n 0) as [->|_]; [lia|].
  cbv zeta. rewrite Z.abs_eq by lia. rewrite slice_axis_positive by exact Hn.
  f_equal. f_equal. apply map_ext. intros row. apply slice_axis_positive. exact Hn.
Qed.

Lemma slice_two_axes_cell {B : Type} (n : nat) (g : grid B) (i j : nat) :
  (0 < n)%nat ->
  cell (map (fun row => slice_from n 0 row) (slice_from n 0 g)) i j =
  cell g (i * n) (j * n).
Proof.
  intros Hn. unfold cell.
  rewrite lookup_map, slice_from_lookup by exact Hn. cbn [Nat.add].
  destruct (g !! (i * n)%nat) as [row|]; cbn [fmap option_fmap option_map]; [|reflexivity].
  rewrite slice_from_lookup by exact Hn. reflexivity.
Qed.

Lemma slice_two_axes_rectangular {B : Type} (n : nat) (a : ndarray (grid B)) :
  (0 < n)%nat -> rectangular a ->
  rectangular
    (MkArray (slice_length (fst (shape a)) n, slice_length (snd (shape a)) n)
       (map (fun row => slice_from n 0 row) (slice_from n 0 (data a)))).
Proof.
  intros Hn [Hrows Hcols]. unfold rectangular. cbn [data shape fst snd]. split.
  - rewrite length_map, slice_from_length by exact Hn.
    rewrite Nat.sub_0_r, Hrows. reflexivity.
  - apply Forall_forall. intros row' Hin.
    apply list_elem_of_fmap in Hin as (row & -> & Hin).
    rewrite slice_from_length by exact Hn. rewrite Nat.sub_0_r.
    apply list_elem_of_lookup in Hin as [i Hi].
    rewrite slice_from_lookup in Hi by exact Hn.
    rewrite Forall_forall in Hcols.
    rewrite (Hcols row); [reflexivity|].
    apply list_elem_of_lookup. eauto.
Qed.

Lemma slice_two_axes_compose {B : Type} (m n : Z) (a : ndarray (grid B)) :
  (0 < m)%Z -> (0 < n)%Z ->
  (a' <-- slice_two_axes m a ;; slice_two_axes n a') = slice_two_axes (m * n) a.
Proof.
  intros Hm Hn.
  rewrite (slice_two_axes_positive m) by exact Hm. cbn [obind].
  rewrite !slice_two_axes_positive by lia. cbn [shape data fst snd].
  rewrite Z2Nat.inj_mul by lia.
  rewrite !slice_length_compose by lia.
  f_equal. f_equal.
  rewrite slice_from_map, map_map, slice_from_compose by lia.
  apply map_ext. intros row. apply slice_from_compose; lia.
Qed.

Lemma slice_two_axes_one {B : Type} (a : ndarray (grid B)) :
  slice_two_axes 1 a = Returned a.
Proof.
  rewrite slice_two_axes_positive by lia.
  change (Z.to_nat 1) with 1%nat. rewrite !slice_length_one, slice_from_one.
  rewrite (map_ext _ (fun row => row)) by (intros row; apply slice_from_one).
  rewrite map_id. destruct a as [[h w] g]. reflexivity.
Qed.

(** X21. Sampling with a positive rate [n] keeps, of a 2-D array, the cells
    whose row and column indexes are multiples of [n]: the result has
    ceil(h/n) rows and ceil(w/n) columns, its cell [(i, j)] is the input's
    cell [(i n, j n)], and it is rectangular when the input is.  A 3-D
    array is sampled the same way along its first two axes, every kept
    cell keeping its whole last axis.  Rate 1 returns the array as it is,
    sampling by [m] and then by [n] is sampling by [m n], a zero rate
    raises ValueError on a 2-D or 3-D array, and an array of another rank
    is returned unchanged whatever the rate. *)
Theorem sample_grid_cells {A : Type} (n : Z) :
  (0 < n)%Z ->
  (forall a : ndarray (grid A),
     exists a',
       sample_grid (Rank2 a) n = Returned (Rank2 a') /\
       shape a' = ((fst (shape a) + Z.to_nat n - 1) / Z.to_nat n,
                   (snd (shape a) + Z.to_nat n - 1) / Z.to_nat n)%nat /\
       (forall i j, cell (data a') i j = cell (data a) (i * Z.to_nat n) (j * Z.to_nat n)) /\
       (rectangular a -> rectangular a')) /\
  (forall (depth : nat) (a : ndarray (grid (list A))),
     exists a',
       sample_grid (Rank3 depth a) n = Returned (Rank3 depth a') /\
       shape a' = ((fst (shape a) + Z.to_nat n - 1) / Z.to_nat n,
                   (snd (shape a) + Z.to_nat n - 1) / Z.to_nat n)%nat /\
       (forall i j, cell (data a') i j = cell (data a) (i * Z.to_nat n) (j * Z.to_nat n)) /\
       (rectangular a -> rectangular a')) /\
  (forall arr : geo_array A, sample_grid arr 1 = Returned arr) /\
  (forall (arr : geo_array A) (m : Z),
     (0 < m)%Z ->
     (arr' <-- sample_grid arr m ;; sample_grid arr' n) = sample_grid arr (m * n)) /\
  (forall arr : geo_array A,
     sample_grid arr 0 =
     if bool_decide (ndim arr = 2 \/ ndim arr = 3)%nat then Raised ValueError
     else Returned arr) /\
  (forall (arr : geo_array A) (k : Z),
     ndim arr <> 2%nat -> ndim arr <> 3%nat -> sample_grid arr k = Returned arr).
Proof.
  intros Hn.
  assert (Hpos : (0 < Z.to_nat n)%nat) by lia.
  split; [|split; [|split; [|split; [|split]]]].
  - intros a. eexists. unfold sample_grid. cbn [ndim Nat.eqb].
    rewrite slice_two_axes_positive by exact Hn. cbn [obind].
    split; [reflexivity|]. split; [reflexivity|]. split.
    + intros i j. cbn [data]. apply slice_two_axes_cell. exact Hpos.
    + apply slice_two_axes_rectangular. exact Hpos.
  - intros depth a. eexists. unfold sample_grid. cbn [ndim Nat.eqb].
    rewrite slice_two_axes_positive by exact Hn. cbn [obind].
    split; [reflexivity|]. split; [reflexivity|]. split.
    + intros i j. cbn [data]. apply slice_two_axes_cell. exact Hpos.
    + apply slice_two_axes_rectangular. exact Hpos.
  - intros [x|v|a|depth a]; unfold sample_grid; cbn [ndim Nat.eqb]; try reflexivity;
      rewrite slice_two_axes_one; reflexivity.
  - intros [x|v|a|depth a] m Hm; unfold sample_grid; cbn [ndim Nat.eqb obind];
      try reflexivity.
    + rewrite <- (slice_two_axes_compose m n a Hm Hn).
      destruct (slice_two_axes m a) as [a'|e]; reflexivity.
    + rewrite <- (slice_two_axes_compose m n a Hm Hn).
      destruct (slice_two_axes m a) as [a'|e]; reflexivity.
  - intros [x|v|a|depth a]; reflexivity.
  - intros [x|v|a|depth a] k H2 H3; cbn [ndim] in H2, H3; try reflexivity; contradiction.
Qed.

End Sampling.

Lemma sample_grid_cells_witness :
  exists a',
    sample_grid (Rank2 numbered_grid) 2 = Returned (Rank2 a') /\
    shape a' = (2, 3)%nat /\
    cell (data a') 1 2 = Some 24%Z.
Proof.
  destruct (proj1 (sample_grid_cells (A := Z) 2 eq_refl) numbered_grid)
    as (a' & Hsample & Hshape & Hcell & _).
  exists a'. split; [exact Hsample|]. split; [exact Hshape|].
  rewrite Hcell. reflexivity.
Defined.
(** ** The standard CONUS path, end to end *)

Section StandardPathFacts.

Context {buf img : Type} `{Backend buf img}.

Variable open_dataset : string -> option (l1b_dataset buf).
Variable DOWNLOAD_RESULTS : list (string * string).
Variable satellite : string.
Variable DOMAIN_TYPE : string.
Variable scan_time_of : option string -> outcome datetime.
Variable simple_body : coordinate_data_t -> datetime -> outcome angle_grids.







End StandardPathFacts.


(** ** Products by category *)

Section Categories.

Context {img : Type}.

Lemma append_to_category_get (categories : list (string * list string))
    (category product_name c : string) :
  dict_get c (append_to_category categories category product_name) =
  if String.eqb c category then Some (default [] (dict_get category categories) ++ [product_name])
  else dict_get c categories.
Proof.
  unfold append_to_category.
  destruct (dict_get category categories) as [products|] eqn:Hget;
    rewrite dict_get_set; reflexivity.
Qed.

Lemma append_to_category_nodup (categories : list (string * list string))
    (category product_name : string) :
  NoDup (dict_keys categories) ->
  NoDup (dict_keys (append_to_category categories category product_name)).
Proof.
  intros Hnodup. unfold append_to_category.
  destruct (dict_get category categories); apply dict_set_nodup; exact Hnodup.
Qed.

Lemma group_fold (l : list string) (acc : list (string * list string)) (c : string) :
  dict_get c
    (fold_left
       (fun (categories : list (string * list string)) (product_name : string) =>
          match dict_get product_name RGB_CATALOG with
          | Some info => append_to_category categories (cat_category info) product_name
          | None => categories
          end) l acc) =
  filed (dict_get c acc) (filter (fun p => category_of p = Some c) l).
Proof.
  revert acc. induction l as [|p l IH]; intros acc; cbn [fold_left].
  - rewrite filter_nil. unfold filed. destruct (dict_get c acc) as [l0|]; [|reflexivity].
    cbn [default]. rewrite app_nil_r. reflexivity.
  - rewrite IH, filter_cons.
    destruct (dict_get p RGB_CATALOG) as [info|] eqn:Hinfo.
    + assert (Hcat : category_of p = Some (cat_category info))
        by (unfold category_of; rewrite Hinfo; reflexivity).
      rewrite append_to_category_get.
      destruct (decide (category_of p = Some c)) as [Heq|Hne].
      * rewrite Hcat in Heq. injection Heq as <-. rewrite String.eqb_refl.
        unfold filed.
        destruct (dict_get (cat_category info) acc) as [l0|]; simpl;
          rewrite <- ?app_assoc; reflexivity.
      * destruct (String.eqb_spec c (cat_category info)) as [->|_];
          [exfalso; apply Hne; exact Hcat|].
        reflexivity.
    + assert (Hcat : category_of p = None)
        by (unfold category_of; rewrite Hinfo; reflexivity).
      destruct (decide (category_of p = Some c)) as [Heq|_]; [congruence|]. reflexivity.
Qed.

Lemma group_fold_nodup (l : list string) (acc : list (string * list string)) :
  NoDup (dict_keys acc) ->
  NoDup (dict_keys
    (fold_left
       (fun (categories : list (string * list string)) (product_name : string) =>
          match dict_get product_name RGB_CATALOG with
          | Some info => append_to_category categories (cat_category info) product_name
          | None => categories
          end) l acc)).
Proof.
  revert acc. induction l as [|p l IH]; intros acc Hnodup; cbn [fold_left]; [exact Hnodup|].
  apply IH. destruct (dict_get p RGB_CATALOG); [|exact Hnodup].
  apply append_to_category_nodup. exact Hnodup.
Qed.

Lemma by_category_fold (l : list string) (acc : list (string * list string)) :
  Forall (fun p => exists info, dict_get p RGB_CATALOG = Some info) l ->
  fold_left
    (fun (acc : outcome (list (string * list string))) (product : string) =>
       categories <-- acc ;;
       info <-- subscript (dict_get product RGB_CATALOG) ;;
       Returned (append_to_category categories (cat_category info) product))
    l (Returned acc) =
  Returned
    (fold_left
       (fun (categories : list (string * list string)) (product_name : string) =>
          match dict_get product_name RGB_CATALOG with
          | Some info => append_to_category categories (cat_category info) product_name
          | None => categories
          end) l acc).
Proof.
  revert acc. induction l as [|p l IH]; intros acc Hall; cbn [fold_left]; [reflexivity|].
  apply Forall_cons in Hall as [[info Hinfo] Hall].
  rewrite Hinfo. cbn [obind subscript]. apply IH. exact Hall.
Qed.

Lemma available_in_catalog (available : gset string) (items : list (string * catalog_entry))
    (acc : list string) :
  Forall (fun kv : string * catalog_entry => dict_get (fst kv) RGB_CATALOG = Some (snd kv))
    items ->
  Forall (fun p => exists info, dict_get p RGB_CATALOG = Some info) acc ->
  Forall (fun p => exists info, dict_get p RGB_CATALOG = Some info)
    (fold_left
       (fun (products : list string) (item : string * catalog_entry) =>
          let required_channels := cat_channels (snd item) in
          if forallb (fun ch => bool_decide (ch ∈ available)) required_channels
          then products ++ [fst item]
          else products)
       items acc).
Proof.
  revert acc. induction items as [|item items IH]; intros acc Hitems Hacc; cbn [fold_left];
    [exact Hacc|].
  apply Forall_cons in Hitems as [Hitem Hitems].
  apply IH; [exact Hitems|]. cbv zeta.
  destruct (forallb _ _); [|exact Hacc].
  apply Forall_app. split; [exact Hacc|].
  apply Forall_cons. split; [eauto | apply Forall_nil_2].
Qed.

(** X23. The summary of the RGB store groups the stored product names by
    their catalog category: under each category it holds exactly the
    stored names the catalog files there, in the order in which they were
    stored; a category with no stored product has no entry, a stored name
    that the catalog does not know is in no group, and no category is
    listed twice.  The grouping that [generate_all_rgb_products] displays
    is the same grouping of the available products, and its unguarded
    catalog lookup never raises. *)
Theorem products_by_category (product_names : list string) :
  (forall c : string,
     dict_get c (summary_categories product_names) =
     match filter (fun p => category_of p = Some c) product_names with
     | [] => None
     | p :: rest => Some (p :: rest)
     end) /\
  NoDup (dict_keys (summary_categories product_names)) /\
  (forall c products p,
     dict_get c (summary_categories product_names) = Some products ->
     p ∈ products <-> p ∈ product_names /\ category_of p = Some c) /\
  (forall memory_store : @memory_store_t img,
     by_category (get_available_products memory_store) =
     Returned (summary_categories (get_available_products memory_store))).
Proof.
  assert (Hget : forall c : string,
            dict_get c (summary_categories product_names) =
            match filter (fun p => category_of p = Some c) product_names with
            | [] => None
            | p :: rest => Some (p :: rest)
            end).
  { intros c. unfold summary_categories. rewrite group_fold. cbn [dict_get filed].
    destruct (filter _ product_names); reflexivity. }
  split; [exact Hget|]. split; [|split].
  - apply group_fold_nodup. apply NoDup_nil_2.
  - intros c products p Hc. rewrite Hget in Hc.
    assert (Hfilter : products = filter (fun p => category_of p = Some c) product_names).
    { destruct (filter _ product_names); [discriminate|]. injection Hc as <-. reflexivity. }
    rewrite Hfilter, list_elem_of_filter. split; intros [H1 H2]; split; assumption.
  - intros memory_store. unfold by_category, summary_categories.
    apply by_category_fold. unfold get_available_products.
    apply available_in_catalog; [exact catalog_self_lookup | apply Forall_nil_2].
Qed.

End Categories.

(** ** The temperature enhancement table *)

Section TemperatureTableFacts.

Local Open Scope R_scope.

(** Facts on the last of a list of sample points. *)
Lemma last_cons_default {A : Type} (a d : A) (l : list A) :
  List.last (a :: l) d = List.last l a.
Proof.
  revert a d. induction l as [|b l IH]; intros a d; [reflexivity|].
  change (List.last (a :: b :: l) d) with (List.last (b :: l) d). rewrite !IH. reflexivity.
Qed.

Lemma last_of_map {A B : Type} (f : A -> B) (l : list A) (d : A) :
  List.last (map f l) (f d) = f (List.last l d).
Proof.
  revert d. induction l as [|a l IH]; intros d; [reflexivity|].
  cbn [map]. rewrite !last_cons_default. apply IH.
Qed.

Lemma rising_le_last (x0 f0 : R) (rest : list (R * R)) :
  rising x0 f0 rest -> f0 <= snd (List.last rest (x0, f0)).
Proof.
  revert x0 f0. induction rest as [|[x1 f1] rest IH]; intros x0 f0 Hr; [cbn; lra|].
  destruct Hr as (_ & Hf & Hr). specialize (IH x1 f1 Hr).
  rewrite last_cons_default. lra.
Qed.

Lemma segment_bounds (x0 f0 x1 f1 v : R) :
  x0 < x1 -> f0 <= f1 -> x0 <= v <= x1 ->
  f0 <= (f1 - f0) / (x1 - x0) * (v - x0) + f0 <= f1.
Proof.
  intros Hx Hf Hv.
  set (slope := (f1 - f0) / (x1 - x0)).
  assert (Hslope : slope * (x1 - x0) = f1 - f0) by (unfold slope; field; lra).
  assert (Hpos : 0 <= slope).
  { unfold slope. apply Rmult_le_pos; [lra|]. left. apply Rinv_0_lt_compat. lra. }
  split; nra.
Qed.

Lemma segment_monotone (x0 f0 x1 f1 v w : R) :
  x0 < x1 -> f0 <= f1 -> v <= w ->
  (f1 - f0) / (x1 - x0) * (v - x0) + f0 <= (f1 - f0) / (x1 - x0) * (w - x0) + f0.
Proof.
  intros Hx Hf Hv.
  assert (Hpos : 0 <= (f1 - f0) / (x1 - x0)).
  { apply Rmult_le_pos; [lra|]. left. apply Rinv_0_lt_compat. lra. }
  nra.
Qed.

Lemma interp_from_bounds (v x0 f0 : R) (rest : list (R * R)) :
  rising x0 f0 rest -> x0 <= v ->
  f0 <= interp_from v x0 f0 rest <= snd (List.last rest (x0, f0)).
Proof.
  revert x0 f0. induction rest as [|[x1 f1] rest IH]; intros x0 f0 Hr Hv;
    cbn [interp_from]; [cbn; lra|].
  destruct Hr as (Hx & Hf & Hr). rewrite last_cons_default.
  pose proof (rising_le_last x1 f1 rest Hr) as Hlast.
  destruct (Rlt_dec v x1) as [Hlt|Hge].
  - pose proof (segment_bounds x0 f0 x1 f1 v Hx Hf) as Hseg. lra.
  - specialize (IH x1 f1 Hr). lra.
Qed.

Lemma interp_from_monotone (v w x0 f0 : R) (rest : list (R * R)) :
  rising x0 f0 rest -> x0 <= v -> v <= w ->
  interp_from v x0 f0 rest <= interp_from w x0 f0 rest.
Proof.
  revert x0 f0. induction rest as [|[x1 f1] rest IH]; intros x0 f0 Hr Hv Hw;
    cbn [interp_from]; [lra|].
  destruct Hr as (Hx & Hf & Hr).
  destruct (Rlt_dec v x1) as [Hv1|Hv1]; destruct (Rlt_dec w x1) as [Hw1|Hw1].
  - apply segment_monotone; assumption.
  - pose proof (segment_bounds x0 f0 x1 f1 v Hx Hf) as Hseg.
    pose proof (interp_from_bounds w x1 f1 rest Hr) as Hrest. lra.
  - lra.
  - apply IH; [exact Hr | lra | exact Hw].
Qed.

Lemma interp_from_last (v x0 f0 : R) (rest : list (R * R)) :
  rising x0 f0 rest -> fst (List.last rest (x0, f0)) <= v ->
  interp_from v x0 f0 rest = snd (List.last rest (x0, f0)).
Proof.
  revert x0 f0. induction rest as [|[x1 f1] rest IH]; intros x0 f0 Hr Hv;
    cbn [interp_from]; [reflexivity|].
  destruct Hr as (Hx & Hf & Hr). rewrite last_cons_default in *.
  assert (Hx1 : x1 <= fst (List.last rest (x1, f1))).
  { clear -Hr. revert x1 f1 Hr. induction rest as [|[x2 f2] rest IH]; intros x1 f1 Hr;
      [cbn; lra|].
    destruct Hr as (Hx & _ & Hr). rewrite last_cons_default.
    specialize (IH x2 f2 Hr). lra. }
  destruct (Rlt_dec v x1) as [Hlt|_]; [lra|]. apply IH; assumption.
Qed.

Lemma interp_point_bounds (x0 f0 : R) (rest : list (R * R)) (v : R) :
  rising x0 f0 rest -> f0 <= interp_point x0 f0 rest v <= snd (List.last rest (x0, f0)).
Proof.
  intros Hr. unfold interp_point. destruct (Rle_dec v x0) as [Hle|Hgt].
  - pose proof (rising_le_last x0 f0 rest Hr). lra.
  - apply interp_from_bounds; [exact Hr | lra].
Qed.

Lemma interp_point_monotone (x0 f0 : R) (rest : list (R * R)) (v w : R) :
  rising x0 f0 rest -> v <= w ->
  interp_point x0 f0 rest v <= interp_point x0 f0 rest w.
Proof.
  intros Hr Hvw. unfold interp_point.
  destruct (Rle_dec v x0) as [Hv|Hv]; destruct (Rle_dec w x0) as [Hw|Hw].
  - lra.
  - apply interp_from_bounds; [exact Hr | lra].
  - lra.
  - apply interp_from_monotone; [exact Hr | lra | exact Hvw].
Qed.

Lemma interp_point_last (x0 f0 : R) (rest : list (R * R)) (v : R) :
  rising x0 f0 rest -> fst (List.last rest (x0, f0)) <= v ->
  interp_point x0 f0 rest v = snd (List.last rest (x0, f0)).
Proof.
  intros Hr Hv. unfold interp_point. destruct (Rle_dec v x0) as [Hle|Hgt].
  - destruct rest as [|[x1 f1] rest]; [reflexivity|].
    exfalso. destruct Hr as (Hx & _ & Hr). rewrite last_cons_default in Hv.
    assert (Hx1 : x1 <= fst (List.last rest (x1, f1))).
    { clear -Hr. revert x1 f1 Hr. induction rest as [|[x2 f2] rest IH]; intros x1 f1 Hr;
        [cbn; lra|].
      destruct Hr as (Hx & _ & Hr). rewrite last_cons_default.
      specialize (IH x2 f2 Hr). lra. }
    lra.
  - apply interp_from_last; assumption.
Qed.

Lemma risingb_rising (x0 f0 : Z) (rest : list (Z * Z)) :
  risingb x0 f0 rest = true ->
  rising (IZR x0) (IZR f0) (map (fun p : Z * Z => (IZR (fst p), IZR (snd p))) rest).
Proof.
  revert x0 f0. induction rest as [|[x1 f1] rest IH]; intros x0 f0 Hb; cbn [map rising fst snd];
    [exact I|].
  cbn [risingb] in Hb. apply andb_prop in Hb as [Hb Hrest]. apply andb_prop in Hb as [Hx Hf].
  split; [apply IZR_lt, Z.ltb_lt; exact Hx|].
  split; [apply IZR_le, Z.leb_le; exact Hf|]. apply IH. exact Hrest.
Qed.

Lemma combine_IZR (xs fs : list Z) :
  combine (map IZR xs) (map IZR fs) =
  map (fun p : Z * Z => (IZR (fst p), IZR (snd p))) (combine xs fs).
Proof.
  revert fs. induction xs as [|x xs IH]; intros [|f fs]; cbn [map combine fst snd];
    try reflexivity.
  rewrite IH. reflexivity.
Qed.

(** The curve [np.interp] draws through a table of integer sample
    points, when the table rises from the value 0 to the value 255. *)
Lemma np_interp_table (temps values : list Z) (x0 : Z) (rest : list (Z * Z)) (lo hi : Z) :
  combine temps values = (x0, 0%Z) :: rest ->
  length temps = length values ->
  risingb x0 0 rest = true ->
  List.last rest (x0, 0%Z) = (hi, 255%Z) ->
  lo = x0 ->
  exists f : R -> R,
    (forall x, np_interp x (map IZR temps) (map IZR values) = Returned (map f x)) /\
    (forall t, 0 <= f t <= 255) /\
    (forall t u, t <= u -> f t <= f u) /\
    (forall t, t <= IZR lo -> f t = 0) /\
    (forall t, IZR hi <= t -> f t = 255).
Proof.
  intros Hcombine Hlen Hrising Hlast ->.
  set (points := map (fun p : Z * Z => (IZR (fst p), IZR (snd p))) rest).
  assert (Hr : rising (IZR x0) 0 points) by (apply (risingb_rising x0 0 rest Hrising)).
  assert (Hlast' : List.last points (IZR x0, 0) = (IZR hi, 255)).
  { subst points.
    change (IZR x0, 0) with ((fun p : Z * Z => (IZR (fst p), IZR (snd p))) (x0, 0%Z)).
    rewrite last_of_map, Hlast. reflexivity. }
  exists (interp_point (IZR x0) 0 points).
  split; [|split; [|split; [|split]]].
  - intros x. unfold np_interp. rewrite !length_map, Hlen, Nat.eqb_refl. cbn [negb].
    rewrite combine_IZR, Hcombine. reflexivity.
  - intros t. pose proof (interp_point_bounds _ _ _ t Hr) as Hb.
    rewrite Hlast' in Hb. cbn [snd] in Hb. exact Hb.
  - intros t u Htu. apply interp_point_monotone; assumption.
  - intros t Ht. unfold interp_point. destruct (Rle_dec t (IZR x0)); [reflexivity|lra].
  - intros t Ht. rewrite interp_point_last; [rewrite Hlast'; reflexivity | exact Hr |].
    rewrite Hlast'. exact Ht.
Qed.

Lemma np_clip_monotone (v w lo hi : R) : v <= w -> np_clip v lo hi <= np_clip w lo hi.
Proof.
  intros Hvw. unfold np_clip, Rmin, Rmax.
  destruct (Rle_dec v lo); destruct (Rle_dec w lo);
    repeat match goal with |- context [Rle_dec ?a ?b] => destruct (Rle_dec a b) end; lra.
Qed.

Lemma np_clip_low (v lo hi : R) : lo <= hi -> v <= lo -> np_clip v lo hi = lo.
Proof.
  intros Hle Hv. unfold np_clip, Rmin, Rmax.
  destruct (Rle_dec v lo);
    repeat match goal with |- context [Rle_dec ?a ?b] => destruct (Rle_dec a b) end; lra.
Qed.

Lemma np_clip_high (v lo hi : R) : lo <= hi -> hi <= v -> np_clip v lo hi = hi.
Proof.
  intros Hle Hv. unfold np_clip, Rmin, Rmax.
  destruct (Rle_dec v lo);
    repeat match goal with |- context [Rle_dec ?a ?b] => destruct (Rle_dec a b) end; lra.
Qed.

(** What the float array [enhanced] holds: one curve applied to every
    temperature. *)
Lemma enhancement_curve_shape (channel_code : string) :
  exists f : R -> R,
    (forall temp_celsius,
       enhancement_curve channel_code temp_celsius = Returned (map f temp_celsius)) /\
    (forall t, 0 <= f t <= 255) /\
    (forall t u, t <= u ->
       if String.eqb channel_code "C07" then f u <= f t else f t <= f u) /\
    (forall t, t <= fst (enhancement_range channel_code) ->
       f t = IZR (cold_byte channel_code)) /\
    (forall t, snd (enhancement_range channel_code) <= t ->
       f t = IZR (warm_byte channel_code)).
Proof.
  unfold enhancement_curve, enhancement_range, cold_byte, warm_byte.
  destruct (String.eqb channel_code "C07").
  - exists (fun t => 255.0 - np_clip ((t - -83.0) / (127.0 - -83.0) * 255.0) 0.0 255.0).
    split; [|split; [|split; [|split]]].
    + intros temp_celsius. cbv zeta. rewrite map_map. reflexivity.
    + intros t.
      pose proof (np_clip_bounds ((t - -83.0) / (127.0 - -83.0) * 255.0) 0.0 255.0) as Hb.
      lra.
    + intros t u Htu.
      pose proof (np_clip_monotone ((t - -83.0) / (127.0 - -83.0) * 255.0)
                    ((u - -83.0) / (127.0 - -83.0) * 255.0) 0.0 255.0) as Hm.
      assert (Harg : (t - -83.0) / (127.0 - -83.0) * 255.0 <=
                     (u - -83.0) / (127.0 - -83.0) * 255.0) by lra.
      specialize (Hm Harg). lra.
    + cbn [fst]. intros t Ht. rewrite np_clip_low; lra.
    + cbn [snd]. intros t Ht. rewrite np_clip_high; lra.
  - destruct (bool_decide (channel_code ∈ WATER_VAPOR_CHANNELS)).
    + destruct (np_interp_table WATER_VAPOR_TEMPS
                  [0; 11; 22; 33; 44; 55; 66; 77; 88; 99; 110; 121; 133; 144; 155; 166;
                   177; 188; 199; 210; 221; 232; 243; 255]%Z
                  (-93)%Z (tl (combine WATER_VAPOR_TEMPS
                  [0; 11; 22; 33; 44; 55; 66; 77; 88; 99; 110; 121; 133; 144; 155; 166;
                   177; 188; 199; 210; 221; 232; 243; 255]%Z)) (-93)%Z 7%Z)
        as (f & Hf & Hrange & Hmono & Hcold & Hwarm); try reflexivity.
      exists f. split; [exact Hf|]. split; [exact Hrange|]. split; [exact Hmono|].
      split; [exact Hcold | exact Hwarm].
    + destruct (bool_decide (channel_code ∈ WINDOW_CHANNELS)).
      * destruct (np_interp_table WINDOW_TEMPS
                    [0; 6; 13; 20; 27; 34; 41; 48; 55; 62; 68; 75; 82; 89; 96; 103; 110;
                     117; 124; 130; 137; 144; 151; 158; 165; 172; 179; 186; 192; 199; 206;
                     213; 220; 227; 234; 241; 248; 255]%Z
                    (-110)%Z (tl (combine WINDOW_TEMPS
                    [0; 6; 13; 20; 27; 34; 41; 48; 55; 62; 68; 75; 82; 89; 96; 103; 110;
                     117; 124; 130; 137; 144; 151; 158; 165; 172; 179; 186; 192; 199; 206;
                     213; 220; 227; 234; 241; 248; 255]%Z)) (-110)%Z 57%Z)
          as (f & Hf & Hrange & Hmono & Hcold & Hwarm); try reflexivity.
        exists f. split; [exact Hf|]. split; [exact Hrange|]. split; [exact Hmono|].
      split; [exact Hcold | exact Hwarm].
      * exists (fun t => np_clip ((t + 100) / 200 * 255) 0 255).
        split; [|split; [|split; [|split]]].
        -- intros temp_celsius. reflexivity.
        -- intros t. apply np_clip_bounds. lra.
        -- intros t u Htu. apply np_clip_monotone. lra.
        -- cbn [fst]. intros t Ht. rewrite np_clip_low; lra.
        -- cbn [snd]. intros t Ht. rewrite np_clip_high; lra.
Qed.

Lemma py_trunc_monotone (x y : R) : 0 <= x -> x <= y -> (py_trunc x <= py_trunc y)%Z.
Proof.
  intros Hx Hxy. unfold py_trunc.
  destruct (Rle_dec 0 x) as [_|Hn]; [|contradiction].
  destruct (Rle_dec 0 y) as [_|Hn]; [|lra].
  destruct (base_Int_part x) as [Hfx _]. destruct (base_Int_part y) as [_ Hfy].
  assert (Hlt : IZR (Int_part x) < IZR (Int_part y + 1)) by (rewrite plus_IZR; lra).
  apply lt_IZR in Hlt. lia.
Qed.

(** The samples of [np.linspace] over an interval, in increasing order. *)
Lemma np_linspace_samples (start stop : R) (num : nat) :
  start <= stop -> (1 < num)%nat ->
  length (np_linspace start stop num) = num /\
  np_linspace start stop num !! 0%nat = Some start /\
  np_linspace start stop num !! (num - 1)%nat = Some stop /\
  (forall k, (k < num)%nat ->
     exists t, np_linspace start stop num !! k = Some t /\ start <= t <= stop) /\
  (forall k k' t t',
     (k <= k')%nat ->
     np_linspace start stop num !! k = Some t ->
     np_linspace start stop num !! k' = Some t' -> t <= t').
Proof.
  intros Hle Hnum.
  set (step := (stop - start) / INR (num - 1)).
  assert (Hden : 0 < INR (num - 1)) by (apply lt_0_INR; lia).
  assert (Hstep : 0 <= step).
  { unfold step. apply Rmult_le_pos; [lra|]. left. apply Rinv_0_lt_compat. exact Hden. }
  assert (Hspan : step * INR (num - 1) = stop - start) by (unfold step; field; lra).
  assert (Hlookup : forall k, (k < num)%nat ->
            np_linspace start stop num !! k =
            Some (if (1 <? num)%nat && (k =? num - 1)%nat then stop
                  else INR k * step + start)).
  { intros k Hk. unfold np_linspace. rewrite lookup_map, lookup_seq_lt by exact Hk.
    reflexivity. }
  assert (Hpoint : forall k, (k < num)%nat ->
            start <= (if (1 <? num)%nat && (k =? num - 1)%nat then stop
                      else INR k * step + start) <= stop).
  { intros k Hk. destruct ((1 <? num)%nat && (k =? num - 1)%nat); [lra|].
    assert (Hk' : INR k <= INR (num - 1)) by (apply le_INR; lia).
    pose proof (pos_INR k). nra. }
  split; [unfold np_linspace; rewrite length_map, length_seq; reflexivity|].
  split.
  { rewrite Hlookup by lia. destruct (Nat.ltb_spec 1 num) as [_|Hn]; [|lia].
    destruct (Nat.eqb_spec 0 (num - 1)) as [Heq|_]; [lia|].
    cbn [andb INR]. f_equal. lra. }
  split.
  { rewrite Hlookup by lia. destruct (Nat.ltb_spec 1 num) as [_|Hn]; [|lia].
    rewrite Nat.eqb_refl. reflexivity. }
  split.
  { intros k Hk. eexists. split; [apply Hlookup; exact Hk | apply Hpoint; exact Hk]. }
  intros k k' t t' Hkk Ht Ht'.
  assert (Hk' : (k' < num)%nat) by (apply lookup_lt_Some in Ht'; unfold np_linspace in Ht';
    rewrite length_map, length_seq in Ht'; exact Ht').
  assert (Hk : (k < num)%nat) by lia.
  rewrite Hlookup in Ht by exact Hk. rewrite Hlookup in Ht' by exact Hk'.
  injection Ht as <-. injection Ht' as <-.
  destruct (Nat.ltb_spec 1 num) as [_|Hn]; [|lia]. cbn [andb].
  destruct (Nat.eqb_spec k' (num - 1)) as [Hlast'|Hin'].
  - pose proof (Hpoint k Hk) as Hp.
    destruct (Nat.ltb_spec 1 num) as [_|Hn]; [|lia]. cbn [andb] in Hp. lra.
  - destruct (Nat.eqb_spec k (num - 1)) as [Hlast|Hin]; [lia|].
    assert (Hkk' : INR k <= INR k') by (apply le_INR; exact Hkk). nra.
Qed.

(** X24. The temperature table of a channel that is not yet cached has
    30000 samples from -150 to 150 degrees Celsius in increasing order,
    each with a byte within 0..255.  Along the table the bytes never
    decrease, except for channel C07, where they never increase.  Up to
    the cold end of the channel's range (-83 for C07, -93 for C08 to
    C10, -110 for C11 to C16, -100 for any other code) the byte is 0
    (255 for C07), and from the warm end on (127, 7, 57 and 100) it is
    255 (0 for C07).  The table is filed under the channel code, and a
    second call returns it as it is. *)
Theorem temperature_table (self : gmap string temperature_lut) (channel_code : string) :
  self !! channel_code = None ->
  exists lut : temperature_lut,
    _create_temperature_enhancement_lut self channel_code =
      Returned (lut, <[channel_code := lut]> self) /\
    _create_temperature_enhancement_lut (<[channel_code := lut]> self) channel_code =
      Returned (lut, <[channel_code := lut]> self) /\
    length (lut_temp_celsius lut) = LUT_SAMPLES /\
    length (lut_enhanced lut) = LUT_SAMPLES /\
    lut_temp_celsius lut !! 0%nat = Some (-150) /\
    lut_temp_celsius lut !! (LUT_SAMPLES - 1)%nat = Some 150 /\
    (forall k, (k < LUT_SAMPLES)%nat ->
       exists (t : R) (v : Z),
         lut_temp_celsius lut !! k = Some t /\ lut_enhanced lut !! k = Some v /\
         -150 <= t <= 150 /\ (0 <= v <= 255)%Z /\
         (t <= fst (enhancement_range channel_code) -> v = cold_byte channel_code) /\
         (snd (enhancement_range channel_code) <= t -> v = warm_byte channel_code)) /\
    (forall (k k' : nat) (t t' : R) (v v' : Z),
       (k <= k')%nat ->
       lut_temp_celsius lut !! k = Some t -> lut_temp_celsius lut !! k' = Some t' ->
       lut_enhanced lut !! k = Some v -> lut_enhanced lut !! k' = Some v' ->
       t <= t' /\
       if String.eqb channel_code "C07" then (v' <= v)%Z else (v <= v')%Z).
Proof.
  intros Hnone.
  destruct (enhancement_curve_shape channel_code) as (f & Hf & Hrange & Hmono & Hcold & Hwarm).
  assert (Hsize : (1 < LUT_SAMPLES)%nat) by (unfold LUT_SAMPLES; lia).
  destruct (np_linspace_samples (-150) 150 LUT_SAMPLES) as (Hlen & Hfirst & Hlast & Hin & Hup);
    [lra | exact Hsize |].
  set (temp_celsius := np_linspace (-150) 150 LUT_SAMPLES) in *.
  set (lut := {| lut_temp_celsius := temp_celsius;
                 lut_enhanced := map (fun v => (py_trunc v mod 256)%Z) (map f temp_celsius) |}).
  assert (Hbyte : forall t, (py_trunc (f t) mod 256)%Z = py_trunc (f t) /\
                            (0 <= py_trunc (f t) <= 255)%Z).
  { intros t. destruct (py_trunc_byte (f t) (Hrange t)) as [Hb Hm]. split; assumption. }
  assert (Henh : forall k t, temp_celsius !! k = Some t ->
            lut_enhanced lut !! k = Some (py_trunc (f t))).
  { intros k t Ht. cbn [lut lut_enhanced]. rewrite !lookup_map, Ht. cbn [option_map].
    f_equal. apply Hbyte. }
  exists lut. split; [|split; [|split; [|split; [|split; [|split; [|split]]]]]].
  - unfold _create_temperature_enhancement_lut. rewrite Hnone.
    fold temp_celsius. rewrite Hf. reflexivity.
  - unfold _create_temperature_enhancement_lut. rewrite lookup_insert_eq. reflexivity.
  - exact Hlen.
  - cbn [lut lut_enhanced]. rewrite !length_map. exact Hlen.
  - exact Hfirst.
  - exact Hlast.
  - intros k Hk. destruct (Hin k Hk) as (t & Ht & Hbounds).
    exists t, (py_trunc (f t)). split; [exact Ht|]. split; [apply Henh; exact Ht|].
    split; [exact Hbounds|]. split; [apply Hbyte|]. split.
    + intros Hc. rewrite (Hcold t Hc). apply py_trunc_IZR.
      unfold cold_byte. destruct (String.eqb channel_code "C07"); lia.
    + intros Hw. rewrite (Hwarm t Hw). apply py_trunc_IZR.
      unfold warm_byte. destruct (String.eqb channel_code "C07"); lia.
  - intros k k' t t' v v' Hkk Ht Ht' Hv Hv'.
    cbn [lut lut_temp_celsius] in Ht, Ht'.
    rewrite (Henh k t Ht) in Hv. rewrite (Henh k' t' Ht') in Hv'.
    injection Hv as <-. injection Hv' as <-.
    pose proof (Hup k k' t t' Hkk Ht Ht') as Htt. split; [exact Htt|].
    specialize (Hmono t t' Htt).
    destruct (String.eqb channel_code "C07");
      apply py_trunc_monotone; solve [apply Hrange | exact Hmono].
Qed.

End TemperatureTableFacts.

Lemma temperature_table_witness :
  exists lut : temperature_lut,
    _create_temperature_enhancement_lut ∅ "C13" = Returned (lut, {[ "C13"%string := lut ]}) /\
    lut_enhanced lut !! (LUT_SAMPLES - 1)%nat = Some 255%Z.
Proof.
  destruct (temperature_table ∅ "C13" (lookup_empty _))
    as (lut & Hcreate & _ & _ & _ & _ & Hlast & Hin & _).
  exists lut. split; [exact Hcreate|].
  destruct (Hin (LUT_SAMPLES - 1)%nat) as (t & v & Ht & Hv & _ & _ & _ & Hwarm);
    [unfold LUT_SAMPLES; lia|].
  rewrite Hv. f_equal. rewrite Hlast in Ht. injection Ht as <-.
  apply Hwarm. change (57 <= 150)%R. lra.
Defined.
